(** * Connection-details endpoint and person selector: a shallow embedding

    The development follows the TypeScript sources:

    - [frontend/app/api/connection-details/route.ts] (module [Route]) and the
      second handler file, which derives a bot name (module [Part001]);
    - [frontend/components/Dropdown.tsx] (module [Dropdown]) and the second
      component file, a restyled copy (module [Part000]).

    JavaScript strings are sequences of UTF-16 code units.  [JSON.parse] and
    [JSON.stringify] are modelled after ECMA-262 (sections 25.5.1 and 25.5.2);
    the conversion between number literals and IEEE doubles is kept behind the
    interface [NumberOps]. *)

From Stdlib Require Import NArith ZArith Ascii String List Bool Lia.
From stdpp Require Import base option list gmap.
Import ListNotations.

Local Open Scope nat_scope.

(** ** Strings as code-unit sequences *)

(** A string is the list of its code units. *)
Definition jsstring := list N.

(** A source literal (ASCII only) as a JavaScript string. *)
Definition js (s : string) : jsstring :=
  List.map N_of_ascii (list_ascii_of_string s).

Definition is_char (c : N) (a : ascii) : bool := N.eqb c (N_of_ascii a).
Arguments is_char _ _%_char.

(** The double quote. *)
Definition dquote : ascii := ascii_of_N 34.

Definition is_digit (c : N) : bool := (N.leb 48 c) && (N.leb c 57).

Definition is_ws (c : N) : bool :=
  N.eqb c 9 || N.eqb c 10 || N.eqb c 13 || N.eqb c 32.

Fixpoint skip_ws (s : jsstring) : jsstring :=
  match s with
  | c :: r => if is_ws c then skip_ws r else s
  | [] => []
  end.

Fixpoint strip_prefix (p s : jsstring) : option jsstring :=
  match p, s with
  | [], _ => Some s
  | a :: p', b :: s' => if N.eqb a b then strip_prefix p' s' else None
  | _ :: _, [] => None
  end.

(** ** Number literals (the JSONNumber production) *)

Fixpoint span_digits (s : jsstring) : jsstring * jsstring :=
  match s with
  | c :: r =>
      if is_digit c then let (d, r') := span_digits r in (c :: d, r')
      else ([], s)
  | [] => ([], [])
  end.

Definition scan_sign (s : jsstring) : option (jsstring * jsstring) :=
  match s with
  | c :: r => if is_char c "-" then Some ([c], r) else Some ([], s)
  | [] => Some ([], [])
  end.

Definition scan_int (s : jsstring) : option (jsstring * jsstring) :=
  match s with
  | c :: r =>
      if is_char c "0" then Some ([c], r)
      else if is_digit c then let (d, r') := span_digits r in Some (c :: d, r')
      else None
  | [] => None
  end.

Definition scan_frac (s : jsstring) : option (jsstring * jsstring) :=
  match s with
  | c :: r =>
      if is_char c "." then
        match span_digits r with
        | ([], _) => None
        | (d, r') => Some (c :: d, r')
        end
      else Some ([], s)
  | [] => Some ([], [])
  end.

Definition scan_exp (s : jsstring) : option (jsstring * jsstring) :=
  match s with
  | c :: r =>
      if is_char c "e" || is_char c "E" then
        let (sg, r1) :=
          match r with
          | c' :: r' =>
              if is_char c' "+" || is_char c' "-" then ([c'], r') else ([], r)
          | [] => ([], [])
          end in
        match span_digits r1 with
        | ([], _) => None
        | (d, r2) => Some (c :: sg ++ d, r2)
        end
      else Some ([], s)
  | [] => Some ([], [])
  end.

(** Sequencing of two scanners: the lexemes are concatenated. *)
Definition scan_then (p q : jsstring -> option (jsstring * jsstring))
    (s : jsstring) : option (jsstring * jsstring) :=
  match p s with
  | Some (a, r) =>
      match q r with
      | Some (b, r') => Some (a ++ b, r')
      | None => None
      end
  | None => None
  end.

Definition scan_number : jsstring -> option (jsstring * jsstring) :=
  scan_then scan_sign (scan_then scan_int (scan_then scan_frac scan_exp)).

Definition json_number_literal (l : jsstring) : bool :=
  match scan_number l with
  | Some (_, []) => true
  | _ => false
  end.

(** ** The number interface

    [StringToNumber] rounds a literal to a double, [NumberToString] is
    Number::toString, [number_is_finite] is false on the infinities (a
    literal such as 1e999 rounds to one) and [number_to_boolean] is ToBoolean
    on numbers (false on both zeros). *)

Class NumberOps := {
  Number : Type;
  StringToNumber : jsstring -> Number;
  NumberToString : Number -> jsstring;
  number_is_finite : Number -> bool;
  number_to_boolean : Number -> bool
}.

(** What the proofs use of Number::toString: on a finite number it yields a
    JSON number literal. *)
Class NumberLaws (NO : NumberOps) : Prop := {
  NumberToString_literal :
    forall n : Number, number_is_finite n = true ->
      json_number_literal (NumberToString n) = true
}.

(** ** String literals *)

Definition hex_value (c : N) : option N :=
  if is_digit c then Some (c - 48)%N
  else if (N.leb 97 c) && (N.leb c 102) then Some (c - 87)%N
  else if (N.leb 65 c) && (N.leb c 70) then Some (c - 55)%N
  else None.

Definition hex_digit (d : N) : N :=
  if N.ltb d 10 then (48 + d)%N else (87 + d)%N.

Definition unicode_escape (c : N) : jsstring :=
  [92; 117;
   hex_digit ((c / 4096) mod 16); hex_digit ((c / 256) mod 16);
   hex_digit ((c / 16) mod 16); hex_digit (c mod 16)]%N.

Definition hex4 (a b c d : N) : option N :=
  match hex_value a, hex_value b, hex_value c, hex_value d with
  | Some x, Some y, Some z, Some w => Some (4096 * x + 256 * y + 16 * z + w)%N
  | _, _, _, _ => None
  end.

(** The single-character escapes of JSON.parse. *)
Definition unescape_char (e : N) : option N :=
  if is_char e dquote then Some 34%N
  else if is_char e "\" then Some 92%N
  else if is_char e "/" then Some 47%N
  else if is_char e "b" then Some 8%N
  else if is_char e "f" then Some 12%N
  else if is_char e "n" then Some 10%N
  else if is_char e "r" then Some 13%N
  else if is_char e "t" then Some 9%N
  else None.

(** The body of a string literal, after the opening quote. *)
Fixpoint parse_string_body (s : jsstring) : option (jsstring * jsstring) :=
  match s with
  | [] => None
  | c :: t =>
      if is_char c dquote then Some ([], t)
      else if is_char c "\" then
        match t with
        | [] => None
        | e :: t1 =>
            if is_char e "u" then
              match t1 with
              | h1 :: h2 :: h3 :: h4 :: t2 =>
                  match hex4 h1 h2 h3 h4 with
                  | Some u =>
                      match parse_string_body t2 with
                      | Some (str, r) => Some (u :: str, r)
                      | None => None
                      end
                  | None => None
                  end
              | _ => None
              end
            else
              match unescape_char e with
              | Some u =>
                  match parse_string_body t1 with
                  | Some (str, r) => Some (u :: str, r)
                  | None => None
                  end
              | None => None
              end
        end
      else if N.ltb c 32 then None
      else
        match parse_string_body t with
        | Some (str, r) => Some (c :: str, r)
        | None => None
        end
  end.

(** The two-character escapes of QuoteJSONString (table 75 of ECMA-262). *)
Definition escape_char (c : N) : option N :=
  if N.eqb c 8 then Some (N_of_ascii "b")
  else if N.eqb c 9 then Some (N_of_ascii "t")
  else if N.eqb c 10 then Some (N_of_ascii "n")
  else if N.eqb c 12 then Some (N_of_ascii "f")
  else if N.eqb c 13 then Some (N_of_ascii "r")
  else if N.eqb c 34 then Some 34%N
  else if N.eqb c 92 then Some 92%N
  else None.

Definition is_leading_surrogate (c : N) : bool :=
  (N.leb 55296 c) && (N.leb c 56319).
Definition is_trailing_surrogate (c : N) : bool :=
  (N.leb 56320 c) && (N.leb c 57343).

(** QuoteJSONString without the quotes: a surrogate pair is copied, a lone
    surrogate and a control character become a \u escape. *)
Fixpoint quote_body (s : jsstring) : jsstring :=
  match s with
  | [] => []
  | c :: t =>
      match escape_char c with
      | Some e => 92%N :: e :: quote_body t
      | None =>
          if N.ltb c 32 then unicode_escape c ++ quote_body t
          else if is_leading_surrogate c then
            match t with
            | d :: t' =>
                if is_trailing_surrogate d then c :: d :: quote_body t'
                else unicode_escape c ++ quote_body t
            | [] => unicode_escape c
            end
          else if is_trailing_surrogate c then unicode_escape c ++ quote_body t
          else c :: quote_body t
      end
  end.

Definition QuoteJSONString (s : jsstring) : jsstring :=
  34%N :: quote_body s ++ [34%N].

(** ** JSON values and ordinary objects *)

Section Values.
Context {NO : NumberOps}.

(** The values [JSON.parse] can return.  An object is the list of its own
    properties in the order OrdinaryOwnPropertyKeys reports them. *)
Unset Elimination Schemes.
Inductive value : Type :=
| JNull
| JBool (b : bool)
| JNumber (n : Number)
| JString (s : jsstring)
| JArray (elems : list value)
| JObject (props : list (jsstring * value)).
Set Elimination Schemes.

Definition object := list (jsstring * value).

(** Induction that also descends into array elements and property values. *)
Definition value_ind (P : value -> Prop)
    (Hnull : P JNull)
    (Hbool : forall b, P (JBool b))
    (Hnum : forall n, P (JNumber n))
    (Hstr : forall s, P (JString s))
    (Harr : forall l, Forall P l -> P (JArray l))
    (Hobj : forall o, Forall (fun kv => P (snd kv)) o -> P (JObject o)) :
    forall v, P v :=
  fix go (v : value) : P v :=
    match v with
    | JNull => Hnull
    | JBool b => Hbool b
    | JNumber n => Hnum n
    | JString s => Hstr s
    | JArray l =>
        Harr l ((fix go_list (l : list value) : Forall P l :=
                   match l with
                   | [] => @List.Forall_nil _ P
                   | x :: t => @List.Forall_cons _ P x t (go x) (go_list t)
                   end) l)
    | JObject o =>
        Hobj o ((fix go_props (o : list (jsstring * value))
                   : Forall (fun kv => P (snd kv)) o :=
                   match o with
                   | [] => @List.Forall_nil _ _
                   | kv :: t =>
                       @List.Forall_cons _ (fun kv => P (snd kv)) kv t
                         (go (snd kv)) (go_props t)
                   end) o)
    end.

Definition jsstring_eqb (a b : jsstring) : bool :=
  if decide (a = b) then true else false.

(** A property key is an array index when it is the canonical decimal
    spelling of an integer below 2^32 - 1: converting it to a number and
    back gives the key again.  Such a spelling has at most ten digits. *)
Definition digits_value (s : jsstring) : N :=
  fold_left (fun a c => (10 * a + (c - 48))%N) s 0%N.

Fixpoint uint_digits (d : Decimal.uint) : jsstring :=
  match d with
  | Decimal.Nil => []
  | Decimal.D0 d' => 48%N :: uint_digits d'
  | Decimal.D1 d' => 49%N :: uint_digits d'
  | Decimal.D2 d' => 50%N :: uint_digits d'
  | Decimal.D3 d' => 51%N :: uint_digits d'
  | Decimal.D4 d' => 52%N :: uint_digits d'
  | Decimal.D5 d' => 53%N :: uint_digits d'
  | Decimal.D6 d' => 54%N :: uint_digits d'
  | Decimal.D7 d' => 55%N :: uint_digits d'
  | Decimal.D8 d' => 56%N :: uint_digits d'
  | Decimal.D9 d' => 57%N :: uint_digits d'
  end.

Definition decimal (n : N) : jsstring := uint_digits (N.to_uint n).

Definition array_index (k : jsstring) : option N :=
  if Nat.leb (length k) 10 then
    let i := digits_value k in
    if jsstring_eqb k (decimal i) && N.ltb i 4294967295 then Some i
    else None
  else None.

Fixpoint obj_get (k : jsstring) (o : object) : option value :=
  match o with
  | [] => None
  | (k', v) :: t => if jsstring_eqb k k' then Some v else obj_get k t
  end.

Fixpoint obj_replace (k : jsstring) (v : value) (o : object) : object :=
  match o with
  | [] => []
  | (k', v') :: t =>
      if jsstring_eqb k k' then (k', v) :: t
      else (k', v') :: obj_replace k v t
  end.

(** A new index key goes before the first key that is a larger index or no
    index at all. *)
Fixpoint obj_insert_index (i : N) (k : jsstring) (v : value) (o : object)
    : object :=
  match o with
  | [] => [(k, v)]
  | (k', v') :: t =>
      match array_index k' with
      | Some j =>
          if N.ltb j i then (k', v') :: obj_insert_index i k v t
          else (k, v) :: o
      | None => (k, v) :: o
      end
  end.

(** CreateDataProperty on an ordinary extensible object: an existing
    property keeps its place and takes the new value; a new one is added,
    index keys in ascending order before all other keys, which stay in
    creation order. *)
Definition obj_set (k : jsstring) (v : value) (o : object) : object :=
  match obj_get k o with
  | Some _ => obj_replace k v o
  | None =>
      match array_index k with
      | Some i => obj_insert_index i k v o
      | None => o ++ [(k, v)]
      end
  end.

(** ** JSON.parse *)

Definition keyword (kw : string) (v : value) (s : jsstring)
    : option (value * jsstring) :=
  match strip_prefix (js kw) s with
  | Some r => Some (v, r)
  | None => None
  end.

(** The recursion is on a fuel argument; [JSON_parse] starts it with the
    length of the text, which is always enough ([parse_value_fuel]). *)
Fixpoint parse_value (fuel : nat) (s : jsstring) {struct fuel}
    : option (value * jsstring) :=
  match fuel with
  | O => None
  | S fuel' =>
      match skip_ws s with
      | [] => None
      | c :: r =>
          if is_char c "{" then
            match skip_ws r with
            | c' :: r' =>
                if is_char c' "}" then Some (JObject [], r')
                else
                  match parse_members fuel' [] r with
                  | Some (o, r'') => Some (JObject o, r'')
                  | None => None
                  end
            | [] => None
            end
          else if is_char c "[" then
            match skip_ws r with
            | c' :: r' =>
                if is_char c' "]" then Some (JArray [], r')
                else
                  match parse_elements fuel' r with
                  | Some (l, r'') => Some (JArray l, r'')
                  | None => None
                  end
            | [] => None
            end
          else if is_char c dquote then
            match parse_string_body r with
            | Some (str, r') => Some (JString str, r')
            | None => None
            end
          else if is_char c "t" then keyword "true" (JBool true) (c :: r)
          else if is_char c "f" then keyword "false" (JBool false) (c :: r)
          else if is_char c "n" then keyword "null" JNull (c :: r)
          else
            match scan_number (c :: r) with
            | Some (lit, r') => Some (JNumber (StringToNumber lit), r')
            | None => None
            end
      end
  end
with parse_elements (fuel : nat) (s : jsstring) {struct fuel}
    : option (list value * jsstring) :=
  match fuel with
  | O => None
  | S fuel' =>
      match parse_value fuel' s with
      | Some (v, r) =>
          match skip_ws r with
          | c :: r' =>
              if is_char c "," then
                match parse_elements fuel' r' with
                | Some (l, r'') => Some (v :: l, r'')
                | None => None
                end
              else if is_char c "]" then Some ([v], r')
              else None
          | [] => None
          end
      | None => None
      end
  end
with parse_members (fuel : nat) (acc : object) (s : jsstring) {struct fuel}
    : option (object * jsstring) :=
  match fuel with
  | O => None
  | S fuel' =>
      match skip_ws s with
      | c :: r =>
          if is_char c dquote then
            match parse_string_body r with
            | Some (k, r1) =>
                match skip_ws r1 with
                | c1 :: r2 =>
                    if is_char c1 ":" then
                      match parse_value fuel' r2 with
                      | Some (v, r3) =>
                          match skip_ws r3 with
                          | c3 :: r4 =>
                              if is_char c3 "," then
                                parse_members fuel' (obj_set k v acc) r4
                              else if is_char c3 "}" then
                                Some (obj_set k v acc, r4)
                              else None
                          | [] => None
                          end
                      | None => None
                      end
                    else None
                | [] => None
                end
            | None => None
            end
          else None
      | [] => None
      end
  end.

(** [None] stands for the SyntaxError that JSON.parse throws. *)
Definition JSON_parse (text : jsstring) : option value :=
  match parse_value (length text) text with
  | Some (v, r) =>
      match skip_ws r with
      | [] => Some v
      | _ :: _ => None
      end
  | None => None
  end.

(** ** JSON.stringify (no replacer, no indentation) *)

Fixpoint join_comma (parts : list jsstring) : jsstring :=
  match parts with
  | [] => []
  | [p] => p
  | p :: t => p ++ N_of_ascii "," :: join_comma t
  end.

Fixpoint JSON_stringify (v : value) : jsstring :=
  match v with
  | JNull => js "null"
  | JBool true => js "true"
  | JBool false => js "false"
  | JNumber n => if number_is_finite n then NumberToString n else js "null"
  | JString s => QuoteJSONString s
  | JArray l =>
      N_of_ascii "[" :: join_comma (List.map JSON_stringify l)
        ++ [N_of_ascii "]"]
  | JObject o =>
      N_of_ascii "{"
        :: join_comma
             (List.map (fun kv : jsstring * value =>
                          match kv with
                          | (k, x) =>
                              QuoteJSONString k
                                ++ N_of_ascii ":" :: JSON_stringify x
                          end) o)
        ++ [N_of_ascii "}"]
  end.

(** ToBoolean. *)
Definition ToBoolean (v : value) : bool :=
  match v with
  | JNull => false
  | JBool b => b
  | JNumber n => number_to_boolean n
  | JString s => negb (Nat.eqb (length s) 0)
  | JArray _ | JObject _ => true
  end.

End Values.

(** ** Exceptions, the console and the signing library *)

Inductive exn : Type :=
| SyntaxError
| TypeError
| Error (message : jsstring).

Inductive outcome (A : Type) : Type :=
| Return (a : A)
| Throw (e : exn).
Arguments Return {A} a.
Arguments Throw {A} e.

(** AccessTokenOptions, VideoGrant and AccessToken of livekit-server-sdk, as
    far as the handlers use them. *)
Record AccessTokenOptions := {
  identity : jsstring;
  name : jsstring;
  metadata : jsstring
}.

Record VideoGrant := {
  room : jsstring;
  roomJoin : bool;
  canPublish : bool;
  canPublishData : bool;
  canSubscribe : bool
}.

(** [ttl = None] is the library default; [video = None] is no grant yet. *)
Record AccessToken := {
  apiKey : option jsstring;
  apiSecret : option jsstring;
  options : AccessTokenOptions;
  ttl : option jsstring;
  video : option VideoGrant
}.

Definition new_AccessToken (key secret : option jsstring)
    (userInfo : AccessTokenOptions) : AccessToken :=
  {| apiKey := key; apiSecret := secret; options := userInfo;
     ttl := None; video := None |}.

Definition set_ttl (at_ : AccessToken) (t : jsstring) : AccessToken :=
  {| apiKey := apiKey at_; apiSecret := apiSecret at_;
     options := options at_; ttl := Some t; video := video at_ |}.

Definition addGrant (at_ : AccessToken) (g : VideoGrant) : AccessToken :=
  {| apiKey := apiKey at_; apiSecret := apiSecret at_;
     options := options at_; ttl := ttl at_; video := Some g |}.

(** A time span the way the signing library reads a [ttl] string: a decimal
    count followed by one of the units s, m, h, d; the result is in seconds. *)
Definition timespan_seconds (t : jsstring) : option N :=
  match span_digits t with
  | ([], _) => None
  | (d, [u]) =>
      if is_char u "s" then Some (digits_value d)
      else if is_char u "m" then Some (60 * digits_value d)%N
      else if is_char u "h" then Some (3600 * digits_value d)%N
      else if is_char u "d" then Some (86400 * digits_value d)%N
      else None
  | _ => None
  end.

Inductive console_level : Type := LOG | WARN | ERROR.

Inductive console_arg : Type :=
| Text (s : jsstring)
| Caught (e : exn).

(** What a handler does besides returning: console output and calls of the
    signing library, in the order they happen. *)
Inductive event : Type :=
| Console (level : console_level) (args : list console_arg)
| ToJwt (token : AccessToken).

(** Computations that log events and may throw. *)
Definition Eff (A : Type) : Type := list event -> outcome A * list event.

#[export] Instance Eff_ret : MRet Eff := fun A a => fun log => (Return a, log).

#[export] Instance Eff_bind : MBind Eff := fun A B f m => fun log =>
  match m log with
  | (Return a, log') => f a log'
  | (Throw e, log') => (Throw e, log')
  end.

Definition throw {A : Type} (e : exn) : Eff A := fun log => (Throw e, log).

Definition emit (e : event) : Eff unit := fun log => (Return tt, log ++ [e]).

Definition try_catch {A : Type} (body : Eff A) (handler : exn -> Eff A)
    : Eff A := fun log =>
  match body log with
  | (Return a, log') => (Return a, log')
  | (Throw e, log') => handler e log'
  end.

Definition lift {A : Type} (o : outcome A) : Eff A := fun log => (o, log).

Definition console_log (args : list console_arg) : Eff unit :=
  emit (Console LOG args).
Definition console_warn (args : list console_arg) : Eff unit :=
  emit (Console WARN args).
Definition console_error (args : list console_arg) : Eff unit :=
  emit (Console ERROR args).

(** The signs that open the log lines. *)
Definition warning_sign : jsstring := [9888; 65039]%N.
Definition check_mark : jsstring := [9989]%N.
Definition cross_mark : jsstring := [10060]%N.
Definition rocket : jsstring := [55357; 56960]%N.

(** ** Requests and responses *)

Record NextRequest := { searchParams : list (jsstring * jsstring) }.

(** URLSearchParams.get: the first value under the name, or null. *)
Fixpoint searchParams_get (key : jsstring) (ps : list (jsstring * jsstring))
    : option jsstring :=
  match ps with
  | [] => None
  | (k, v) :: t => if jsstring_eqb key k then Some v else searchParams_get key t
  end.

Record ConnectionDetails := {
  serverUrl : option jsstring;
  roomName : jsstring;
  participantToken : jsstring;
  participantName : jsstring
}.

Inductive response_body : Type :=
| PlainText (s : jsstring)
| Json (d : ConnectionDetails).

Record NextResponse := { status : nat; body : response_body }.

Definition new_NextResponse (text : jsstring) (st : nat) : NextResponse :=
  {| status := st; body := PlainText text |}.

Definition NextResponse_json (d : ConnectionDetails) : NextResponse :=
  {| status := 200; body := Json d |}.

(** [!x] on a value of type [string | null]. *)
Definition falsy (x : option jsstring) : bool :=
  match x with
  | Some (_ :: _) => false
  | _ => true
  end.

(** The string behind a value that a guard has found truthy. *)
Definition narrowed (x : option jsstring) : jsstring := default [] x.

(** Modelled from the spec: the alphabet of [randomString], the
    alphanumeric characters. *)
Definition characters : jsstring :=
  js "ABCDEFGHIJKLMNOPQRSTUVWXYZabcdefghijklmnopqrstuvwxyz0123456789".

(** Modelled from the spec: [randomString] of [@/lib/client-utils], which is
    not among the sources.  The spec gives a random alphanumeric suffix of the
    requested length from a source that need not be cryptographically
    secure; [draws i] is the i-th draw of that source. *)
Definition randomString (draws : nat -> N) (len : nat) : jsstring :=
  List.map (fun i => nth (N.to_nat (draws i mod 62)) characters 0%N)
    (seq 0 len).

Definition is_alphanumeric (c : N) : bool :=
  is_digit c || (N.leb 65 c && N.leb c 90) || (N.leb 97 c && N.leb c 122).

Section Properties.
Context {NO : NumberOps}.

(** An object literal: the properties are created from left to right. *)
Definition object_literal (props : list (jsstring * value)) : object :=
  fold_left (fun o kv => obj_set (fst kv) (snd kv) o) props [].

(** [v.k] for a key that is no index, not "length" and no property of the
    built-in prototypes: null has no properties at all, a primitive and an
    array have none under such a key, an object has its own.  [None] is
    undefined. *)
Definition GetV (v : value) (k : jsstring) : outcome (option value) :=
  match v with
  | JNull => Throw TypeError
  | JObject o => Return (obj_get k o)
  | _ => Return None
  end.

(** [v.k = x] in strict code (module code is strict), for such a key.  A
    primitive cannot take a property.  An array takes it, but as
    SerializeJSONArray only reads the indices below its length the property
    never shows in the output, and the model drops it at once. *)
Definition PutValue (v : value) (k : jsstring) (x : value) : outcome value :=
  match v with
  | JObject o => Return (JObject (obj_set k x o))
  | JArray l => Return (JArray l)
  | _ => Throw TypeError
  end.

(** [a || b] with [b] defined. *)
Definition or_else (a : option value) (b : value) : value :=
  match a with
  | Some x => if ToBoolean x then x else b
  | None => b
  end.

Definition JSON_parse_eff (text : jsstring) : Eff value :=
  match JSON_parse text with
  | Some v => mret v
  | None => throw SyntaxError
  end.
End Properties.

(** ** frontend/app/api/connection-details/route.ts *)

Module Route.
Section Handler.
Context {NO : NumberOps}.

(** [process.env], [String.prototype.toUpperCase], the draws behind
    [randomString] and the signing call [AccessToken.toJwt]. *)
Variable env : gmap jsstring jsstring.
Variable toUpperCase : jsstring -> jsstring.
Variable draws : nat -> N.
Variable toJwt : AccessToken -> outcome jsstring.

Definition API_KEY : option jsstring := env !! js "LIVEKIT_API_KEY".
Definition API_SECRET : option jsstring := env !! js "LIVEKIT_API_SECRET".
Definition LIVEKIT_URL : option jsstring := env !! js "LIVEKIT_URL".

Definition createParticipantToken (userInfo : AccessTokenOptions)
    (roomName : jsstring) : Eff jsstring :=
  let at_ := new_AccessToken API_KEY API_SECRET userInfo in
  let at_ := set_ttl at_ (js "5m") in
  let at_ :=
    addGrant at_
      {| room := roomName; roomJoin := true; canPublish := true;
         canPublishData := true; canSubscribe := true |} in
  emit (ToJwt at_) ;; lift (toJwt at_).

(** The inner try/catch: the text is kept when it parses. *)
Definition ensure_json (participantName metadata : jsstring) : Eff jsstring :=
  try_catch
    (JSON_parse_eff metadata ;; mret metadata)
    (fun _ =>
       console_error
         [Text (cross_mark ++ js " Invalid JSON metadata: " ++ metadata)] ;;
       mret (JSON_stringify
               (JObject (object_literal
                           [(js "selectedPerson", JString participantName)])))).

Definition GET (request : NextRequest) : Eff NextResponse :=
  try_catch
    (let roomName := searchParams_get (js "roomName") (searchParams request) in
     let participantName :=
       searchParams_get (js "participantName") (searchParams request) in
     let metadata :=
       default [] (searchParams_get (js "metadata") (searchParams request)) in
     if falsy roomName || falsy participantName then
       mret (new_NextResponse (js "Missing required parameters") 400)
     else
       let roomName := narrowed roomName in
       let participantName := narrowed participantName in
       (if falsy (Some metadata) then
          console_warn
            [Text (warning_sign
                     ++ js " Warning: No metadata received for participant "
                     ++ participantName)]
        else
          console_log
            [Text (check_mark ++ js " Received metadata for "
                     ++ participantName ++ js ": " ++ metadata)]) ;;
       metadata ← ensure_json participantName metadata ;
       console_log
         [Text (rocket ++ js " Assigning metadata to participant "
                  ++ participantName ++ js ":");
          Text metadata] ;;
       let participantIdentity :=
         participantName ++ js "__" ++ randomString draws 4 in
       participantToken ←
         createParticipantToken
           {| identity := participantIdentity; name := participantName;
              metadata := metadata |}
           roomName ;
       mret (NextResponse_json
               {| serverUrl := LIVEKIT_URL; roomName := roomName;
                  participantToken := participantToken;
                  participantName := participantName |}))
    (fun error =>
       console_error
         [Text (cross_mark ++ js " Error generating participant token:");
          Caught error] ;;
       mret (new_NextResponse (js "Internal Server Error") 500)).

Definition getLiveKitURL (region : option jsstring) : outcome jsstring :=
  let targetKey := js "LIVEKIT_URL" in
  let targetKey :=
    if falsy region then targetKey
    else toUpperCase (js "LIVEKIT_URL_" ++ narrowed region) in
  let url := env !! targetKey in
  if falsy url then Throw (Error (targetKey ++ js " is not defined"))
  else Return (narrowed url).
End Handler.
End Route.

(** ** The second handler file (bot name derived from the selected person) *)

Module Part001.
Section Handler.
Context {NO : NumberOps}.

Variable env : gmap jsstring jsstring.
Variable draws : nat -> N.
Variable toJwt : AccessToken -> outcome jsstring.

Definition API_KEY : option jsstring := env !! js "LIVEKIT_API_KEY".
Definition API_SECRET : option jsstring := env !! js "LIVEKIT_API_SECRET".
Definition LIVEKIT_URL : option jsstring := env !! js "LIVEKIT_URL".

Definition createParticipantToken (userInfo : AccessTokenOptions)
    (roomName : jsstring) : Eff jsstring :=
  let at_ := new_AccessToken API_KEY API_SECRET userInfo in
  let at_ := set_ttl at_ (js "5m") in
  let at_ :=
    addGrant at_
      {| room := roomName; roomJoin := true; canPublish := true;
         canPublishData := true; canSubscribe := true |} in
  emit (ToJwt at_) ;; lift (toJwt at_).

(** The inner try/catch: parse, set botName, serialize again. *)
Definition derive_botName (participantName metadata : jsstring)
    : Eff jsstring :=
  try_catch
    (parsedMetadata ← JSON_parse_eff metadata ;
     selected ← lift (GetV parsedMetadata (js "selectedPerson")) ;
     parsedMetadata ←
       lift (PutValue parsedMetadata (js "botName")
               (or_else selected (JString participantName))) ;
     mret (JSON_stringify parsedMetadata))
    (fun _ =>
       console_error
         [Text (cross_mark ++ js " Invalid JSON metadata: " ++ metadata)] ;;
       mret (JSON_stringify
               (JObject (object_literal
                           [(js "selectedPerson", JString participantName);
                            (js "botName", JString participantName)])))).

Definition GET (request : NextRequest) : Eff NextResponse :=
  try_catch
    (let roomName := searchParams_get (js "roomName") (searchParams request) in
     let participantName :=
       searchParams_get (js "participantName") (searchParams request) in
     let metadata :=
       default [] (searchParams_get (js "metadata") (searchParams request)) in
     if falsy roomName || falsy participantName then
       mret (new_NextResponse (js "Missing required parameters") 400)
     else
       let roomName := narrowed roomName in
       let participantName := narrowed participantName in
       metadata ← derive_botName participantName metadata ;
       console_log
         [Text (rocket ++ js " Assigning metadata to participant "
                  ++ participantName ++ js ":");
          Text metadata] ;;
       let participantIdentity :=
         participantName ++ js "__" ++ randomString draws 4 in
       participantToken ←
         createParticipantToken
           {| identity := participantIdentity; name := participantName;
              metadata := metadata |}
           roomName ;
       mret (NextResponse_json
               {| serverUrl := LIVEKIT_URL; roomName := roomName;
                  participantToken := participantToken;
                  participantName := participantName |}))
    (fun error =>
       console_error
         [Text (cross_mark ++ js " Error generating participant token:");
          Caught error] ;;
       mret (new_NextResponse (js "Internal Server Error") 500)).
End Handler.
End Part001.

(** ** The selector component

    A render maps the state of the two [useState] cells to a view; the view
    carries the click handlers as the list of calls they make.  A click runs
    the handler of the control it hits, if the view has that control. *)

Module UI.
Record state := { isOpen : bool; selectedPerson : jsstring }.

(** The calls a handler makes: the two state setters and the prop. *)
Inductive call : Type :=
| setIsOpen (b : bool)
| setSelectedPerson (person : jsstring)
| onSelect (person : jsstring).

Record item := {
  key : nat;
  item_onClick : list call;
  whileHover_scale : string;
  whileTap_scale : string;
  item_className : string;
  item_text : jsstring
}.

Record menu := {
  initial_y : Z;
  exit_y : Z;
  menu_className : string;
  items : list item
}.

Record view := {
  root_className : string;
  button_onClick : list call;
  button_className : string;
  label_className : string;
  label : jsstring;
  chevron_rotate : Z;
  chevron_className : string;
  list_ : option menu
}.

(** [people.map((person, index) => ...)]. *)
Definition mapi {A B : Type} (f : A -> nat -> B) (l : list A) : list B :=
  List.map (fun p => f (snd p) (fst p)) (combine (seq 0 (length l)) l).

(** The state setters take effect for the next render; [onSelect] goes to
    the parent.  The result is the next state and the calls of [onSelect]. *)
Fixpoint run_calls (cs : list call) (st : state) : state * list jsstring :=
  match cs with
  | [] => (st, [])
  | setIsOpen b :: t =>
      run_calls t {| isOpen := b; selectedPerson := selectedPerson st |}
  | setSelectedPerson p :: t =>
      run_calls t {| isOpen := isOpen st; selectedPerson := p |}
  | onSelect p :: t =>
      let (st', out) := run_calls t st in (st', p :: out)
  end.

Inductive click : Type :=
| ClickButton
| ClickItem (index : nat).

(** The handler a click reaches in a view, if the control is there. *)
Definition handler_of (v : view) (c : click) : option (list call) :=
  match c with
  | ClickButton => Some (button_onClick v)
  | ClickItem i =>
      match list_ v with
      | Some m => option_map item_onClick (nth_error (items m) i)
      | None => None
      end
  end.

(** What a view shows apart from its styling: the label, the direction of
    the chevron and the texts of the options when the list is there. *)
Definition content (v : view) : jsstring * Z * option (list jsstring) :=
  (label v, chevron_rotate v,
   option_map (fun m => List.map item_text (items m)) (list_ v)).

(** A view with its styling removed: class names, offsets and scales are
  blanked; labels, texts, keys and handlers stay. *)
Definition unstyled_item (i : item) : item :=
{| key := key i; item_onClick := item_onClick i;
   whileHover_scale := EmptyString; whileTap_scale := EmptyString;
   item_className := EmptyString; item_text := item_text i |}.

Definition unstyled (v : view) : view :=
{| root_className := EmptyString;
   button_onClick := button_onClick v;
   button_className := EmptyString;
   label_className := EmptyString;
   label := label v;
   chevron_rotate := chevron_rotate v;
   chevron_className := EmptyString;
   list_ :=
     option_map
       (fun m => {| initial_y := 0%Z; exit_y := 0%Z;
                    menu_className := EmptyString;
                    items := List.map unstyled_item (items m) |})
       (list_ v) |}.

Definition Closed (st : state) : Prop := isOpen st = false.
Definition Open (st : state) : Prop := isOpen st = true.
End UI.

(** ** frontend/components/Dropdown.tsx *)

Module Dropdown.
Import UI.

Definition initial : state := {| isOpen := false; selectedPerson := js "Ram" |}.

Definition people : list jsstring := [js "Ram"; js "Shyam"; js "Ketan"].

Definition render (st : state) : view :=
  {| root_className := "relative w-72 mx-auto mt-10";
     button_onClick := [setIsOpen (negb (isOpen st))];
     button_className :=
       "w-full bg-gradient-to-r from-blue-500 to-purple-600 text-white py-4 px-6 rounded-2xl shadow-xl flex justify-between items-center border border-transparent hover:from-blue-600 hover:to-purple-700 focus:outline-none focus:ring-4 focus:ring-purple-300 transition-all";
     label_className := "font-semibold text-lg";
     label := selectedPerson st;
     chevron_rotate := if isOpen st then 180%Z else 0%Z;
     chevron_className := "h-6 w-6";
     list_ :=
       if isOpen st then
         Some
           {| initial_y := (-10)%Z;
              exit_y := (-10)%Z;
              menu_className :=
                "absolute mt-2 w-full bg-white/80 backdrop-blur-md shadow-2xl rounded-2xl overflow-hidden border border-gray-300 divide-y divide-gray-200";
              items :=
                mapi
                  (fun person index =>
                     {| key := index;
                        item_onClick :=
                          [setSelectedPerson person; setIsOpen false;
                           onSelect person];
                        whileHover_scale := "1.05";
                        whileTap_scale := "0.95";
                        item_className :=
                          "cursor-pointer select-none py-4 px-6 transition-all text-gray-700 hover:bg-purple-500 hover:text-white text-lg";
                        item_text := person |})
                  people |}
       else None |}.

Definition step (st : state) (c : click) : state * list jsstring :=
  match handler_of (render st) c with
  | Some cs => run_calls cs st
  | None => (st, [])
  end.

(** A sequence of clicks from a state: the final state, the calls of
    [onSelect] and what each render after a click shows. *)
Fixpoint run (st : state) (cs : list click)
    : state * list jsstring * list (jsstring * Z * option (list jsstring)) :=
  match cs with
  | [] => (st, [], [])
  | c :: t =>
      let (st1, out1) := step st c in
      let '(st2, out2, shown) := run st1 t in
      (st2, out1 ++ out2, content (render st1) :: shown)
  end.
End Dropdown.

(** ** The second component file *)

Module Part000.
Import UI.

Definition initial : state := {| isOpen := false; selectedPerson := js "Ram" |}.

Definition people : list jsstring := [js "Ram"; js "Shyam"; js "Ketan"].

Definition render (st : state) : view :=
  {| root_className := "relative w-64 mx-auto mt-6";
     button_onClick := [setIsOpen (negb (isOpen st))];
     button_className :=
       "w-full bg-gradient-to-r from-gray-800 to-gray-900 text-white py-3 px-5 rounded-lg shadow-md flex justify-between items-center border border-gray-700 hover:bg-gray-700 transition-all";
     label_className := "font-medium text-lg";
     label := selectedPerson st;
     chevron_rotate := if isOpen st then 180%Z else 0%Z;
     chevron_className := "h-5 w-5";
     list_ :=
       if isOpen st then
         Some
           {| initial_y := (-5)%Z;
              exit_y := (-5)%Z;
              menu_className :=
                "absolute mt-2 w-full bg-gray-800 text-white shadow-lg rounded-lg border border-gray-700 overflow-hidden";
              items :=
                mapi
                  (fun person index =>
                     {| key := index;
                        item_onClick :=
                          [setSelectedPerson person; setIsOpen false;
                           onSelect person];
                        whileHover_scale := "1.02";
                        whileTap_scale := "0.98";
                        item_className :=
                          "cursor-pointer select-none py-3 px-5 transition-all hover:bg-gray-700 text-lg";
                        item_text := person |})
                  people |}
       else None |}.

Definition step (st : state) (c : click) : state * list jsstring :=
  match handler_of (render st) c with
  | Some cs => run_calls cs st
  | None => (st, [])
  end.

Fixpoint run (st : state) (cs : list click)
    : state * list jsstring * list (jsstring * Z * option (list jsstring)) :=
  match cs with
  | [] => (st, [], [])
  | c :: t =>
      let (st1, out1) := step st c in
      let '(st2, out2, shown) := run st1 t in
      (st2, out1 ++ out2, content (render st1) :: shown)
  end.
End Part000.

(** ** Instances used to run the definitions *)

(** The part of a number literal before the exponent. *)
Fixpoint mantissa (l : jsstring) : jsstring :=
  match l with
  | [] => []
  | c :: r => if is_char c "e" || is_char c "E" then [] else c :: mantissa r
  end.

(** A number model that keeps the literal as it was written: a number is
    finite when it is a literal and zero when its mantissa has no digit but
    0.  It shows that [NumberLaws] can be met. *)
Definition LiteralNumber : NumberOps := {|
  Number := jsstring;
  StringToNumber := fun l => l;
  NumberToString := fun l => l;
  number_is_finite := json_number_literal;
  number_to_boolean := fun l =>
    negb (forallb (fun c => negb (is_digit c) || is_char c "0") (mantissa l))
|}.

(** [toUpperCase] on ASCII letters; other code units are left alone. *)
Definition ascii_toUpperCase (s : jsstring) : jsstring :=
  List.map (fun c => if N.leb 97 c && N.leb c 122 then (c - 32)%N else c) s.

(** * Vocabulary of the statements *)

(** ** Lexing *)

(** The characters a number literal can contain. *)
Definition number_char (c : N) : bool :=
  is_digit c || is_char c "+" || is_char c "-" || is_char c "."
  || is_char c "e" || is_char c "E".

(** A text that cannot continue a number literal. *)
Definition delimited (rest : jsstring) : Prop :=
  match rest with
  | [] => True
  | c :: _ => number_char c = false
  end.

(** A scanner returns a prefix of its input and is not disturbed by what
    follows a delimiter. *)
Definition scanner_ok (p : jsstring -> option (jsstring * jsstring)) : Prop :=
  forall s l r, p s = Some (l, r) ->
    s = l ++ r /\
    forall rest, delimited rest -> p (s ++ rest) = Some (l, r ++ rest).

(** The characters a serialized value can start with. *)
Definition value_start (c : N) : bool :=
  is_char c "n" || is_char c "t" || is_char c "f" || is_char c "-"
  || is_digit c || is_char c dquote || is_char c "[" || is_char c "{".

(** ** Property order *)

(** [k1] may stand before [k2] in the property list of one object. *)
Definition key_before (k1 k2 : jsstring) : Prop :=
  match array_index k1, array_index k2 with
  | Some i, Some j => (i < j)%N
  | Some _, None => True
  | None, Some _ => False
  | None, None => k1 <> k2
  end.

(** Every key may stand before all the keys after it. *)
Fixpoint ordered_keys (ks : list jsstring) : Prop :=
  match ks with
  | [] => True
  | k :: t => Forall (key_before k) t /\ ordered_keys t
  end.

Section Vocabulary.
Context {NO : NumberOps}.

(** A successful run consumes input, and any fuel at least the number of
    consumed code units gives the same result. *)
Definition fuel_ok {A : Type} (p : nat -> jsstring -> option (A * jsstring))
    (n : nat) : Prop :=
  forall s a r, p n s = Some (a, r) ->
    length r < length s /\
    forall m, length s - length r <= m -> p m s = Some (a, r).

(** The property keys of an object, in order. *)
Definition keys (o : object) : list jsstring := List.map fst o.

(** The property list is one that CreateDataProperty can have built:
    index keys in ascending order, then the other keys, none twice. *)
Definition canonical (o : object) : Prop := ordered_keys (keys o).

(** Every object inside the value is canonical and every finite number
    inside it has a number literal as its decimal spelling. *)
Fixpoint well_formed (v : value) : Prop :=
  match v with
  | JNumber n =>
      number_is_finite n = true ->
      json_number_literal (NumberToString n) = true
  | JArray l =>
      (fix all (l : list value) : Prop :=
         match l with
         | [] => True
         | x :: t => well_formed x /\ all t
         end) l
  | JObject o =>
      canonical o /\
      (fix all (o : list (jsstring * value)) : Prop :=
         match o with
         | [] => True
         | kv :: t => well_formed (snd kv) /\ all t
         end) o
  | _ => True
  end.

(** What [JSON.parse] reads from the text [JSON.stringify] writes for a
    value: an infinite number has become null, a finite one has gone
    through its decimal spelling (which, for doubles, gives it back). *)
Fixpoint json_image (v : value) : value :=
  match v with
  | JNumber n =>
      if number_is_finite n then JNumber (StringToNumber (NumberToString n))
      else JNull
  | JArray l => JArray (List.map json_image l)
  | JObject o =>
      JObject (List.map (fun kv : jsstring * value =>
                           (fst kv, json_image (snd kv))) o)
  | _ => v
  end.

(** The text of one property in the serialization of an object. *)
Definition member_text (kv : jsstring * value) : jsstring :=
  match kv with
  | (k, x) => QuoteJSONString k ++ N_of_ascii ":" :: JSON_stringify x
  end.

(** A well-formed value is read back, up to [json_image], with any fuel
    from the length of its text on, whatever follows a delimiter. *)
Definition reads_back (v : value) : Prop :=
  well_formed v -> forall rest m,
    delimited rest -> length (JSON_stringify v) <= m ->
    parse_value m (JSON_stringify v ++ rest) = Some (json_image v, rest).

(** The JSON values that are neither an array nor an object. *)
Definition primitive (v : value) : Prop :=
  match v with
  | JArray _ | JObject _ => False
  | _ => True
  end.

(** The default object of the handler that derives a bot name. *)
Definition default_metadata (participantName : jsstring) : value :=
  JObject [(js "selectedPerson", JString participantName);
           (js "botName", JString participantName)].

End Vocabulary.

(** ** Runs of the handlers *)

(** The signing calls of a run, in order. *)
Fixpoint signing_calls (log : list event) : list AccessToken :=
  match log with
  | [] => []
  | ToJwt t :: rest => t :: signing_calls rest
  | Console _ _ :: rest => signing_calls rest
  end.

(** A query parameter of a request, and the metadata text the handlers
    start from (the empty string when there is none). *)
Definition param (request : NextRequest) (key : string) : option jsstring :=
  searchParams_get (js key) (searchParams request).

Definition rawMetadata (request : NextRequest) : jsstring :=
  default [] (param request "metadata").

(** The token a handler hands to the signing library for a room, a
    participant and a metadata text. *)
Definition token_for (env : gmap jsstring jsstring) (draws : nat -> N)
    (roomName participantName metadata : jsstring) : AccessToken :=
  {| apiKey := env !! js "LIVEKIT_API_KEY";
     apiSecret := env !! js "LIVEKIT_API_SECRET";
     options :=
       {| identity := participantName ++ js "__" ++ randomString draws 4;
          name := participantName;
          metadata := metadata |};
     ttl := Some (js "5m");
     video :=
       Some {| room := roomName; roomJoin := true; canPublish := true;
               canPublishData := true; canSubscribe := true |} |}.

(** The two ways a handler ends once it has called the signing library. *)
Definition issued (env : gmap jsstring jsstring)
    (toJwt : AccessToken -> outcome jsstring) (t : AccessToken)
    (roomName participantName : jsstring) (log : list event)
    : outcome NextResponse * list event :=
  match toJwt t with
  | Return tok =>
      (Return (NextResponse_json
                 {| serverUrl := env !! js "LIVEKIT_URL"; roomName := roomName;
                    participantToken := tok;
                    participantName := participantName |}),
       log ++ [ToJwt t])
  | Throw e =>
      (Return (new_NextResponse (js "Internal Server Error") 500),
       log ++ [ToJwt t;
               Console ERROR
                 [Text (cross_mark ++ js " Error generating participant token:");
                  Caught e]])
  end.

Definition assigning (participantName metadata : jsstring) : event :=
  Console LOG
    [Text (rocket ++ js " Assigning metadata to participant "
             ++ participantName ++ js ":");
     Text metadata].

Definition invalid_metadata (metadata : jsstring) : event :=
  Console ERROR [Text (cross_mark ++ js " Invalid JSON metadata: " ++ metadata)].

(** A token with its metadata blanked. *)
Definition without_metadata (t : AccessToken) : AccessToken :=
  {| apiKey := apiKey t; apiSecret := apiSecret t;
     options := {| identity := identity (options t); name := name (options t);
                   metadata := [] |};
     ttl := ttl t; video := video t |}.

(** The first line route.ts logs for a participant and a metadata text. *)
Definition received (participantName metadata : jsstring) : event :=
  if falsy (Some metadata) then
    Console WARN
      [Text (warning_sign
               ++ js " Warning: No metadata received for participant "
               ++ participantName)]
  else
    Console LOG
      [Text (check_mark ++ js " Received metadata for "
               ++ participantName ++ js ": " ++ metadata)].

(** The line the outer catch logs for an exception. *)
Definition token_error (e : exn) : event :=
  Console ERROR
    [Text (cross_mark ++ js " Error generating participant token:"); Caught e].

(** ** Sample inputs *)

(** The settings of the deployment descriptor. *)
Definition sample_env : gmap jsstring jsstring :=
  {[ js "LIVEKIT_URL" := js "ws://livekit:7880";
     js "LIVEKIT_API_KEY" := js "devkey";
     js "LIVEKIT_API_SECRET" := js "secret" ]}.

Definition sample_draws (i : nat) : N := N.of_nat (7 * i + 3).

Definition sample_toJwt (t : AccessToken) : outcome jsstring :=
  Return (js "signed:" ++ identity (options t)).


Definition request_of (params : list (string * string)) : NextRequest :=
  {| searchParams := List.map (fun p => (js (fst p), js (snd p))) params |}.

(** A request of alice for the room lobby with the given metadata text. *)
Definition alice_request (text : jsstring) : NextRequest :=
  {| searchParams :=
       [(js "roomName", js "lobby"); (js "participantName", js "alice");
        (js "metadata", text)] |}.

(** The text of an object with the one property selectedPerson, a string. *)
Definition selected_text (person : string) : jsstring :=
  js "{" ++ QuoteJSONString (js "selectedPerson") ++ js ":"
    ++ QuoteJSONString (js person) ++ js "}".

(** * Properties *)

(** ** The lexer *)

Ltac char_cases :=
  unfold number_char, is_ws, is_digit, is_char, is_leading_surrogate,
    is_trailing_surrogate, is_alphanumeric, dquote in *;
  simpl N_of_ascii in *;
  repeat match goal with
    | |- context [N.eqb ?a ?b] => destruct (N.eqb_spec a b)
    | H : context [N.eqb ?a ?b] |- _ => destruct (N.eqb_spec a b)
    | |- context [N.leb ?a ?b] => destruct (N.leb_spec a b)
    | H : context [N.leb ?a ?b] |- _ => destruct (N.leb_spec a b)
    | |- context [N.ltb ?a ?b] => destruct (N.ltb_spec a b)
    | H : context [N.ltb ?a ?b] |- _ => destruct (N.ltb_spec a b)
    end;
  simpl in *; try congruence; try lia.

Lemma span_digits_sound s d r : span_digits s = (d, r) -> s = d ++ r.
Proof.
  revert d r. induction s as [|c t IH]; simpl; intros d r H.
  - now inversion H.
  - destruct (is_digit c).
    + destruct (span_digits t) as [d' r'] eqn:E. injection H as <- <-.
      simpl. f_equal. now apply IH.
    + now inversion H.
Qed.

Lemma span_digits_app s d r rest :
  span_digits s = (d, r) -> delimited rest ->
  span_digits (s ++ rest) = (d, r ++ rest).
Proof.
  revert d r. induction s as [|c t IH]; simpl; intros d r H Hrest.
  - inversion H; subst. destruct rest as [|x rest]; simpl; [reflexivity|].
    simpl in Hrest. replace (is_digit x) with false; [reflexivity|].
    char_cases.
  - destruct (is_digit c).
    + destruct (span_digits t) as [d' r'] eqn:E. injection H as <- <-.
      now rewrite (IH d' r' eq_refl Hrest).
    + now inversion H.
Qed.

Lemma scan_sign_ok : scanner_ok scan_sign.
Proof.
  intros s l r H. destruct s as [|c t]; simpl in H.
  - inversion H; subst. split; [reflexivity|]. intros rest Hrest.
    destruct rest as [|x rest]; simpl; [reflexivity|]. simpl in Hrest.
    replace (is_char x "-") with false; [reflexivity|]. char_cases.
  - destruct (is_char c "-") eqn:E; inversion H; subst;
      (split; [reflexivity|]); intros rest _; simpl; now rewrite E.
Qed.

Lemma scan_int_ok : scanner_ok scan_int.
Proof.
  intros s l r H. destruct s as [|c t]; simpl in H; [discriminate|].
  destruct (is_char c "0") eqn:E0.
  - injection H as <- <-. split; [reflexivity|]. intros rest _. simpl.
    now rewrite E0.
  - destruct (is_digit c) eqn:Ed; [|discriminate].
    destruct (span_digits t) as [d r'] eqn:E. injection H as <- <-.
    split.
    + simpl. f_equal. exact (span_digits_sound _ _ _ E).
    + intros rest Hrest. simpl. rewrite E0, Ed.
      now rewrite (span_digits_app _ _ _ _ E Hrest).
Qed.

Lemma scan_frac_ok : scanner_ok scan_frac.
Proof.
  intros s l r H. destruct s as [|c t]; simpl in H.
  - injection H as <- <-. split; [reflexivity|]. intros rest Hrest.
    destruct rest as [|x rest]; simpl; [reflexivity|]. simpl in Hrest.
    replace (is_char x ".") with false; [reflexivity|]. char_cases.
  - destruct (is_char c ".") eqn:E.
    + destruct (span_digits t) as [d r'] eqn:Es.
      destruct d as [|d0 d]; [discriminate|]. injection H as <- <-.
      split.
      * simpl. f_equal. exact (span_digits_sound _ _ _ Es).
      * intros rest Hrest. simpl. rewrite E.
        now rewrite (span_digits_app _ _ _ _ Es Hrest).
    + injection H as <- <-. split; [reflexivity|]. intros rest _. simpl.
      now rewrite E.
Qed.

Lemma scan_exp_ok : scanner_ok scan_exp.
Proof.
  intros s l r H. destruct s as [|c t]; simpl in H.
  - injection H as <- <-. split; [reflexivity|]. intros rest Hrest.
    destruct rest as [|x rest]; simpl; [reflexivity|]. simpl in Hrest.
    replace (is_char x "e" || is_char x "E") with false; [reflexivity|].
    char_cases.
  - destruct (is_char c "e" || is_char c "E") eqn:E.
    + destruct t as [|c' t'].
      * simpl in H. discriminate.
      * destruct (is_char c' "+" || is_char c' "-") eqn:Esg.
        -- destruct (span_digits t') as [d r'] eqn:Es.
           destruct d as [|d0 d]; [discriminate|]. injection H as <- <-.
           split.
           ++ simpl. do 2 f_equal. exact (span_digits_sound _ _ _ Es).
           ++ intros rest Hrest. simpl. rewrite E, Esg.
              now rewrite (span_digits_app _ _ _ _ Es Hrest).
        -- destruct (span_digits (c' :: t')) as [d r'] eqn:Es.
           destruct d as [|d0 d]; [discriminate|]. injection H as <- <-.
           split.
           ++ simpl. f_equal. exact (span_digits_sound _ _ _ Es).
           ++ intros rest Hrest. simpl app. cbv beta iota delta [scan_exp].
              rewrite E, Esg.
              change (c' :: t' ++ rest) with ((c' :: t') ++ rest).
              now rewrite (span_digits_app _ _ _ _ Es Hrest).
    + injection H as <- <-. split; [reflexivity|]. intros rest _. simpl.
      now rewrite E.
Qed.

Lemma scan_then_ok p q : scanner_ok p -> scanner_ok q -> scanner_ok (scan_then p q).
Proof.
  intros Hp Hq s l r H. unfold scan_then in *.
  destruct (p s) as [[a r1]|] eqn:Ep; [|discriminate].
  destruct (q r1) as [[b r2]|] eqn:Eq; [|discriminate].
  inversion H; subst.
  destruct (Hp _ _ _ Ep) as [Hs1 Hx1]. destruct (Hq _ _ _ Eq) as [Hs2 Hx2].
  split.
  - subst. now rewrite <- List.app_assoc.
  - intros rest Hrest. rewrite (Hx1 rest Hrest), (Hx2 rest Hrest). reflexivity.
Qed.

Lemma scan_number_ok : scanner_ok scan_number.
Proof.
  unfold scan_number.
  repeat apply scan_then_ok;
    auto using scan_sign_ok, scan_int_ok, scan_frac_ok, scan_exp_ok.
Qed.

(** A literal is scanned whole whatever delimiter follows it. *)
Lemma scan_number_literal l rest :
  json_number_literal l = true -> delimited rest ->
  scan_number (l ++ rest) = Some (l, rest).
Proof.
  unfold json_number_literal. intros H Hrest.
  destruct (scan_number l) as [[l' r]|] eqn:E; [|discriminate].
  destruct r; [|discriminate].
  destruct (scan_number_ok _ _ _ E) as [Hs Hx].
  rewrite List.app_nil_r in Hs. subst l'. exact (Hx rest Hrest).
Qed.

Lemma literal_head l :
  json_number_literal l = true ->
  exists c t, l = c :: t /\ (is_char c "-" = true \/ is_digit c = true).
Proof.
  unfold json_number_literal, scan_number, scan_then. intros H.
  destruct l as [|c t]; [discriminate|]. exists c, t. split; [reflexivity|].
  simpl in H. destruct (is_char c "-") eqn:E; [now left|right].
  simpl in H. destruct (is_char c "0") eqn:E0; [char_cases|].
  destruct (is_digit c); [reflexivity|discriminate].
Qed.

(** ** String literals: reading back what QuoteJSONString writes *)

Lemma hex_value_digit d : (d < 16)%N -> hex_value (hex_digit d) = Some d.
Proof.
  intros H. unfold hex_value, hex_digit.
  destruct (N.ltb_spec d 10).
  - replace (is_digit (48 + d)) with true by char_cases. f_equal. lia.
  - replace (is_digit (87 + d)) with false by char_cases.
    replace (N.leb 97 (87 + d) && N.leb (87 + d) 102) with true by char_cases.
    f_equal. lia.
Qed.

Lemma hex4_digits c :
  (c < 65536)%N ->
  hex4 (hex_digit ((c / 4096) mod 16)) (hex_digit ((c / 256) mod 16))
       (hex_digit ((c / 16) mod 16)) (hex_digit (c mod 16)) = Some c.
Proof.
  intros H. unfold hex4.
  rewrite !hex_value_digit by (apply N.mod_lt; lia).
  f_equal.
  assert (E2 : (c / 256 = c / 16 / 16)%N) by (now rewrite N.Div0.div_div).
  assert (E3 : (c / 4096 = c / 256 / 16)%N) by (now rewrite N.Div0.div_div).
  pose proof (N.div_mod c 16 ltac:(lia)) as H0.
  pose proof (N.div_mod (c / 16) 16 ltac:(lia)) as H1.
  pose proof (N.div_mod (c / 256) 16 ltac:(lia)) as H2.
  rewrite <- E2 in H1. rewrite <- E3 in H2.
  assert (c / 4096 < 16)%N by (apply N.Div0.div_lt_upper_bound; lia).
  rewrite (N.mod_small (c / 4096) 16) by assumption.
  lia.
Qed.

Lemma parse_unicode_escape c t :
  (c < 65536)%N ->
  parse_string_body (unicode_escape c ++ t) =
  match parse_string_body t with
  | Some (str, r) => Some (c :: str, r)
  | None => None
  end.
Proof.
  intros H. unfold unicode_escape.
  cbn [app parse_string_body].
  change (is_char 92%N dquote) with false. change (is_char 92%N "\") with true.
  change (is_char 117%N "u") with true. cbv iota.
  now rewrite hex4_digits.
Qed.

Lemma escape_unescape c e :
  escape_char c = Some e -> is_char e "u" = false /\ unescape_char e = Some c.
Proof.
  unfold escape_char. intros H.
  repeat match type of H with
         | (if N.eqb ?a ?b then _ else _) = _ =>
             destruct (N.eqb_spec a b);
             [injection H as <-; subst c; split; reflexivity|]
         end.
  discriminate.
Qed.

Lemma escape_char_none c :
  escape_char c = None ->
  is_char c dquote = false /\ is_char c "\" = false.
Proof.
  unfold escape_char. intros H. split; char_cases.
Qed.

Lemma quote_body_parse_len n : forall s rest,
  length s <= n ->
  parse_string_body (quote_body s ++ 34%N :: rest) = Some (s, rest).
Proof.
  induction n as [|n IH]; intros s rest Hlen.
  - destruct s; [reflexivity|simpl in Hlen; lia].
  - destruct s as [|c t]; [reflexivity|]. simpl in Hlen.
    assert (IHt : forall r, parse_string_body (quote_body t ++ 34%N :: r)
                            = Some (t, r)) by (intros; apply IH; lia).
    cbn [quote_body].
    destruct (escape_char c) as [e|] eqn:Ee.
    + destruct (escape_unescape _ _ Ee) as [Hu Hun].
      cbn [app parse_string_body].
      change (is_char 92%N dquote) with false.
      change (is_char 92%N "\") with true.
      cbv iota. now rewrite Hu, Hun, IHt.
    + destruct (escape_char_none _ Ee) as [Hq Hb].
      destruct (N.ltb c 32) eqn:Ec.
      { rewrite <- List.app_assoc, parse_unicode_escape, IHt; [reflexivity|].
        apply N.ltb_lt in Ec. lia. }
      destruct (is_leading_surrogate c) eqn:El.
      { destruct t as [|d t'].
        - rewrite parse_unicode_escape by char_cases. reflexivity.
        - destruct (is_trailing_surrogate d) eqn:Et.
          + cbn [app parse_string_body]. rewrite Hq, Hb, Ec.
            replace (is_char d dquote) with false by char_cases.
            replace (is_char d "\") with false by char_cases.
            replace (N.ltb d 32) with false by char_cases.
            rewrite IH by (simpl in Hlen; lia). reflexivity.
          + rewrite <- List.app_assoc, parse_unicode_escape, IHt;
              [reflexivity|char_cases]. }
      destruct (is_trailing_surrogate c) eqn:Et.
      { rewrite <- List.app_assoc, parse_unicode_escape, IHt;
          [reflexivity|char_cases]. }
      cbn [app parse_string_body]. now rewrite Hq, Hb, Ec, IHt.
Qed.

Lemma quote_body_parse s rest :
  parse_string_body (quote_body s ++ 34%N :: rest) = Some (s, rest).
Proof. now apply (quote_body_parse_len (length s)). Qed.

(** ** The parser never lacks fuel *)

Lemma skip_ws_length s : length (skip_ws s) <= length s.
Proof.
  induction s as [|c t IH]; simpl; [lia|].
  destruct (is_ws c); simpl; lia.
Qed.

Lemma skip_ws_cons s c r : skip_ws s = c :: r -> length r < length s.
Proof.
  intros H. pose proof (skip_ws_length s) as L. rewrite H in L. simpl in L. lia.
Qed.

Lemma parse_string_body_length_le n : forall s str r,
  length s <= n -> parse_string_body s = Some (str, r) -> length r < length s.
Proof.
  induction n as [|n IH]; intros s str r Hlen H.
  - destruct s; [discriminate|simpl in Hlen; lia].
  - destruct s as [|c t]; [discriminate|]. simpl in Hlen.
    cbn [parse_string_body] in H.
    destruct (is_char c dquote); [injection H as _ <-; simpl; lia|].
    destruct (is_char c "\").
    + destruct t as [|e t1]; [discriminate|].
      destruct (is_char e "u").
      * destruct t1 as [|h1 [|h2 [|h3 [|h4 t2]]]]; try discriminate.
        destruct (hex4 h1 h2 h3 h4); [|discriminate].
        destruct (parse_string_body t2) as [[str' r']|] eqn:E; [|discriminate].
        injection H as _ <-. apply IH in E; simpl in *; lia.
      * destruct (unescape_char e); [|discriminate].
        destruct (parse_string_body t1) as [[str' r']|] eqn:E; [|discriminate].
        injection H as _ <-. apply IH in E; simpl in *; lia.
    + destruct (N.ltb c 32); [discriminate|].
      destruct (parse_string_body t) as [[str' r']|] eqn:E; [|discriminate].
      injection H as _ <-. apply IH in E; simpl in *; lia.
Qed.

Lemma parse_string_body_length s str r :
  parse_string_body s = Some (str, r) -> length r < length s.
Proof. now apply (parse_string_body_length_le (length s)). Qed.

Lemma strip_prefix_length p : forall s r,
  strip_prefix p s = Some r -> length s = length p + length r.
Proof.
  induction p as [|a p IH]; intros s r H; simpl in H.
  - now injection H as <-.
  - destruct s as [|b s]; [discriminate|].
    destruct (N.eqb a b); [|discriminate]. apply IH in H. simpl. lia.
Qed.

Lemma scan_int_nonempty s l r : scan_int s = Some (l, r) -> l <> [].
Proof.
  destruct s as [|c t]; simpl; [discriminate|].
  destruct (is_char c "0"); [intros H; now injection H as <- _|].
  destruct (is_digit c); [|discriminate].
  destruct (span_digits t). intros H. now injection H as <- _.
Qed.

Lemma scan_number_length s l r :
  scan_number s = Some (l, r) -> length r < length s.
Proof.
  intros H. destruct (scan_number_ok _ _ _ H) as [Hs _].
  assert (l <> []) as Hl.
  { unfold scan_number, scan_then in H.
    destruct (scan_sign s) as [[a r1]|]; [|discriminate].
    destruct (scan_int r1) as [[b r2]|] eqn:Ei; [|discriminate].
    apply scan_int_nonempty in Ei.
    destruct (scan_frac r2) as [[f r3]|]; [|discriminate].
    destruct (scan_exp r3) as [[e r4]|]; [|discriminate].
    injection H as <- _. destruct a, b; simpl; congruence. }
  subst s. rewrite List.length_app. destruct l; [congruence|simpl; lia].
Qed.

Section Fuel.
Context {NO : NumberOps}.

Lemma keyword_length kw v s v' r :
  keyword kw v s = Some (v', r) -> length s = length (js kw) + length r.
Proof.
  unfold keyword. intros H.
  destruct (strip_prefix (js kw) s) as [r'|] eqn:E; [|discriminate].
  injection H as _ <-. now apply strip_prefix_length.
Qed.

Lemma parse_fuel_all n :
  fuel_ok parse_value n /\ fuel_ok parse_elements n /\
  forall acc, fuel_ok (fun k => parse_members k acc) n.
Proof.
  induction n as [|n (IHv & IHe & IHm)].
  { repeat split; try discriminate; intros; discriminate. }
  split; [|split].
  - (* values *)
    intros s v r H. simpl in H.
    destruct (skip_ws s) as [|c r0] eqn:Ews; [discriminate|].
    pose proof (skip_ws_cons _ _ _ Ews) as L0.
    destruct (is_char c "{") eqn:E1.
    { destruct (skip_ws r0) as [|c' r'] eqn:Ews2; [discriminate|].
      pose proof (skip_ws_cons _ _ _ Ews2) as L1.
      destruct (is_char c' "}") eqn:E2.
      - injection H as <- <-. split; [lia|]. intros m Hm.
        destruct m; [lia|]. simpl. now rewrite Ews, E1, Ews2, E2.
      - destruct (parse_members n [] r0) as [[o r'']|] eqn:Em; [|discriminate].
        injection H as <- <-. destruct (IHm _ _ _ _ Em) as [L2 Hm2].
        split; [lia|]. intros m Hm. destruct m; [lia|]. simpl.
        rewrite Ews, E1, Ews2, E2. now rewrite Hm2 by lia. }
    destruct (is_char c "[") eqn:E2.
    { destruct (skip_ws r0) as [|c' r'] eqn:Ews2; [discriminate|].
      pose proof (skip_ws_cons _ _ _ Ews2) as L1.
      destruct (is_char c' "]") eqn:E3.
      - injection H as <- <-. split; [lia|]. intros m Hm.
        destruct m; [lia|]. simpl. now rewrite Ews, E1, E2, Ews2, E3.
      - destruct (parse_elements n r0) as [[l r'']|] eqn:Em; [|discriminate].
        injection H as <- <-. destruct (IHe _ _ _ Em) as [L2 Hm2].
        split; [lia|]. intros m Hm. destruct m; [lia|]. simpl.
        rewrite Ews, E1, E2, Ews2, E3. now rewrite Hm2 by lia. }
    destruct (is_char c dquote) eqn:E3.
    { destruct (parse_string_body r0) as [[str r']|] eqn:Es; [|discriminate].
      injection H as <- <-. pose proof (parse_string_body_length _ _ _ Es).
      split; [lia|]. intros m Hm. destruct m; [lia|]. simpl.
      now rewrite Ews, E1, E2, E3, Es. }
    destruct (is_char c "t") eqn:E4.
    { pose proof (keyword_length _ _ _ _ _ H) as L. simpl in L.
      split; [lia|]. intros m Hm. destruct m; [lia|]. simpl.
      now rewrite Ews, E1, E2, E3, E4. }
    destruct (is_char c "f") eqn:E5.
    { pose proof (keyword_length _ _ _ _ _ H) as L. simpl in L.
      split; [lia|]. intros m Hm. destruct m; [lia|]. simpl.
      now rewrite Ews, E1, E2, E3, E4, E5. }
    destruct (is_char c "n") eqn:E6.
    { pose proof (keyword_length _ _ _ _ _ H) as L. simpl in L.
      split; [lia|]. intros m Hm. destruct m; [lia|]. simpl.
      now rewrite Ews, E1, E2, E3, E4, E5, E6. }
    destruct (scan_number (c :: r0)) as [[lit r']|] eqn:En; [|discriminate].
    injection H as <- <-. pose proof (scan_number_length _ _ _ En) as L.
    simpl in L. split; [lia|]. intros m Hm. destruct m; [lia|]. simpl.
    now rewrite Ews, E1, E2, E3, E4, E5, E6, En.
  - (* elements *)
    intros s l r H. simpl in H.
    destruct (parse_value n s) as [[v r1]|] eqn:Ev; [|discriminate].
    destruct (IHv _ _ _ Ev) as [L1 Hv].
    destruct (skip_ws r1) as [|c r2] eqn:Ews; [discriminate|].
    pose proof (skip_ws_cons _ _ _ Ews) as L2.
    destruct (is_char c ",") eqn:E1.
    + destruct (parse_elements n r2) as [[l' r3]|] eqn:Ee; [|discriminate].
      injection H as <- <-. destruct (IHe _ _ _ Ee) as [L3 He].
      split; [lia|]. intros m Hm. destruct m; [lia|]. simpl.
      rewrite Hv by lia. rewrite Ews, E1. now rewrite He by lia.
    + destruct (is_char c "]") eqn:E2; [|discriminate].
      injection H as <- <-. split; [lia|]. intros m Hm.
      destruct m; [lia|]. simpl. rewrite Hv by lia. now rewrite Ews, E1, E2.
  - (* members *)
    intros acc s o r H. simpl in H.
    destruct (skip_ws s) as [|c r0] eqn:Ews; [discriminate|].
    pose proof (skip_ws_cons _ _ _ Ews) as L0.
    destruct (is_char c dquote) eqn:E1; [|discriminate].
    destruct (parse_string_body r0) as [[k r1]|] eqn:Es; [|discriminate].
    pose proof (parse_string_body_length _ _ _ Es) as L1.
    destruct (skip_ws r1) as [|c1 r2] eqn:Ews1; [discriminate|].
    pose proof (skip_ws_cons _ _ _ Ews1) as L2.
    destruct (is_char c1 ":") eqn:E2; [|discriminate].
    destruct (parse_value n r2) as [[v r3]|] eqn:Ev; [|discriminate].
    destruct (IHv _ _ _ Ev) as [L3 Hv].
    destruct (skip_ws r3) as [|c3 r4] eqn:Ews3; [discriminate|].
    pose proof (skip_ws_cons _ _ _ Ews3) as L4.
    destruct (is_char c3 ",") eqn:E3.
    + destruct (IHm _ _ _ _ H) as [L5 Hm5].
      split; [lia|]. intros m Hm. destruct m; [lia|]. simpl.
      rewrite Ews, E1, Es, Ews1, E2. rewrite Hv by lia.
      rewrite Ews3, E3. now rewrite Hm5 by lia.
    + destruct (is_char c3 "}") eqn:E4; [|discriminate].
      injection H as <- <-. split; [lia|]. intros m Hm.
      destruct m; [lia|]. simpl.
      rewrite Ews, E1, Es, Ews1, E2. rewrite Hv by lia.
      now rewrite Ews3, E3, E4.
Qed.

(** If any amount of fuel makes the parser accept a prefix of the text,
    the length of the text does. *)
Lemma parse_value_fuel n text v r :
  parse_value n text = Some (v, r) ->
  parse_value (length text) text = Some (v, r).
Proof.
  intros H. destruct (parse_fuel_all n) as [Hv _].
  destruct (Hv _ _ _ H) as [_ Hm]. apply Hm. lia.
Qed.

(** [JSON_parse] rejects a text only if no fuel would make it a value
    followed by white space. *)
Lemma JSON_parse_None text :
  JSON_parse text = None ->
  forall n v r, parse_value n text = Some (v, r) -> skip_ws r <> [].
Proof.
  unfold JSON_parse. intros H n v r Hn.
  rewrite (parse_value_fuel _ _ _ _ Hn) in H.
  destruct (skip_ws r); [discriminate|congruence].
Qed.
End Fuel.

(** ** Property order of ordinary objects *)

Lemma jsstring_eqb_true a b : jsstring_eqb a b = true <-> a = b.
Proof. unfold jsstring_eqb. destruct (decide (a = b)); split; congruence. Qed.

Lemma jsstring_eqb_refl a : jsstring_eqb a a = true.
Proof. now apply jsstring_eqb_true. Qed.

Lemma jsstring_eqb_false a b : jsstring_eqb a b = false <-> a <> b.
Proof. unfold jsstring_eqb. destruct (decide (a = b)); split; congruence. Qed.

Lemma array_index_decimal k i : array_index k = Some i -> k = decimal i.
Proof.
  unfold array_index. destruct (Nat.leb (length k) 10); [|discriminate].
  destruct (jsstring_eqb k (decimal (digits_value k))) eqn:E; [|discriminate].
  destruct (N.ltb (digits_value k) 4294967295); [|discriminate].
  simpl. intros H. injection H as <-. now apply jsstring_eqb_true.
Qed.

Lemma array_index_inj k1 k2 i :
  array_index k1 = Some i -> array_index k2 = Some i -> k1 = k2.
Proof.
  intros H1 H2. apply array_index_decimal in H1, H2. congruence.
Qed.

Lemma key_before_neq k1 k2 : key_before k1 k2 -> k1 <> k2.
Proof.
  unfold key_before. intros H ->.
  destruct (array_index k2); [lia|congruence].
Qed.

Lemma key_before_index k k1 k2 i :
  array_index k = Some i -> key_before k k1 -> key_before k1 k2 ->
  key_before k k2.
Proof.
  unfold key_before. intros ->.
  destruct (array_index k1), (array_index k2); try tauto; lia.
Qed.

Lemma ordered_keys_snoc ks k :
  ordered_keys (ks ++ [k]) <->
  ordered_keys ks /\ Forall (fun k' => key_before k' k) ks.
Proof.
  induction ks as [|a t IH]; simpl.
  - split; intros _; split; try exact I; apply Forall_nil_2.
  - rewrite IH, Forall_app, Forall_singleton, Forall_cons. tauto.
Qed.

Lemma ordered_keys_app_l ks ks' : ordered_keys (ks ++ ks') -> ordered_keys ks.
Proof.
  induction ks as [|a t IH]; simpl; [tauto|].
  rewrite Forall_app. tauto.
Qed.

Section Objects.
Context {NO : NumberOps}.

Lemma well_formed_array l : well_formed (JArray l) <-> Forall well_formed l.
Proof.
  induction l as [|x t IH]; simpl.
  - split; [constructor|trivial].
  - rewrite Forall_cons. simpl in IH. tauto.
Qed.

Lemma well_formed_object o :
  well_formed (JObject o) <->
  canonical o /\ Forall (fun kv => well_formed (snd kv)) o.
Proof.
  simpl. apply and_iff_compat_l.
  induction o as [|x t IH]; simpl.
  - split; [constructor|trivial].
  - rewrite Forall_cons. tauto.
Qed.

Lemma obj_get_None k o :
  obj_get k o = None <-> Forall (fun k' => k' <> k) (keys o).
Proof.
  induction o as [|[k' v] t IH]; simpl.
  - split; [constructor|trivial].
  - rewrite Forall_cons. destruct (jsstring_eqb k k') eqn:E.
    + apply jsstring_eqb_true in E. split; [discriminate|]. intros [H _].
      congruence.
    + apply jsstring_eqb_false in E. rewrite IH. simpl.
      split; [intros; split; congruence|tauto].
Qed.

Lemma obj_get_Some_In k o v : obj_get k o = Some v -> In (k, v) o.
Proof.
  induction o as [|[k' v'] t IH]; simpl; [discriminate|].
  destruct (jsstring_eqb k k') eqn:E.
  - apply jsstring_eqb_true in E. intros H. injection H as ->. left.
    congruence.
  - auto.
Qed.

Lemma keys_obj_replace k v o : keys (obj_replace k v o) = keys o.
Proof.
  induction o as [|[k' v'] t IH]; simpl; [reflexivity|].
  destruct (jsstring_eqb k k'); simpl; [reflexivity|]. now f_equal.
Qed.

Lemma keys_obj_insert_index P i k v o :
  P k -> Forall P (keys o) -> Forall P (keys (obj_insert_index i k v o)).
Proof.
  intros Hk. induction o as [|[k' v'] t IH]; simpl; intros H.
  - now repeat constructor.
  - apply Forall_cons in H as [H1 H2].
    destruct (array_index k') as [j|]; [destruct (N.ltb j i)|]; simpl;
      repeat (apply Forall_cons; split); auto.
Qed.

Lemma obj_insert_index_canonical i k v o :
  array_index k = Some i -> obj_get k o = None -> canonical o ->
  canonical (obj_insert_index i k v o).
Proof.
  unfold canonical. intros Hi.
  induction o as [|[k' v'] t IH]; simpl; intros Hget Hc.
  - split; [constructor|exact I].
  - destruct Hc as [Hall Hc].
    destruct (jsstring_eqb k k') eqn:E; [discriminate|].
    apply jsstring_eqb_false in E.
    assert (Hfirst : (match array_index k' with
                      | Some j => N.ltb j i = false
                      | None => True
                      end) -> key_before k k').
    { unfold key_before. rewrite Hi.
      destruct (array_index k') as [j|] eqn:Ej; [|trivial].
      intros Hj. apply N.ltb_ge in Hj.
      destruct (N.eq_dec i j) as [->|]; [|lia].
      elim E. eauto using array_index_inj. }
    assert (Hrest : key_before k k' ->
                    ordered_keys (k :: k' :: keys t)).
    { intros Hb. simpl. repeat split; auto.
      apply Forall_cons. split; [exact Hb|].
      eapply Forall_impl; [exact Hall|]. intros k2.
      now apply key_before_index with (i := i). }
    destruct (array_index k') as [j|] eqn:Ej.
    + destruct (N.ltb j i) eqn:Ej'; [|now apply Hrest, Hfirst].
      simpl. split; [|now apply IH].
      apply keys_obj_insert_index; [|exact Hall].
      unfold key_before. rewrite Ej, Hi. now apply N.ltb_lt.
    + now apply Hrest, Hfirst.
Qed.

(** CreateDataProperty keeps the property list canonical. *)
Lemma obj_set_canonical k v o : canonical o -> canonical (obj_set k v o).
Proof.
  intros Hc. unfold obj_set.
  destruct (obj_get k o) eqn:Eg.
  - unfold canonical. now rewrite keys_obj_replace.
  - destruct (array_index k) as [i|] eqn:Ei.
    + now apply obj_insert_index_canonical.
    + unfold canonical, keys. rewrite List.map_app. simpl.
      apply ordered_keys_snoc. split; [exact Hc|].
      apply obj_get_None in Eg.
      eapply Forall_impl; [exact Eg|]. intros k' Hne. unfold key_before.
      rewrite Ei. destruct (array_index k'); [trivial|exact Hne].
Qed.

Lemma obj_insert_index_last i k v o :
  Forall (fun k' => key_before k' k) (keys o) -> array_index k = Some i ->
  obj_insert_index i k v o = o ++ [(k, v)].
Proof.
  intros H Hi. induction o as [|[k' v'] t IH]; simpl; [reflexivity|].
  simpl in H. apply Forall_cons in H as [H1 H2].
  unfold key_before in H1. rewrite Hi in H1.
  destruct (array_index k') as [j|]; [|contradiction].
  apply N.ltb_lt in H1. rewrite H1. f_equal. now apply IH.
Qed.

(** Creating the last property of a canonical list appends it. *)
Lemma obj_set_last k v o :
  canonical (o ++ [(k, v)]) -> obj_set k v o = o ++ [(k, v)].
Proof.
  unfold canonical, keys. rewrite List.map_app. simpl.
  intros [Hc Hall]%ordered_keys_snoc. unfold obj_set.
  replace (obj_get k o) with (@None value).
  - destruct (array_index k) as [i|] eqn:Ei; [|reflexivity].
    now apply obj_insert_index_last.
  - symmetry. apply obj_get_None.
    eapply Forall_impl; [exact Hall|]. intros k'. apply key_before_neq.
Qed.

Lemma fold_obj_set_canonical o : forall acc,
  canonical (acc ++ o) ->
  fold_left (fun a kv => obj_set (fst kv) (snd kv) a) o acc = acc ++ o.
Proof.
  induction o as [|[k v] t IH]; intros acc Hc; simpl.
  - now rewrite List.app_nil_r.
  - replace (acc ++ (k, v) :: t) with ((acc ++ [(k, v)]) ++ t) in *
      by (now rewrite <- List.app_assoc).
    rewrite obj_set_last; [now apply IH|].
    unfold canonical, keys in *. rewrite List.map_app in Hc.
    now apply ordered_keys_app_l in Hc.
Qed.

Lemma obj_set_values (P : value -> Prop) k v o :
  P v -> Forall (fun kv => P (snd kv)) o ->
  Forall (fun kv => P (snd kv)) (obj_set k v o).
Proof.
  intros Hv Ho. unfold obj_set.
  destruct (obj_get k o).
  - induction Ho as [|[k' v'] t H1 H2 IH]; simpl; [constructor|].
    destruct (jsstring_eqb k k'); apply Forall_cons; auto.
  - destruct (array_index k) as [i|].
    + induction Ho as [|[k' v'] t H1 H2 IH]; simpl.
      * now repeat constructor.
      * destruct (array_index k') as [j|]; [destruct (N.ltb j i)|];
          repeat (apply Forall_cons; split); auto.
    + apply Forall_app. split; [exact Ho|now repeat constructor].
Qed.

(** Reading a property after CreateDataProperty. *)
Lemma obj_get_insert_index i k v o k' :
  obj_get k o = None ->
  obj_get k' (obj_insert_index i k v o) =
  if jsstring_eqb k' k then Some v else obj_get k' o.
Proof.
  induction o as [|[k2 v2] t IH]; simpl; [reflexivity|].
  destruct (jsstring_eqb k k2) eqn:E; [discriminate|]. intros Hget.
  assert (jsstring_eqb k' k = true -> jsstring_eqb k' k2 = false) as Hx.
  { intros ->%jsstring_eqb_true. exact E. }
  destruct (array_index k2) as [j|]; [destruct (N.ltb j i)|]; simpl;
    try rewrite (IH Hget);
    destruct (jsstring_eqb k' k); try rewrite (Hx eq_refl); reflexivity.
Qed.

Lemma obj_get_replace k v o k' :
  obj_get k' (obj_replace k v o) =
  if jsstring_eqb k' k then
    match obj_get k' o with Some _ => Some v | None => None end
  else obj_get k' o.
Proof.
  induction o as [|[k2 v2] t IH]; simpl.
  - now destruct (jsstring_eqb k' k).
  - destruct (jsstring_eqb k k2) eqn:E; simpl.
    + apply jsstring_eqb_true in E. subst k2.
      destruct (jsstring_eqb k' k); reflexivity.
    + rewrite IH. destruct (jsstring_eqb k' k) eqn:E1.
      * apply jsstring_eqb_true in E1. subst k'. now rewrite E.
      * reflexivity.
Qed.

Lemma obj_get_app k o o' :
  obj_get k (o ++ o') =
  match obj_get k o with Some x => Some x | None => obj_get k o' end.
Proof.
  induction o as [|[k2 v2] t IH]; simpl; [reflexivity|].
  now destruct (jsstring_eqb k k2).
Qed.

Lemma obj_get_set_same k v o : obj_get k (obj_set k v o) = Some v.
Proof.
  unfold obj_set. destruct (obj_get k o) eqn:E.
  - now rewrite obj_get_replace, jsstring_eqb_refl, E.
  - destruct (array_index k).
    + now rewrite obj_get_insert_index, jsstring_eqb_refl.
    + rewrite obj_get_app, E. simpl. now rewrite jsstring_eqb_refl.
Qed.

Lemma obj_get_set_other k v o k' :
  k' <> k -> obj_get k' (obj_set k v o) = obj_get k' o.
Proof.
  intros Hne. apply jsstring_eqb_false in Hne. unfold obj_set.
  destruct (obj_get k o) eqn:E.
  - now rewrite obj_get_replace, Hne.
  - destruct (array_index k).
    + now rewrite obj_get_insert_index, Hne.
    + rewrite obj_get_app. simpl. rewrite Hne. now destruct (obj_get k' o).
Qed.
End Objects.

(** ** Reading back what JSON.stringify writes *)

Lemma value_start_not_ws c : value_start c = true -> is_ws c = false.
Proof. unfold value_start. intros H. char_cases. Qed.

Lemma value_start_not_close c :
  value_start c = true -> is_char c "]" = false /\ is_char c "}" = false.
Proof. unfold value_start. intros H. split; char_cases. Qed.

Lemma QuoteJSONString_app s rest :
  QuoteJSONString s ++ rest = 34%N :: quote_body s ++ 34%N :: rest.
Proof. unfold QuoteJSONString. simpl. now rewrite <- List.app_assoc. Qed.

Lemma join_comma_cons2 (x y : jsstring) t :
  join_comma (x :: y :: t) = x ++ 44%N :: join_comma (y :: t).
Proof. reflexivity. Qed.

Section Roundtrip.
Context {NO : NumberOps}.

Lemma stringify_start v :
  well_formed v ->
  exists c t, JSON_stringify v = c :: t /\ value_start c = true.
Proof.
  destruct v as [|[]|n|s|l|o]; intros Hwf; simpl;
    try (eexists _, _; split; reflexivity).
  destruct (number_is_finite n) eqn:E.
  - destruct (literal_head _ (Hwf E)) as (c & t & -> & H).
    exists c, t. split; [reflexivity|]. unfold value_start.
    destruct H as [-> | ->]; repeat rewrite ?orb_true_r, ?orb_true_l;
      reflexivity.
  - eexists _, _; split; reflexivity.
Qed.

Lemma stringify_length v : well_formed v -> 1 <= length (JSON_stringify v).
Proof.
  intros Hwf. destruct (stringify_start v Hwf) as (c & t & -> & _).
  simpl. lia.
Qed.

Lemma parse_value_number m lit rest :
  json_number_literal lit = true -> delimited rest ->
  parse_value (S m) (lit ++ rest) = Some (JNumber (StringToNumber lit), rest).
Proof.
  intros Hlit Hrest.
  destruct (literal_head _ Hlit) as (c & t & -> & H).
  pose proof (scan_number_literal _ _ Hlit Hrest) as Hscan.
  simpl app in *. cbn [parse_value skip_ws].
  replace (is_ws c) with false by (destruct H; char_cases).
  replace (is_char c "{") with false by (destruct H; char_cases).
  replace (is_char c "[") with false by (destruct H; char_cases).
  replace (is_char c dquote) with false by (destruct H; char_cases).
  replace (is_char c "t") with false by (destruct H; char_cases).
  replace (is_char c "f") with false by (destruct H; char_cases).
  replace (is_char c "n") with false by (destruct H; char_cases).
  now rewrite Hscan.
Qed.

Lemma elements_read_back l :
  l <> [] -> Forall reads_back l -> Forall well_formed l ->
  forall rest m,
    S (length (join_comma (List.map JSON_stringify l))) <= m ->
    parse_elements m (join_comma (List.map JSON_stringify l) ++ 93%N :: rest)
    = Some (List.map json_image l, rest).
Proof.
  induction l as [|v t IH]; [congruence|]. intros _ Hrb Hwf rest m Hm.
  apply Forall_cons in Hrb as [Hv Ht]. apply Forall_cons in Hwf as [Wv Wt].
  destruct m as [|m]; [lia|].
  destruct t as [|v2 t].
  - simpl in Hm. cbn [List.map join_comma parse_elements].
    rewrite (Hv Wv) by (reflexivity || lia). reflexivity.
  - cbn [List.map] in *. rewrite join_comma_cons2 in *.
    rewrite List.length_app in Hm. cbn [length] in Hm.
    pose proof (stringify_length v Wv).
    rewrite <- List.app_assoc. cbn [parse_elements].
    rewrite (Hv Wv) by (reflexivity || lia).
    cbn [app skip_ws]. change (is_ws 44%N) with false.
    change (is_char 44%N ",") with true. cbv iota.
    change (fix join_comma (parts : list jsstring) : jsstring :=
              match parts with
              | [] => []
              | [p] => p
              | p :: (_ :: _) as t => p ++ N_of_ascii "," :: join_comma t
              end) with join_comma.
    rewrite (IH ltac:(congruence) Ht Wt) by lia. reflexivity.
Qed.

Lemma members_read_back o :
  o <> [] ->
  Forall (fun kv => reads_back (snd kv)) o ->
  Forall (fun kv => well_formed (snd kv)) o ->
  forall acc rest m,
    S (length (join_comma (List.map member_text o))) <= m ->
    parse_members m acc (join_comma (List.map member_text o) ++ 125%N :: rest)
    = Some (fold_left (fun a kv => obj_set (fst kv) (snd kv) a)
              (List.map (fun kv : jsstring * value =>
                           (fst kv, json_image (snd kv))) o) acc,
            rest).
Proof.
  induction o as [|[k v] t IH]; [congruence|].
  intros _ Hrb Hwf acc rest m Hm.
  apply Forall_cons in Hrb as [Hv Ht]. apply Forall_cons in Hwf as [Wv Wt].
  simpl in Hv, Wv.
  destruct m as [|m]; [lia|].
  pose proof (stringify_length v Wv).
  destruct t as [|kv2 t].
  - cbn [List.map join_comma member_text] in *.
    rewrite List.length_app in Hm. cbn [length] in Hm.
    rewrite <- List.app_assoc, QuoteJSONString_app.
    cbn [parse_members skip_ws app].
    change (is_ws 34%N) with false. change (is_char 34%N dquote) with true.
    cbv iota. rewrite quote_body_parse.
    cbn [skip_ws]. change (N_of_ascii ":") with 58%N.
    change (is_ws 58%N) with false. change (is_char 58%N ":") with true.
    cbv iota. rewrite (Hv Wv) by (reflexivity || lia). reflexivity.
  - cbn [List.map] in *. rewrite join_comma_cons2 in *.
    cbn [member_text] in *.
    rewrite !List.length_app in Hm. cbn [length] in Hm.
    rewrite <- !List.app_assoc, QuoteJSONString_app.
    cbn [parse_members skip_ws app].
    change (is_ws 34%N) with false. change (is_char 34%N dquote) with true.
    cbv iota. rewrite quote_body_parse.
    cbn [skip_ws]. change (N_of_ascii ":") with 58%N.
    change (is_ws 58%N) with false. change (is_char 58%N ":") with true.
    cbv iota. rewrite <- ?List.app_assoc.
    rewrite (Hv Wv) by (reflexivity || lia).
    cbn [app skip_ws]. change (is_ws 44%N) with false.
    change (is_char 44%N ",") with true. cbv iota.
    rewrite (IH ltac:(congruence) Ht Wt) by lia. reflexivity.
Qed.

Lemma canonical_image o :
  canonical o ->
  canonical (List.map (fun kv : jsstring * value =>
                         (fst kv, json_image (snd kv))) o).
Proof.
  unfold canonical, keys. now rewrite List.map_map.
Qed.

Lemma value_reads_back v : reads_back v.
Proof.
  induction v as [|b|n|s|l IH|o IH] using value_ind;
    intros Hwf rest m Hrest Hm;
    (destruct m as [|m];
     [match type of Hm with
      | length (JSON_stringify ?x) <= 0 =>
          pose proof (stringify_length x Hwf); lia
      end|]).
  - reflexivity.
  - destruct b; reflexivity.
  - cbn [JSON_stringify json_image] in *.
    destruct (number_is_finite n) eqn:E.
    + now rewrite parse_value_number by auto.
    + reflexivity.
  - cbn [JSON_stringify json_image]. rewrite QuoteJSONString_app.
    cbn [parse_value skip_ws]. change (is_ws 34%N) with false.
    change (is_char 34%N "{") with false.
    change (is_char 34%N "[") with false.
    change (is_char 34%N dquote) with true. cbv iota.
    now rewrite quote_body_parse.
  - apply well_formed_array in Hwf.
    cbn [JSON_stringify json_image] in *.
    change (N_of_ascii "[") with 91%N in *.
    change (N_of_ascii "]") with 93%N in *.
    cbn [app length] in *. rewrite <- List.app_assoc.
    rewrite List.length_app in Hm. cbn [app length] in *.
    destruct l as [|v t]; [reflexivity|].
    destruct (stringify_start v) as (c & u & Hc & Hstart);
      [now apply Forall_cons in Hwf|].
    pose proof (value_start_not_ws _ Hstart) as Hws.
    destruct (value_start_not_close _ Hstart) as [Hclose _].
    cbn [parse_value skip_ws]. change (is_ws 91%N) with false.
    change (is_char 91%N "{") with false.
    change (is_char 91%N "[") with true. cbv iota.
    assert (Hhead : exists u', join_comma (List.map JSON_stringify (v :: t))
                                ++ 93%N :: rest = c :: u').
    { destruct t; cbn [List.map join_comma]; rewrite Hc; simpl; eauto. }
    destruct Hhead as [u' Hu']. rewrite Hu'. cbn [skip_ws].
    rewrite Hws, Hclose, <- Hu'.
    rewrite (elements_read_back (v :: t)) by (congruence || auto || lia).
    reflexivity.
  - apply well_formed_object in Hwf as [Hc Hwf].
    cbn [json_image].
    change (JSON_stringify (JObject o))
      with (123%N :: join_comma (List.map member_text o) ++ [125%N]) in *.
    cbn [app length] in *. rewrite <- List.app_assoc.
    rewrite List.length_app in Hm. cbn [app length] in *.
    destruct o as [|[k v] t]; [reflexivity|].
    cbn [parse_value skip_ws]. change (is_ws 123%N) with false.
    change (is_char 123%N "{") with true. cbv iota.
    assert (Hhead : exists u', join_comma (List.map member_text ((k, v) :: t))
                                ++ 125%N :: rest = 34%N :: u').
    { destruct t; cbn [List.map join_comma member_text];
        unfold QuoteJSONString; simpl; eauto. }
    destruct Hhead as [u' Hu']. rewrite Hu'. cbn [skip_ws].
    change (is_ws 34%N) with false. change (is_char 34%N "}") with false.
    cbv iota. rewrite <- Hu'.
    rewrite (members_read_back ((k, v) :: t)) by (congruence || auto || lia).
    rewrite fold_obj_set_canonical; [reflexivity|].
    now apply canonical_image.
Qed.

(** Serializing a well-formed value gives a text that parses, and it parses
    to the value itself up to [json_image]. *)
Lemma JSON_parse_stringify v :
  well_formed v -> JSON_parse (JSON_stringify v) = Some (json_image v).
Proof.
  intros Hwf. unfold JSON_parse.
  pose proof (value_reads_back v Hwf [] (length (JSON_stringify v)) I
                (Nat.le_refl _)) as H.
  rewrite List.app_nil_r in H. now rewrite H.
Qed.
End Roundtrip.

(** ** What JSON.parse returns is well formed *)

Section ParseWellFormed.
Context {NO : NumberOps} {NL : NumberLaws NO}.

Lemma keyword_well_formed kw v s v' r :
  well_formed v -> keyword kw v s = Some (v', r) -> well_formed v'.
Proof.
  unfold keyword. intros Hv H. destruct (strip_prefix (js kw) s); [|discriminate].
  now injection H as <- _.
Qed.

Lemma parse_well_formed_all n :
  (forall s v r, parse_value n s = Some (v, r) -> well_formed v) /\
  (forall s l r, parse_elements n s = Some (l, r) -> Forall well_formed l) /\
  (forall acc s o r,
      canonical acc -> Forall (fun kv => well_formed (snd kv)) acc ->
      parse_members n acc s = Some (o, r) ->
      canonical o /\ Forall (fun kv => well_formed (snd kv)) o).
Proof.
  induction n as [|n (IHv & IHe & IHm)].
  { repeat split; intros; discriminate. }
  split; [|split].
  - intros s v r H. simpl in H.
    destruct (skip_ws s) as [|c r0]; [discriminate|].
    destruct (is_char c "{").
    { destruct (skip_ws r0) as [|c' r']; [discriminate|].
      destruct (is_char c' "}").
      - injection H as <- _. simpl. split; [exact I|exact I].
      - destruct (parse_members n [] r0) as [[o r'']|] eqn:Em; [|discriminate].
        injection H as <- _. apply well_formed_object.
        eapply IHm; [| |exact Em]; [exact I|constructor]. }
    destruct (is_char c "[").
    { destruct (skip_ws r0) as [|c' r']; [discriminate|].
      destruct (is_char c' "]").
      - injection H as <- _. exact I.
      - destruct (parse_elements n r0) as [[l r'']|] eqn:Em; [|discriminate].
        injection H as <- _. apply well_formed_array. eauto. }
    destruct (is_char c dquote).
    { destruct (parse_string_body r0) as [[str r']|]; [|discriminate].
      injection H as <- _. exact I. }
    destruct (is_char c "t"); [eapply keyword_well_formed; [|exact H]; exact I|].
    destruct (is_char c "f"); [eapply keyword_well_formed; [|exact H]; exact I|].
    destruct (is_char c "n"); [eapply keyword_well_formed; [|exact H]; exact I|].
    destruct (scan_number (c :: r0)) as [[lit r']|]; [|discriminate].
    injection H as <- _. simpl. apply NumberToString_literal.
  - intros s l r H. simpl in H.
    destruct (parse_value n s) as [[v r1]|] eqn:Ev; [|discriminate].
    destruct (skip_ws r1) as [|c r2]; [discriminate|].
    destruct (is_char c ",").
    + destruct (parse_elements n r2) as [[l' r3]|] eqn:Ee; [|discriminate].
      injection H as <- _. apply Forall_cons. eauto.
    + destruct (is_char c "]"); [|discriminate].
      injection H as <- _. apply Forall_cons. split; [eauto|constructor].
  - intros acc s o r Hc Hwf H. simpl in H.
    destruct (skip_ws s) as [|c r0]; [discriminate|].
    destruct (is_char c dquote); [|discriminate].
    destruct (parse_string_body r0) as [[k r1]|]; [|discriminate].
    destruct (skip_ws r1) as [|c1 r2]; [discriminate|].
    destruct (is_char c1 ":"); [|discriminate].
    destruct (parse_value n r2) as [[v r3]|] eqn:Ev; [|discriminate].
    apply IHv in Ev.
    destruct (skip_ws r3) as [|c3 r4]; [discriminate|].
    destruct (is_char c3 ",").
    + eapply IHm; [| |exact H];
        [now apply obj_set_canonical|now apply obj_set_values].
    + destruct (is_char c3 "}"); [|discriminate].
      injection H as <- _.
      split; [now apply obj_set_canonical|now apply obj_set_values].
Qed.

Lemma JSON_parse_well_formed text v :
  JSON_parse text = Some v -> well_formed v.
Proof.
  unfold JSON_parse. intros H.
  destruct (parse_value (length text) text) as [[v' r]|] eqn:E; [|discriminate].
  destruct (skip_ws r); [|discriminate]. injection H as <-.
  destruct (parse_well_formed_all (length text)) as [Hv _]. eauto.
Qed.
End ParseWellFormed.

(** ** The handlers *)

Lemma Return_pair_inv {A : Type} (a b : A) (l l' : list event) :
  (Return a, l) = (Return b, l') -> a = b /\ l = l'.
Proof. intros H. inversion H. auto. Qed.

Lemma signing_calls_app l1 l2 :
  signing_calls (l1 ++ l2) = signing_calls l1 ++ signing_calls l2.
Proof.
  induction l1 as [|[lvl args|t] l1 IH]; simpl; [reflexivity|exact IH|].
  now rewrite IH.
Qed.

Lemma falsy_false x : falsy x = false <-> exists c t, x = Some (c :: t).
Proof.
  destruct x as [[|c t]|]; simpl; split; try discriminate; eauto;
    intros (c' & t' & H); discriminate.
Qed.

Lemma falsy_true x : falsy x = true <-> x = None \/ x = Some [].
Proof.
  destruct x as [[|c t]|]; simpl; split; auto; try discriminate;
    intros [H|H]; discriminate.
Qed.

Section RouteFacts.
Context {NO : NumberOps}.
Variable env : gmap jsstring jsstring.
Variable draws : nat -> N.
Variable toJwt : AccessToken -> outcome jsstring.

Lemma Route_ensure_json_valid participantName text v log :
  JSON_parse text = Some v ->
  Route.ensure_json participantName text log = (Return text, log).
Proof.
  intros H. unfold Route.ensure_json, try_catch, JSON_parse_eff.
  now rewrite H.
Qed.

Lemma Route_ensure_json_invalid participantName text log :
  JSON_parse text = None ->
  Route.ensure_json participantName text log =
  (Return (JSON_stringify
             (JObject [(js "selectedPerson", JString participantName)])),
   log ++ [invalid_metadata text]).
Proof.
  intros H. unfold Route.ensure_json, try_catch, JSON_parse_eff.
  now rewrite H.
Qed.

Lemma Route_GET_missing request :
  falsy (param request "roomName") || falsy (param request "participantName")
    = true ->
  Route.GET env draws toJwt request [] =
  (Return (new_NextResponse (js "Missing required parameters") 400), []).
Proof.
  intros H. unfold Route.GET, try_catch. unfold param in H. now rewrite H.
Qed.

Lemma Route_GET_valid request roomName participantName metadata log :
  param request "roomName" = Some roomName -> roomName <> [] ->
  param request "participantName" = Some participantName ->
  participantName <> [] ->
  Route.ensure_json participantName (rawMetadata request)
    [if falsy (Some (rawMetadata request)) then
       Console WARN
         [Text (warning_sign
                  ++ js " Warning: No metadata received for participant "
                  ++ participantName)]
     else
       Console LOG
         [Text (check_mark ++ js " Received metadata for "
                  ++ participantName ++ js ": " ++ rawMetadata request)]]
    = (Return metadata, log) ->
  Route.GET env draws toJwt request [] =
  issued env toJwt (token_for env draws roomName participantName metadata)
    roomName participantName (log ++ [assigning participantName metadata]).
Proof.
  intros Hr Hr' Hp Hp' Hmd. unfold Route.GET.
  fold (param request "roomName"). fold (param request "participantName").
  fold (param request "metadata"). fold (rawMetadata request).
  rewrite Hr, Hp. destruct roomName as [|c1 t1]; [congruence|].
  destruct participantName as [|c2 t2]; [congruence|].
  cbn [falsy orb narrowed default from_option id].
  unfold try_catch at 1. unfold mbind at 1 2. unfold Eff_bind at 1 2.
  assert (Hfirst : forall (e1 e2 : event) (b : bool),
             (if b then emit e1 else emit e2) []
             = (Return tt, [if b then e1 else e2])) by (now intros ? ? []).
  unfold console_warn, console_log at 1. rewrite Hfirst.
  cbn [falsy] in Hmd. rewrite Hmd.
  unfold issued, Route.createParticipantToken, token_for, Route.API_KEY,
    Route.API_SECRET, Route.LIVEKIT_URL, new_AccessToken, set_ttl, addGrant,
    assigning.
  cbn [apiKey apiSecret options ttl video].
  repeat progress
    (unfold try_catch, mbind, Eff_bind, mret, Eff_ret, throw, emit, lift,
       console_log, console_error).
  match goal with
  | |- context [toJwt ?t] => destruct (toJwt t)
  end; rewrite <- ?List.app_assoc; reflexivity.
Qed.
End RouteFacts.

Section Part001Facts.
Context {NO : NumberOps}.
Variable env : gmap jsstring jsstring.
Variable draws : nat -> N.
Variable toJwt : AccessToken -> outcome jsstring.

Lemma Part001_derive_invalid participantName text log :
  JSON_parse text = None ->
  Part001.derive_botName participantName text log =
  (Return (JSON_stringify (default_metadata participantName)),
   log ++ [invalid_metadata text]).
Proof.
  intros H. unfold Part001.derive_botName, try_catch, JSON_parse_eff, mbind,
    Eff_bind.
  now rewrite H.
Qed.

Lemma Part001_derive_primitive participantName text v log :
  JSON_parse text = Some v -> primitive v ->
  Part001.derive_botName participantName text log =
  (Return (JSON_stringify (default_metadata participantName)),
   log ++ [invalid_metadata text]).
Proof.
  intros H Hp. unfold Part001.derive_botName, try_catch, JSON_parse_eff, mbind,
    Eff_bind.
  rewrite H. destruct v; try contradiction; reflexivity.
Qed.

Lemma Part001_derive_array participantName text l log :
  JSON_parse text = Some (JArray l) ->
  Part001.derive_botName participantName text log =
  (Return (JSON_stringify (JArray l)), log).
Proof.
  intros H. unfold Part001.derive_botName, try_catch, JSON_parse_eff, mbind,
    Eff_bind.
  now rewrite H.
Qed.

Lemma Part001_derive_object participantName text o log :
  JSON_parse text = Some (JObject o) ->
  Part001.derive_botName participantName text log =
  (Return (JSON_stringify
             (JObject (obj_set (js "botName")
                         (or_else (obj_get (js "selectedPerson") o)
                            (JString participantName)) o))),
   log).
Proof.
  intros H. unfold Part001.derive_botName, try_catch, JSON_parse_eff, mbind,
    Eff_bind.
  now rewrite H.
Qed.

(** The inner try/catch always yields a text. *)
Lemma Part001_derive_returns participantName text log :
  exists metadata log',
    Part001.derive_botName participantName text log = (Return metadata, log').
Proof.
  destruct (JSON_parse text) as [v|] eqn:E.
  - destruct v; eauto using Part001_derive_array, Part001_derive_object;
      (eexists _, _; eapply Part001_derive_primitive; [exact E|exact I]).
  - eauto using Part001_derive_invalid.
Qed.

Lemma Part001_GET_missing request :
  falsy (param request "roomName") || falsy (param request "participantName")
    = true ->
  Part001.GET env draws toJwt request [] =
  (Return (new_NextResponse (js "Missing required parameters") 400), []).
Proof.
  intros H. unfold Part001.GET, try_catch. unfold param in H. now rewrite H.
Qed.

Lemma Part001_GET_valid request roomName participantName metadata log :
  param request "roomName" = Some roomName -> roomName <> [] ->
  param request "participantName" = Some participantName ->
  participantName <> [] ->
  Part001.derive_botName participantName (rawMetadata request) []
    = (Return metadata, log) ->
  Part001.GET env draws toJwt request [] =
  issued env toJwt (token_for env draws roomName participantName metadata)
    roomName participantName (log ++ [assigning participantName metadata]).
Proof.
  intros Hr Hr' Hp Hp' Hmd. unfold Part001.GET.
  fold (param request "roomName"). fold (param request "participantName").
  fold (param request "metadata"). fold (rawMetadata request).
  rewrite Hr, Hp. destruct roomName as [|c1 t1]; [congruence|].
  destruct participantName as [|c2 t2]; [congruence|].
  cbn [falsy orb narrowed default from_option id].
  unfold try_catch at 1. unfold mbind at 1. unfold Eff_bind at 1.
  rewrite Hmd.
  unfold issued, Part001.createParticipantToken, token_for, Part001.API_KEY,
    Part001.API_SECRET, Part001.LIVEKIT_URL, new_AccessToken, set_ttl,
    addGrant, assigning.
  cbn [apiKey apiSecret options ttl video].
  repeat progress
    (unfold try_catch, mbind, Eff_bind, mret, Eff_ret, throw, emit, lift,
       console_log, console_error).
  match goal with
  | |- context [toJwt ?t] => destruct (toJwt t)
  end; rewrite <- ?List.app_assoc; reflexivity.
Qed.
End Part001Facts.

(** ** Runs of the handlers *)

Lemma signing_calls_issued env toJwt t roomName participantName log :
  signing_calls (snd (issued env toJwt t roomName participantName log))
  = signing_calls log ++ [t].
Proof.
  unfold issued. destruct (toJwt t); simpl; now rewrite signing_calls_app.
Qed.

Lemma issued_response env toJwt t roomName participantName log :
  fst (issued env toJwt t roomName participantName log) =
  match toJwt t with
  | Return tok =>
      Return (NextResponse_json
                {| serverUrl := env !! js "LIVEKIT_URL"; roomName := roomName;
                   participantToken := tok;
                   participantName := participantName |})
  | Throw _ => Return (new_NextResponse (js "Internal Server Error") 500)
  end.
Proof. unfold issued. now destruct (toJwt t). Qed.

Section Runs.
Context {NO : NumberOps}.
Variable env : gmap jsstring jsstring.
Variable draws : nat -> N.
Variable toJwt : AccessToken -> outcome jsstring.

(** A run of the first handler either stops at the parameter check or signs
    one token, whose metadata is the text received or the default. *)
Lemma Route_GET_cases request :
  (falsy (param request "roomName") || falsy (param request "participantName")
     = true /\
   Route.GET env draws toJwt request [] =
   (Return (new_NextResponse (js "Missing required parameters") 400), []))
  \/
  exists roomName participantName metadata log,
    param request "roomName" = Some roomName /\ roomName <> [] /\
    param request "participantName" = Some participantName /\
    participantName <> [] /\
    signing_calls log = [] /\
    ((exists v, JSON_parse (rawMetadata request) = Some v) /\
       metadata = rawMetadata request
     \/
     JSON_parse (rawMetadata request) = None /\
       metadata =
       JSON_stringify (JObject [(js "selectedPerson", JString participantName)]))
    /\
    Route.GET env draws toJwt request [] =
    issued env toJwt (token_for env draws roomName participantName metadata)
      roomName participantName (log ++ [assigning participantName metadata]).
Proof.
  destruct (falsy (param request "roomName")
            || falsy (param request "participantName")) eqn:E.
  { left. split; [reflexivity|]. now apply Route_GET_missing. }
  right. apply orb_false_iff in E as [E1 E2].
  apply falsy_false in E1 as (c1 & t1 & E1).
  apply falsy_false in E2 as (c2 & t2 & E2).
  exists (c1 :: t1), (c2 :: t2).
  destruct (JSON_parse (rawMetadata request)) as [v|] eqn:Ep.
  - eexists _, _. repeat split; try eassumption; try discriminate;
      [| |eapply Route_GET_valid; try eassumption; try discriminate;
          eapply Route_ensure_json_valid; eassumption].
    + now destruct (falsy (Some (rawMetadata request))).
    + left. eauto.
  - eexists _, _. repeat split; try eassumption; try discriminate;
      [| |eapply Route_GET_valid; try eassumption; try discriminate;
          eapply Route_ensure_json_invalid; eassumption].
    + now destruct (falsy (Some (rawMetadata request))).
    + now right.
Qed.

(** The same for the second handler; the metadata is what its inner
    try/catch returns. *)
Lemma Part001_GET_cases request :
  (falsy (param request "roomName") || falsy (param request "participantName")
     = true /\
   Part001.GET env draws toJwt request [] =
   (Return (new_NextResponse (js "Missing required parameters") 400), []))
  \/
  exists roomName participantName metadata log,
    param request "roomName" = Some roomName /\ roomName <> [] /\
    param request "participantName" = Some participantName /\
    participantName <> [] /\
    signing_calls log = [] /\
    Part001.derive_botName participantName (rawMetadata request) []
      = (Return metadata, log) /\
    Part001.GET env draws toJwt request [] =
    issued env toJwt (token_for env draws roomName participantName metadata)
      roomName participantName (log ++ [assigning participantName metadata]).
Proof.
  destruct (falsy (param request "roomName")
            || falsy (param request "participantName")) eqn:E.
  { left. split; [reflexivity|]. now apply Part001_GET_missing. }
  right. apply orb_false_iff in E as [E1 E2].
  apply falsy_false in E1 as (c1 & t1 & E1).
  apply falsy_false in E2 as (c2 & t2 & E2).
  exists (c1 :: t1), (c2 :: t2).
  destruct (Part001_derive_returns (c2 :: t2) (rawMetadata request) [])
    as (metadata & log & Hd).
  exists metadata, log. repeat split; try eassumption; try discriminate.
  - destruct (JSON_parse (rawMetadata request)) as [v|] eqn:Ep.
    + destruct v;
        try (erewrite Part001_derive_primitive in Hd;
             [|exact Ep|exact I]; apply Return_pair_inv in Hd as [_ <-]; reflexivity).
      * erewrite Part001_derive_array in Hd by exact Ep.
        now apply Return_pair_inv in Hd as [_ <-].
      * erewrite Part001_derive_object in Hd by exact Ep.
        now apply Return_pair_inv in Hd as [_ <-].
    + rewrite Part001_derive_invalid in Hd by exact Ep.
      now apply Return_pair_inv in Hd as [_ <-].
  - eapply Part001_GET_valid; try eassumption; discriminate.
Qed.
End Runs.

(** ** The random suffix *)

Lemma characters_alphanumeric : forallb is_alphanumeric characters = true.
Proof. vm_compute. reflexivity. Qed.

Lemma randomString_length draws n : length (randomString draws n) = n.
Proof. unfold randomString. now rewrite List.length_map, List.length_seq. Qed.

Lemma randomString_alphanumeric draws n :
  forallb is_alphanumeric (randomString draws n) = true.
Proof.
  unfold randomString. apply forallb_forall. intros c Hc.
  apply List.in_map_iff in Hc as (i & <- & _).
  pose proof characters_alphanumeric as H.
  rewrite forallb_forall in H. apply H. apply nth_In.
  change (length characters) with 62.
  pose proof (N.mod_upper_bound (draws i) 62 ltac:(lia)). lia.
Qed.

(** ** The claims about the handlers *)

(** C3.  A request whose roomName or participantName is absent or empty is
    answered with status 400 and the event log stays empty: no call of the
    signing library, no console output, nothing else.  Both handlers. *)
Theorem missing_parameter_is_rejected {NO : NumberOps}
    (env : gmap jsstring jsstring) (draws : nat -> N)
    (toJwt : AccessToken -> outcome jsstring) (request : NextRequest) :
  param request "roomName" = None \/ param request "roomName" = Some [] \/
  param request "participantName" = None \/
  param request "participantName" = Some [] ->
  Route.GET env draws toJwt request [] =
    (Return {| status := 400;
               body := PlainText (js "Missing required parameters") |}, [])
  /\
  Part001.GET env draws toJwt request [] =
    (Return {| status := 400;
               body := PlainText (js "Missing required parameters") |}, []).
Proof.
  intros H.
  assert (falsy (param request "roomName")
          || falsy (param request "participantName") = true) as Hf.
  { apply orb_true_iff.
    destruct H as [H|[H|[H|H]]]; rewrite H; simpl; auto. }
  split; [now apply Route_GET_missing|now apply Part001_GET_missing].
Qed.

(** C5.  Whenever a handler answers 200 it has made exactly one signing call,
    the answer carries the credential that call returned, and the token of
    the call carries the grant
    {room: roomName, roomJoin, canPublish, canPublishData, canSubscribe: true}
    and the time to live "5m", which the signing library reads as 300
    seconds, whatever else the request holds.  Both handlers. *)
Theorem issued_token_grant_and_ttl {NO : NumberOps}
    (env : gmap jsstring jsstring) (draws : nat -> N)
    (toJwt : AccessToken -> outcome jsstring) (request : NextRequest)
    (response : NextResponse) (log : list event) :
  (Route.GET env draws toJwt request [] = (Return response, log) \/
   Part001.GET env draws toJwt request [] = (Return response, log)) ->
  status response = 200 ->
  exists roomName t,
    param request "roomName" = Some roomName /\
    signing_calls log = [t] /\
    video t = Some {| room := roomName; roomJoin := true; canPublish := true;
                      canPublishData := true; canSubscribe := true |} /\
    ttl t = Some (js "5m") /\
    timespan_seconds (js "5m") = Some (5 * 60)%N /\
    exists details,
      body response = Json details /\
      toJwt t = Return (participantToken details).
Proof.
  intros Hrun Hstatus.
  assert (exists roomName participantName metadata log0,
             param request "roomName" = Some roomName /\
             signing_calls log0 = [] /\
             (Return response, log) =
             issued env toJwt
               (token_for env draws roomName participantName metadata)
               roomName participantName
               (log0 ++ [assigning participantName metadata]))
    as (rn & pn & md & log0 & Hrn & Hlog0 & Heq).
  { destruct Hrun as [Hrun|Hrun].
    - destruct (Route_GET_cases env draws toJwt request)
        as [[_ H]|(rn & pn & md & log0 & H1 & _ & _ & _ & H5 & _ & H7)].
      + rewrite H in Hrun. injection Hrun as <- _. discriminate.
      + exists rn, pn, md, log0. rewrite <- Hrun. auto.
    - destruct (Part001_GET_cases env draws toJwt request)
        as [[_ H]|(rn & pn & md & log0 & H1 & _ & _ & _ & H5 & _ & H7)].
      + rewrite H in Hrun. injection Hrun as <- _. discriminate.
      + exists rn, pn, md, log0. rewrite <- Hrun. auto. }
  exists rn, (token_for env draws rn pn md).
  split; [exact Hrn|]. split.
  { change log with (snd (Return response, log)). rewrite Heq.
    rewrite signing_calls_issued, signing_calls_app, Hlog0. reflexivity. }
  do 3 (split; [reflexivity|]).
  pose proof (f_equal fst Heq) as Hresp. rewrite issued_response in Hresp.
  cbn [fst] in Hresp.
  destruct (toJwt (token_for env draws rn pn md)) as [tok|e].
  - injection Hresp as ->. eexists. split; reflexivity.
  - injection Hresp as ->. discriminate.
Qed.

(** C6 (the suffix comes from the model of randomString).  A request with a
    non-empty roomName and participantName reaches the construction of the
    identity, and the token then signed has the identity
    participantName, "__", and exactly four alphanumeric characters.  Both
    handlers. *)
Theorem participant_identity_shape {NO : NumberOps}
    (env : gmap jsstring jsstring) (draws : nat -> N)
    (toJwt : AccessToken -> outcome jsstring) (request : NextRequest)
    (roomName participantName : jsstring) :
  param request "roomName" = Some roomName -> roomName <> [] ->
  param request "participantName" = Some participantName ->
  participantName <> [] ->
  exists suffix,
    length suffix = 4 /\ forallb is_alphanumeric suffix = true /\
    (exists t, signing_calls (snd (Route.GET env draws toJwt request [])) = [t]
               /\ identity (options t) = participantName ++ js "__" ++ suffix)
    /\
    (exists t, signing_calls (snd (Part001.GET env draws toJwt request [])) = [t]
               /\ identity (options t) = participantName ++ js "__" ++ suffix).
Proof.
  intros Hr Hr' Hp Hp'. exists (randomString draws 4).
  split; [apply randomString_length|].
  split; [apply randomString_alphanumeric|].
  assert (Hvalid : falsy (param request "roomName")
                   || falsy (param request "participantName") = false).
  { rewrite Hr, Hp. destruct roomName, participantName; simpl; congruence. }
  split.
  - destruct (Route_GET_cases env draws toJwt request)
      as [[H _]|(rn & pn & md & log0 & H1 & _ & H3 & _ & H5 & _ & H7)];
      [congruence|].
    assert (pn = participantName) as -> by congruence.
    eexists. rewrite H7, signing_calls_issued, signing_calls_app, H5.
    split; reflexivity.
  - destruct (Part001_GET_cases env draws toJwt request)
      as [[H _]|(rn & pn & md & log0 & H1 & _ & H3 & _ & H5 & _ & H7)];
      [congruence|].
    assert (pn = participantName) as -> by congruence.
    eexists. rewrite H7, signing_calls_issued, signing_calls_app, H5.
    split; reflexivity.
Qed.

(** ** The default metadata *)

Section Defaults.
Context {NO : NumberOps}.

Lemma plain_default_parses participantName :
  JSON_parse
    (JSON_stringify (JObject [(js "selectedPerson", JString participantName)]))
  = Some (JObject [(js "selectedPerson", JString participantName)]).
Proof.
  apply (JSON_parse_stringify
           (JObject [(js "selectedPerson", JString participantName)])).
  apply well_formed_object. split; [|repeat constructor].
  split; [constructor|exact I].
Qed.

Lemma default_metadata_well_formed participantName :
  well_formed (default_metadata participantName).
Proof.
  apply well_formed_object. split; [|repeat constructor].
  split; [|split; [constructor|exact I]].
  repeat constructor. vm_compute. discriminate.
Qed.

Lemma default_metadata_parses participantName :
  JSON_parse (JSON_stringify (default_metadata participantName))
  = Some (default_metadata participantName).
Proof.
  apply (JSON_parse_stringify (default_metadata participantName)).
  apply default_metadata_well_formed.
Qed.

Lemma obj_get_image k o :
  obj_get k (List.map (fun kv : jsstring * value =>
                         (fst kv, json_image (snd kv))) o)
  = option_map json_image (obj_get k o).
Proof.
  induction o as [|[k' v] t IH]; simpl; [reflexivity|].
  now destruct (jsstring_eqb k k').
Qed.
End Defaults.

(** C1.  Take a request with a non-empty roomName and participantName whose
    metadata text does not parse as JSON.  The inner try/catch then returns
    normally, each handler makes one signing call, and the metadata of that
    call is the serialized default object ({selectedPerson: participantName}
    in route.ts, {selectedPerson: participantName, botName: participantName}
    in the handler that derives a bot name): it parses to that object and it
    is not the text received.  The answer is an error only if the signing
    call itself throws. *)
Theorem invalid_metadata_is_replaced {NO : NumberOps}
    (env : gmap jsstring jsstring) (draws : nat -> N)
    (toJwt : AccessToken -> outcome jsstring) (request : NextRequest)
    (roomName participantName : jsstring) :
  param request "roomName" = Some roomName -> roomName <> [] ->
  param request "participantName" = Some participantName ->
  participantName <> [] ->
  JSON_parse (rawMetadata request) = None ->
  (exists t,
      signing_calls (snd (Route.GET env draws toJwt request [])) = [t] /\
      metadata (options t) =
        JSON_stringify
          (JObject [(js "selectedPerson", JString participantName)]) /\
      JSON_parse (metadata (options t)) =
        Some (JObject [(js "selectedPerson", JString participantName)]) /\
      metadata (options t) <> rawMetadata request /\
      exists response,
        fst (Route.GET env draws toJwt request []) = Return response /\
        (status response = 200 \/ exists e, toJwt t = Throw e))
  /\
  (exists t,
      signing_calls (snd (Part001.GET env draws toJwt request [])) = [t] /\
      metadata (options t) =
        JSON_stringify
          (JObject [(js "selectedPerson", JString participantName);
                    (js "botName", JString participantName)]) /\
      JSON_parse (metadata (options t)) =
        Some (JObject [(js "selectedPerson", JString participantName);
                       (js "botName", JString participantName)]) /\
      metadata (options t) <> rawMetadata request /\
      exists response,
        fst (Part001.GET env draws toJwt request []) = Return response /\
        (status response = 200 \/ exists e, toJwt t = Throw e)).
Proof.
  intros Hr Hr' Hp Hp' Hbad. split.
  - destruct (Route_GET_cases env draws toJwt request)
      as [[H _]|(rn & pn & md & log0 & H1 & _ & H3 & _ & H5 & H6 & H7)].
    { rewrite Hr, Hp in H. destruct roomName, participantName;
        simpl in H; congruence. }
    assert (pn = participantName) as -> by congruence.
    destruct H6 as [[[v Hv] _]|[_ ->]]; [congruence|].
    eexists. rewrite H7, signing_calls_issued, signing_calls_app, H5.
    split; [reflexivity|]. cbn [token_for options metadata].
    split; [reflexivity|]. split; [apply plain_default_parses|].
    split.
    + intros Heq.
      assert (exists v, JSON_parse (rawMetadata request) = Some v) as [v Hv]
        by (rewrite <- Heq; eexists; apply plain_default_parses).
      congruence.
    + rewrite issued_response.
      match goal with |- context [toJwt ?t] => destruct (toJwt t) eqn:E end;
        eexists; (split; [reflexivity|]); [now left|right; eauto].
  - destruct (Part001_GET_cases env draws toJwt request)
      as [[H _]|(rn & pn & md & log0 & H1 & _ & H3 & _ & H5 & H6 & H7)].
    { rewrite Hr, Hp in H. destruct roomName, participantName;
        simpl in H; congruence. }
    assert (pn = participantName) as -> by congruence.
    rewrite Part001_derive_invalid in H6 by exact Hbad.
    apply Return_pair_inv in H6 as [<- _].
    eexists. rewrite H7, signing_calls_issued, signing_calls_app, H5.
    split; [reflexivity|]. cbn [token_for options metadata].
    split; [reflexivity|].
    split; [apply (default_metadata_parses participantName)|].
    split.
    + intros Heq.
      assert (exists v, JSON_parse (rawMetadata request) = Some v) as [v Hv]
        by (rewrite <- Heq; eexists;
            apply (default_metadata_parses participantName)).
      congruence.
    + rewrite issued_response.
      match goal with |- context [toJwt ?t] => destruct (toJwt t) eqn:E end;
        eexists; (split; [reflexivity|]); [now left|right; eauto].
Qed.

(** The literal model meets the law. *)
Lemma LiteralNumber_laws : NumberLaws LiteralNumber.
Proof. constructor. intros n H. exact H. Qed.

Section Metadata.
Context {NO : NumberOps} {NL : NumberLaws NO}.

(** What the handler that derives a bot name serializes is well formed. *)
Lemma Part001_derived_well_formed participantName o :
  well_formed (JObject o) ->
  well_formed
    (JObject (obj_set (js "botName")
                (or_else (obj_get (js "selectedPerson") o)
                   (JString participantName)) o)).
Proof.
  intros [Hc Hv]%well_formed_object. apply well_formed_object.
  split; [now apply obj_set_canonical|].
  apply obj_set_values; [|exact Hv].
  unfold or_else. destruct (obj_get (js "selectedPerson") o) as [x|] eqn:E;
    [|exact I].
  destruct (ToBoolean x); [|exact I].
  apply obj_get_Some_In in E. rewrite Forall_forall in Hv.
  apply (Hv (js "selectedPerson", x)). now apply list_elem_of_In.
Qed.

Lemma Part001_metadata_parses participantName text metadata log :
  Part001.derive_botName participantName text [] = (Return metadata, log) ->
  exists w, well_formed w /\ metadata = JSON_stringify w.
Proof.
  intros Hd. destruct (JSON_parse text) as [v|] eqn:Ep.
  - pose proof (JSON_parse_well_formed _ _ Ep) as Hwf.
    destruct v;
      try (erewrite Part001_derive_primitive in Hd; [|exact Ep|exact I];
           apply Return_pair_inv in Hd as [<- _]; eexists; split;
           [apply (default_metadata_well_formed participantName)|reflexivity]).
    + erewrite Part001_derive_array in Hd by exact Ep.
      apply Return_pair_inv in Hd as [<- _]. eauto.
    + erewrite Part001_derive_object in Hd by exact Ep.
      apply Return_pair_inv in Hd as [<- _]. eexists. split; [|reflexivity].
      now apply Part001_derived_well_formed.
  - rewrite Part001_derive_invalid in Hd by exact Ep.
    apply Return_pair_inv in Hd as [<- _]. eexists. split; [|reflexivity].
    apply (default_metadata_well_formed participantName).
Qed.
End Metadata.

(** C4.  The metadata of every token that a handler hands to the signing
    library parses as JSON.  It is either the text received, which the
    handler has parsed, or the serialization of a value (a parsed value with
    botName set, or the default object).  Both handlers; the numbers that a
    parsed value holds are written by Number::toString, of which the theorem
    assumes [NumberLaws]. *)
Theorem signed_metadata_is_json {NO : NumberOps} {NL : NumberLaws NO}
    (env : gmap jsstring jsstring) (draws : nat -> N)
    (toJwt : AccessToken -> outcome jsstring) (request : NextRequest)
    (t : AccessToken) :
  In t (signing_calls (snd (Route.GET env draws toJwt request []))) \/
  In t (signing_calls (snd (Part001.GET env draws toJwt request []))) ->
  (exists v, JSON_parse (metadata (options t)) = Some v) /\
  (metadata (options t) = rawMetadata request \/
   exists w, metadata (options t) = JSON_stringify w).
Proof.
  intros [Hin|Hin].
  - destruct (Route_GET_cases env draws toJwt request)
      as [[_ H]|(rn & pn & md & log0 & _ & _ & _ & _ & H5 & H6 & H7)].
    { rewrite H in Hin. contradiction. }
    rewrite H7, signing_calls_issued, signing_calls_app, H5 in Hin.
    destruct Hin as [<-|[]]. cbn [token_for options metadata].
    destruct H6 as [[[v Hv] ->]|[_ ->]].
    + split; [eauto|now left].
    + split; [eexists; apply plain_default_parses|right; eauto].
  - destruct (Part001_GET_cases env draws toJwt request)
      as [[_ H]|(rn & pn & md & log0 & _ & _ & _ & _ & H5 & H6 & H7)].
    { rewrite H in Hin. contradiction. }
    rewrite H7, signing_calls_issued, signing_calls_app, H5 in Hin.
    destruct Hin as [<-|[]]. cbn [token_for options metadata].
    destruct (Part001_metadata_parses _ _ _ _ H6) as (w & Hw & ->).
    split; [|right; eauto].
    eexists. now apply JSON_parse_stringify.
Qed.

(** C2, amended.  In the handler that derives a bot name, take a request
    with a non-empty roomName and participantName whose metadata parses to an
    object.  The signed metadata is the serialization of that object with
    botName set to (selectedPerson || participantName).  Read back, it is an
    object whose botName is selectedPerson (as serialized) when selectedPerson
    is present and truthy, and participantName when selectedPerson is absent
    or falsy. *)
Theorem botName_follows_selectedPerson {NO : NumberOps} {NL : NumberLaws NO}
    (env : gmap jsstring jsstring) (draws : nat -> N)
    (toJwt : AccessToken -> outcome jsstring) (request : NextRequest)
    (roomName participantName : jsstring) (o : object) :
  param request "roomName" = Some roomName -> roomName <> [] ->
  param request "participantName" = Some participantName ->
  participantName <> [] ->
  JSON_parse (rawMetadata request) = Some (JObject o) ->
  exists t o',
    signing_calls (snd (Part001.GET env draws toJwt request [])) = [t] /\
    metadata (options t) =
      JSON_stringify
        (JObject (obj_set (js "botName")
                    (or_else (obj_get (js "selectedPerson") o)
                       (JString participantName)) o)) /\
    JSON_parse (metadata (options t)) = Some (JObject o') /\
    (forall x, obj_get (js "selectedPerson") o = Some x -> ToBoolean x = true ->
               obj_get (js "botName") o' = Some (json_image x) /\
               obj_get (js "selectedPerson") o' = Some (json_image x)) /\
    (obj_get (js "selectedPerson") o = None \/
     (exists x, obj_get (js "selectedPerson") o = Some x /\ ToBoolean x = false) ->
     obj_get (js "botName") o' = Some (JString participantName)).
Proof.
  intros Hr Hr' Hp Hp' Hparse.
  destruct (Part001_GET_cases env draws toJwt request)
    as [[H _]|(rn & pn & md & log0 & H1 & _ & H3 & _ & H5 & H6 & H7)].
  { rewrite Hr, Hp in H. destruct roomName, participantName;
      simpl in H; congruence. }
  assert (pn = participantName) as -> by congruence.
  erewrite Part001_derive_object in H6 by exact Hparse.
  apply Return_pair_inv in H6 as [<- _].
  pose proof (JSON_parse_well_formed _ _ Hparse) as Hwf.
  pose proof (Part001_derived_well_formed participantName o Hwf) as Hwf'.
  eexists _,
    (List.map (fun kv : jsstring * value => (fst kv, json_image (snd kv)))
       (obj_set (js "botName")
          (or_else (obj_get (js "selectedPerson") o) (JString participantName))
          o)).
  rewrite H7, signing_calls_issued, signing_calls_app, H5.
  split; [reflexivity|]. cbn [token_for options metadata].
  split; [reflexivity|].
  split; [rewrite (JSON_parse_stringify _ Hwf'); reflexivity|].
  rewrite !obj_get_image. split.
  - intros x Hx Ht. unfold or_else. rewrite Hx, Ht.
    rewrite obj_get_set_same, obj_get_set_other by discriminate.
    now rewrite Hx.
  - intros [Hn|(x & Hx & Ht)]; unfold or_else.
    + rewrite Hn. now rewrite obj_get_set_same.
    + rewrite Hx, Ht. now rewrite obj_get_set_same.
Qed.

(** C9, amended.  In the handler that derives a bot name, take a request
    with a non-empty roomName and participantName whose metadata parses to
    null, a boolean, a number or a string.  Reading selectedPerson of null
    and assigning botName to a boolean, a number or a string throw a
    TypeError, the catch branch of the inner try/catch runs as it does for a
    text that does not parse, and the signed metadata is the serialized
    default object {selectedPerson: participantName, botName:
    participantName}. *)
Theorem primitive_metadata_is_replaced {NO : NumberOps}
    (env : gmap jsstring jsstring) (draws : nat -> N)
    (toJwt : AccessToken -> outcome jsstring) (request : NextRequest)
    (roomName participantName : jsstring) (v : value) :
  param request "roomName" = Some roomName -> roomName <> [] ->
  param request "participantName" = Some participantName ->
  participantName <> [] ->
  JSON_parse (rawMetadata request) = Some v -> primitive v ->
  (GetV v (js "selectedPerson") = Throw TypeError \/
   forall x, PutValue v (js "botName") x = Throw TypeError) /\
  Part001.derive_botName participantName (rawMetadata request) [] =
    (Return (JSON_stringify
               (JObject [(js "selectedPerson", JString participantName);
                         (js "botName", JString participantName)])),
     [Console ERROR
        [Text (cross_mark ++ js " Invalid JSON metadata: "
                 ++ rawMetadata request)]]) /\
  exists t,
    signing_calls (snd (Part001.GET env draws toJwt request [])) = [t] /\
    metadata (options t) =
      JSON_stringify
        (JObject [(js "selectedPerson", JString participantName);
                  (js "botName", JString participantName)]) /\
    JSON_parse (metadata (options t)) =
      Some (JObject [(js "selectedPerson", JString participantName);
                     (js "botName", JString participantName)]).
Proof.
  intros Hr Hr' Hp Hp' Hparse Hprim.
  split; [destruct v; try contradiction; simpl; auto|].
  pose proof (Part001_derive_primitive participantName _ _ [] Hparse Hprim)
    as Hd.
  split; [exact Hd|].
  destruct (Part001_GET_cases env draws toJwt request)
    as [[H _]|(rn & pn & md & log0 & H1 & _ & H3 & _ & H5 & H6 & H7)].
  { rewrite Hr, Hp in H. destruct roomName, participantName;
      simpl in H; congruence. }
  assert (pn = participantName) as -> by congruence.
  rewrite Hd in H6. apply Return_pair_inv in H6 as [<- _].
  eexists. rewrite H7, signing_calls_issued, signing_calls_app, H5.
  split; [reflexivity|]. cbn [token_for options metadata].
  split; [reflexivity|]. apply (default_metadata_parses participantName).
Qed.

(** C8, amended.  The key is LIVEKIT_URL when the region is null or the
    empty string, and the upper-cased LIVEKIT_URL_(region) otherwise.  The
    function returns the value that the environment holds under the key when
    that value is a non-empty string; when the key is absent, and when its
    value is the empty string, it throws an error that names the key. *)
Theorem getLiveKitURL_resolution (env : gmap jsstring jsstring)
    (toUpperCase : jsstring -> jsstring) (region : option jsstring) :
  Route.getLiveKitURL env toUpperCase region =
  match
    env !! match region with
           | Some (c :: r) => toUpperCase (js "LIVEKIT_URL_" ++ c :: r)
           | _ => js "LIVEKIT_URL"
           end
  with
  | Some (c :: url) => Return (c :: url)
  | _ =>
      Throw (Error (match region with
                    | Some (c :: r) => toUpperCase (js "LIVEKIT_URL_" ++ c :: r)
                    | _ => js "LIVEKIT_URL"
                    end ++ js " is not defined"))
  end.
Proof.
  unfold Route.getLiveKitURL.
  destruct region as [[|c r]|]; cbn [falsy narrowed default from_option id];
    match goal with
    | |- context [env !! ?k] => destruct (env !! k) as [[|c' url]|]
    end; reflexivity.
Qed.

(** ** The selector component *)

(** C7.  Dropdown.tsx starts closed with the selection Ram and shows no
    option list; a click on the button then opens it.  In an open state the
    list shows exactly Ram, Shyam, Ketan, and a click on an option makes the
    label show that option, calls onSelect with it once, and closes the
    list. *)
Theorem dropdown_selects (st : UI.state) (index : nat) (person : jsstring) :
  UI.Open st ->
  nth_error Dropdown.people index = Some person ->
  (UI.Closed Dropdown.initial /\
   UI.label (Dropdown.render Dropdown.initial) = js "Ram" /\
   UI.list_ (Dropdown.render Dropdown.initial) = None /\
   Dropdown.step Dropdown.initial UI.ClickButton =
     ({| UI.isOpen := true; UI.selectedPerson := js "Ram" |}, [])) /\
  option_map (fun m => List.map UI.item_text (UI.items m))
    (UI.list_ (Dropdown.render st)) = Some [js "Ram"; js "Shyam"; js "Ketan"] /\
  Dropdown.step st (UI.ClickItem index) =
    ({| UI.isOpen := false; UI.selectedPerson := person |}, [person]) /\
  UI.label (Dropdown.render (fst (Dropdown.step st (UI.ClickItem index))))
    = person /\
  UI.Closed (fst (Dropdown.step st (UI.ClickItem index))).
Proof.
  unfold UI.Open. intros Hopen Hperson.
  split; [repeat split|].
  assert (Hstep : Dropdown.step st (UI.ClickItem index) =
                  ({| UI.isOpen := false; UI.selectedPerson := person |},
                   [person])).
  { unfold Dropdown.step, Dropdown.render, UI.handler_of.
    cbn [UI.list_]. rewrite Hopen. cbn [UI.items option_map].
    destruct index as [|[|[|index]]]; simpl in Hperson;
      try (injection Hperson as <-; reflexivity).
    destruct index; discriminate. }
  split.
  { unfold Dropdown.render. cbn [UI.list_]. rewrite Hopen. reflexivity. }
  split; [exact Hstep|]. rewrite Hstep. split; reflexivity.
Qed.

(** C10.  The two component files have the same initial state and the same
    options; a click reaches the same handler in both, so every sequence of
    clicks leads both through the same states, the same calls of onSelect
    and the same shown content; their views are equal once the styling is
    removed, and differ with it. *)
Theorem dropdown_files_agree :
  Dropdown.initial = Part000.initial /\
  Dropdown.people = Part000.people /\
  Dropdown.people = [js "Ram"; js "Shyam"; js "Ketan"] /\
  (forall st c, UI.handler_of (Dropdown.render st) c
                = UI.handler_of (Part000.render st) c) /\
  (forall st c, Dropdown.step st c = Part000.step st c) /\
  (forall cs st, Dropdown.run st cs = Part000.run st cs) /\
  (forall st, UI.unstyled (Dropdown.render st)
              = UI.unstyled (Part000.render st)) /\
  (forall st, Dropdown.render st <> Part000.render st).
Proof.
  assert (Hview : forall st, UI.unstyled (Dropdown.render st)
                             = UI.unstyled (Part000.render st)).
  { intros [[] p]; reflexivity. }
  assert (Hhandler : forall st c, UI.handler_of (Dropdown.render st) c
                                  = UI.handler_of (Part000.render st) c).
  { intros [[] p] [|i]; try reflexivity.
    destruct i as [|[|[|i]]]; reflexivity. }
  assert (Hstep : forall st c, Dropdown.step st c = Part000.step st c).
  { intros st c. unfold Dropdown.step, Part000.step. now rewrite Hhandler. }
  split; [reflexivity|]. split; [reflexivity|]. split; [reflexivity|].
  split; [exact Hhandler|]. split; [exact Hstep|].
  split; [|split; [exact Hview|]].
  - induction cs as [|c cs IH]; intros st; simpl; [reflexivity|].
    rewrite Hstep. destruct (Part000.step st c) as [st1 out1].
    rewrite IH. destruct (Part000.run st1 cs) as [[st2 out2] shown].
    f_equal. f_equal. now destruct st1 as [[] p].
  - intros st H. apply (f_equal UI.root_className) in H. discriminate.
Qed.

(** * Further properties of the handlers *)


Section MoreRuns.
Context {NO : NumberOps}.
Variable env : gmap jsstring jsstring.
Variable draws : nat -> N.
Variable toJwt : AccessToken -> outcome jsstring.

(** The run of route.ts on a request that passes the parameter check. *)
Lemma Route_GET_run request roomName participantName :
  param request "roomName" = Some roomName -> roomName <> [] ->
  param request "participantName" = Some participantName ->
  participantName <> [] ->
  exists metadata errors,
    (JSON_parse (rawMetadata request) <> None /\
       metadata = rawMetadata request /\ errors = []
     \/
     JSON_parse (rawMetadata request) = None /\
       metadata =
         JSON_stringify
           (JObject [(js "selectedPerson", JString participantName)]) /\
       errors = [invalid_metadata (rawMetadata request)]) /\
    signing_calls errors = [] /\
    Route.GET env draws toJwt request [] =
    issued env toJwt (token_for env draws roomName participantName metadata)
      roomName participantName
      ((received participantName (rawMetadata request) :: errors)
         ++ [assigning participantName metadata]).
Proof.
  intros Hr Hr' Hp Hp'. unfold received.
  destruct (JSON_parse (rawMetadata request)) as [v|] eqn:Ep.
  - exists (rawMetadata request), []. split; [left; repeat split; congruence|].
    split; [reflexivity|].
    apply Route_GET_valid; try assumption.
    eapply Route_ensure_json_valid; eassumption.
  - eexists _, [_]. split; [right; repeat split|].
    split; [reflexivity|].
    apply Route_GET_valid; try assumption.
    now apply Route_ensure_json_invalid.
Qed.

(** The inner try/catch of the second handler logs console lines only. *)
Lemma Part001_derive_log participantName text metadata log :
  Part001.derive_botName participantName text [] = (Return metadata, log) ->
  signing_calls log = [].
Proof.
  intros Hd. destruct (JSON_parse text) as [v|] eqn:Ep.
  - destruct v;
      first [ rewrite (Part001_derive_primitive participantName _ _ [] Ep I)
                in Hd
            | rewrite (Part001_derive_array participantName _ _ [] Ep) in Hd
            | rewrite (Part001_derive_object participantName _ _ [] Ep) in Hd ];
      apply Return_pair_inv in Hd as [_ <-]; reflexivity.
  - rewrite (Part001_derive_invalid participantName _ [] Ep) in Hd.
    apply Return_pair_inv in Hd as [_ <-]; reflexivity.
Qed.

(** The run of the second handler on such a request. *)
Lemma Part001_GET_run request roomName participantName :
  param request "roomName" = Some roomName -> roomName <> [] ->
  param request "participantName" = Some participantName ->
  participantName <> [] ->
  exists metadata errors,
    Part001.derive_botName participantName (rawMetadata request) []
      = (Return metadata, errors) /\
    signing_calls errors = [] /\
    Part001.GET env draws toJwt request [] =
    issued env toJwt (token_for env draws roomName participantName metadata)
      roomName participantName (errors ++ [assigning participantName metadata]).
Proof.
  intros Hr Hr' Hp Hp'.
  destruct (Part001_derive_returns participantName (rawMetadata request) [])
    as (metadata & errors & Hd).
  exists metadata, errors. split; [exact Hd|].
  split; [exact (Part001_derive_log _ _ _ _ Hd)|].
  now apply Part001_GET_valid.
Qed.

(** X1.  route.ts signs metadata that parses exactly as it arrived, code unit
    for code unit: nothing is re-serialized, no botName is added and no
    error line is logged. *)
Theorem valid_metadata_is_signed_verbatim (request : NextRequest)
    (roomName participantName : jsstring) (v : value) :
  param request "roomName" = Some roomName -> roomName <> [] ->
  param request "participantName" = Some participantName ->
  participantName <> [] ->
  JSON_parse (rawMetadata request) = Some v ->
  exists t,
    signing_calls (snd (Route.GET env draws toJwt request [])) = [t] /\
    metadata (options t) = rawMetadata request /\
    ~ In (invalid_metadata (rawMetadata request))
        (snd (Route.GET env draws toJwt request [])).
Proof.
  intros Hr Hr' Hp Hp' Hv.
  destruct (Route_GET_run request _ _ Hr Hr' Hp Hp')
    as (md & errors & [(_ & -> & ->)|(Hn & _)] & _ & Hrun); [|congruence].
  eexists. rewrite Hrun, signing_calls_issued.
  split; [unfold received; destruct (falsy _); reflexivity|].
  split; [reflexivity|].
  unfold issued, received, invalid_metadata, assigning.
  destruct (toJwt _), (falsy _); cbn [snd app In];
    intros H; repeat (destruct H as [H|H]; try discriminate); exact H.
Qed.
End MoreRuns.

Lemma names_cases (request : NextRequest) :
  falsy (param request "roomName") || falsy (param request "participantName")
    = true
  \/ exists roomName participantName,
       param request "roomName" = Some roomName /\ roomName <> [] /\
       param request "participantName" = Some participantName /\
       participantName <> [].
Proof.
  destruct (param request "roomName") as [[|a r]|]; [now left| |now left].
  destruct (param request "participantName") as [[|b p]|];
    [now left| |now left].
  right. eexists _, _. repeat split; congruence.
Qed.

Lemma issued_log env toJwt t roomName participantName log :
  snd (issued env toJwt t roomName participantName log) =
  log ++ ToJwt t ::
    match toJwt t with
    | Return _ => []
    | Throw e => [token_error e]
    end.
Proof. unfold issued. destruct (toJwt t); reflexivity. Qed.

Lemma In_signing_calls t log : In (ToJwt t) log <-> In t (signing_calls log).
Proof.
  induction log as [|[lvl args|t'] log IH]; simpl.
  - tauto.
  - rewrite <- IH. split; [intros [H|H]; [discriminate H|exact H]|tauto].
  - rewrite <- IH. split; (intros [H|H]; [left; congruence|now right]).
Qed.

Section MoreHandlers.
Context {NO : NumberOps}.
Variable env : gmap jsstring jsstring.
Variable draws : nat -> N.
Variable toJwt : AccessToken -> outcome jsstring.

(** Every run of either handler: the rejection, or one signing call on the
    token of the request after console lines only. *)
Lemma GET_runs request run :
  Route.GET env draws toJwt request [] = run \/
  Part001.GET env draws toJwt request [] = run ->
  (falsy (param request "roomName") || falsy (param request "participantName")
     = true /\
   run = (Return (new_NextResponse (js "Missing required parameters") 400), []))
  \/
  exists roomName participantName metadata log,
    param request "roomName" = Some roomName /\ roomName <> [] /\
    param request "participantName" = Some participantName /\
    participantName <> [] /\
    signing_calls log = [] /\
    run = issued env toJwt
            (token_for env draws roomName participantName metadata)
            roomName participantName
            (log ++ [assigning participantName metadata]).
Proof.
  intros Hrun.
  destruct (names_cases request) as [Hm|(r & p & Hr & Hr' & Hp & Hp')].
  - left. split; [exact Hm|].
    destruct Hrun as [<-|<-];
      [now apply Route_GET_missing|now apply Part001_GET_missing].
  - right. destruct Hrun as [<-|<-].
    + destruct (Route_GET_run env draws toJwt request r p Hr Hr' Hp Hp')
        as (md & errors & _ & He & ->).
      exists r, p, md, (received p (rawMetadata request) :: errors).
      repeat split; try assumption.
      unfold received. destruct (falsy _); exact He.
    + destruct (Part001_GET_run env draws toJwt request r p Hr Hr' Hp Hp')
        as (md & errors & _ & He & ->).
      exists r, p, md, errors. now repeat split.
Qed.



(** X4.  A response with status 200 gives back the roomName and the
    participantName of the request as they came, the credential of the
    signing call, and as serverUrl whatever the environment holds under
    LIVEKIT_URL: when that variable is not set the handler still answers 200,
    without a serverUrl.  Both handlers. *)
Theorem success_response_echoes_request (request : NextRequest)
    (response : NextResponse) (log : list event) :
  Route.GET env draws toJwt request [] = (Return response, log) \/
  Part001.GET env draws toJwt request [] = (Return response, log) ->
  status response = 200 ->
  exists roomName participantName t token,
    param request "roomName" = Some roomName /\
    param request "participantName" = Some participantName /\
    In (ToJwt t) log /\ toJwt t = Return token /\
    body response =
      Json {| serverUrl := env !! js "LIVEKIT_URL";
              roomName := roomName;
              participantToken := token;
              participantName := participantName |}.
Proof.
  intros Hrun Hs.
  destruct (GET_runs request _ Hrun)
    as [(Hm & Heq)|(r & p & md & l & Hr & Hr' & Hp & Hp' & Hl & Heq)].
  - apply Return_pair_inv in Heq as [-> _]. discriminate Hs.
  - unfold issued in Heq. destruct (toJwt _) as [tok|e] eqn:Et;
      apply Return_pair_inv in Heq as [-> ->]; [|discriminate Hs].
    eexists r, p, _, tok. repeat split; try eassumption.
    apply in_or_app. right. now left.
Qed.

(** X5.  The two handlers hand the same token to the signing library up to
    its metadata: the same key and secret, identity, name, time to live and
    grant.  Neither signs anything when the other does not. *)
Theorem handlers_differ_only_in_metadata (request : NextRequest) :
  List.map without_metadata
    (signing_calls (snd (Route.GET env draws toJwt request [])))
  = List.map without_metadata
      (signing_calls (snd (Part001.GET env draws toJwt request []))).
Proof.
  destruct (names_cases request) as [Hm|(r & p & Hr & Hr' & Hp & Hp')].
  - now rewrite Route_GET_missing, Part001_GET_missing.
  - destruct (Route_GET_run env draws toJwt request r p Hr Hr' Hp Hp')
      as (md & errors & _ & He & ->).
    destruct (Part001_GET_run env draws toJwt request r p Hr Hr' Hp Hp')
      as (md' & errors' & _ & He' & ->).
    rewrite !signing_calls_issued, !signing_calls_app, He'.
    replace (signing_calls (received p (rawMetadata request) :: errors))
      with (@nil AccessToken)
      by (unfold received; destruct (falsy _); now rewrite <- He).
    reflexivity.
Qed.

(** X6.  Every token that a handler hands to the signing library is made
    by createParticipantToken from the request and the environment alone: its
    name is the participantName of the request, its key and secret are what
    the environment holds under LIVEKIT_API_KEY and LIVEKIT_API_SECRET, set
    or not.  Both handlers. *)
Theorem signed_token_name_and_credentials (request : NextRequest)
    (run : outcome NextResponse * list event) (t : AccessToken) :
  Route.GET env draws toJwt request [] = run \/
  Part001.GET env draws toJwt request [] = run ->
  In t (signing_calls (snd run)) ->
  param request "participantName" = Some (name (options t)) /\
  apiKey t = env !! js "LIVEKIT_API_KEY" /\
  apiSecret t = env !! js "LIVEKIT_API_SECRET".
Proof.
  intros Hrun Hin.
  destruct (GET_runs request _ Hrun)
    as [(Hm & ->)|(r & p & md & l & Hr & Hr' & Hp & Hp' & Hl & ->)].
  - destruct Hin.
  - rewrite signing_calls_issued, signing_calls_app, Hl in Hin.
    destruct Hin as [<-|[]]. now repeat split.
Qed.

(** X7.  The console tells what is signed: a signing call comes right after
    the line Assigning metadata to participant, and that line shows the name
    and the metadata of the token that is signed.  Both handlers. *)
Theorem logged_metadata_is_signed_metadata (request : NextRequest)
    (run : outcome NextResponse * list event) (t : AccessToken) :
  Route.GET env draws toJwt request [] = run \/
  Part001.GET env draws toJwt request [] = run ->
  In (ToJwt t) (snd run) ->
  exists before after,
    snd run =
      before ++ assigning (name (options t)) (metadata (options t))
        :: ToJwt t :: after.
Proof.
  intros Hrun Hin.
  destruct (GET_runs request _ Hrun)
    as [(Hm & ->)|(r & p & md & l & Hr & Hr' & Hp & Hp' & Hl & ->)].
  - destruct Hin.
  - rewrite issued_log in Hin |- *.
    assert (Ht : t = token_for env draws r p md).
    { apply in_app_or in Hin as [Hin|[Hin|Hin]].
      - apply in_app_or in Hin as [Hin|[Hin|[]]]; [|discriminate Hin].
        apply In_signing_calls in Hin. rewrite Hl in Hin. destruct Hin.
      - congruence.
      - destruct (toJwt _); [destruct Hin|].
        destruct Hin as [Hin|[]]. discriminate Hin. }
    subst t. eexists l, _. rewrite <- app_assoc. reflexivity.
Qed.
End MoreHandlers.

Section MoreMetadata.
Context {NO : NumberOps}.
Variable env : gmap jsstring jsstring.
Variable draws : nat -> N.
Variable toJwt : AccessToken -> outcome jsstring.

Lemma In_issued e t roomName participantName log :
  In e (snd (issued env toJwt t roomName participantName log)) <->
  In e log \/ e = ToJwt t \/ exists x, toJwt t = Throw x /\ e = token_error x.
Proof.
  rewrite issued_log, in_app_iff. simpl.
  destruct (toJwt t) as [tok|x]; simpl; split.
  - intros [H|[H|[]]]; auto.
  - intros [H|[H|(x & Hx & _)]]; [auto|auto|discriminate Hx].
  - intros [H|[H|[H|[]]]]; eauto 6.
  - intros [H|[H|(y & Hy & H)]]; [auto|auto|].
    right. right. left. congruence.
Qed.

(** X8.  route.ts warns exactly when the metadata parameter is absent or
    empty.  It then treats the empty text like any text that is no JSON: it
    also logs it as invalid and signs the default object. *)
Theorem absent_metadata_is_warned_and_replaced (request : NextRequest)
    (roomName participantName : jsstring) :
  param request "roomName" = Some roomName -> roomName <> [] ->
  param request "participantName" = Some participantName ->
  participantName <> [] ->
  ((exists args,
       In (Console WARN args) (snd (Route.GET env draws toJwt request [])))
   <-> param request "metadata" = None \/ param request "metadata" = Some [])
  /\
  (param request "metadata" = None \/ param request "metadata" = Some [] ->
   exists after,
     snd (Route.GET env draws toJwt request []) =
     [Console WARN
        [Text (warning_sign
                 ++ js " Warning: No metadata received for participant "
                 ++ participantName)];
      invalid_metadata [];
      assigning participantName
        (JSON_stringify
           (JObject [(js "selectedPerson", JString participantName)]));
      ToJwt (token_for env draws roomName participantName
               (JSON_stringify
                  (JObject [(js "selectedPerson", JString participantName)])))]
     ++ after).
Proof.
  intros Hr Hr' Hp Hp'.
  assert (Hraw : param request "metadata" = None \/
                 param request "metadata" = Some [] <->
                 rawMetadata request = []).
  { unfold rawMetadata.
    destruct (param request "metadata") as [[|c m]|]; simpl; split;
      intros H; auto; try discriminate H; destruct H; discriminate. }
  destruct (Route_GET_run env draws toJwt request _ _ Hr Hr' Hp Hp')
    as (md & errors & Hc & _ & Hrun).
  rewrite Hrun, Hraw. split.
  - split.
    + intros (args & Hin). apply In_issued in Hin.
      destruct Hin as [Hin|[Hin|(x & _ & Hin)]]; try discriminate Hin.
      apply in_app_or in Hin as [[Hin|Hin]|[Hin|[]]]; try discriminate Hin.
      * unfold received in Hin.
        destruct (rawMetadata request); [reflexivity|discriminate Hin].
      * destruct Hc as [(_ & _ & ->)|(_ & _ & ->)]; [destruct Hin|].
        destruct Hin as [Hin|[]]. discriminate Hin.
    + intros He. eexists. apply In_issued. left. left.
      unfold received. rewrite He. reflexivity.
  - intros He. rewrite issued_log. unfold received. rewrite He in *.
    destruct Hc as [(Hv & _)|(_ & -> & ->)]; [now destruct Hv|].
    eexists. reflexivity.
Qed.

(** X9.  The line Invalid JSON metadata is logged exactly when the default
    object is put in place of what came: in route.ts when the text does not
    parse, in the handler that derives a bot name when it does not parse to
    an array or an object. *)
Theorem invalid_line_means_default (request : NextRequest)
    (roomName participantName : jsstring) :
  param request "roomName" = Some roomName -> roomName <> [] ->
  param request "participantName" = Some participantName ->
  participantName <> [] ->
  (In (invalid_metadata (rawMetadata request))
      (snd (Route.GET env draws toJwt request []))
   <-> JSON_parse (rawMetadata request) = None)
  /\
  (In (invalid_metadata (rawMetadata request))
      (snd (Part001.GET env draws toJwt request []))
   <-> (forall l, JSON_parse (rawMetadata request) <> Some (JArray l)) /\
       (forall o, JSON_parse (rawMetadata request) <> Some (JObject o))).
Proof.
  intros Hr Hr' Hp Hp'. split.
  - destruct (Route_GET_run env draws toJwt request _ _ Hr Hr' Hp Hp')
      as (md & errors & Hc & _ & ->).
    rewrite In_issued. split.
    + intros [Hin|[Hin|(x & _ & Hin)]]; try discriminate Hin.
      apply in_app_or in Hin as [[Hin|Hin]|[Hin|[]]]; try discriminate Hin.
      * unfold received in Hin. destruct (falsy _); discriminate Hin.
      * destruct Hc as [(_ & _ & ->)|(Hn & _)]; [destruct Hin|exact Hn].
    + intros Hn. destruct Hc as [(Hv & _)|(_ & _ & ->)]; [now destruct Hv|].
      left. apply in_or_app. left. right. now left.
  - destruct (Part001_GET_run env draws toJwt request _ _ Hr Hr' Hp Hp')
      as (md & errors & Hd & _ & ->).
    rewrite In_issued.
    assert (Hcases :
              (errors = [invalid_metadata (rawMetadata request)] /\
               (forall l, JSON_parse (rawMetadata request) <> Some (JArray l)) /\
               (forall o, JSON_parse (rawMetadata request) <> Some (JObject o)))
              \/
              (errors = [] /\
               ((exists l, JSON_parse (rawMetadata request) = Some (JArray l)) \/
                exists o, JSON_parse (rawMetadata request) = Some (JObject o)))).
    { destruct (JSON_parse (rawMetadata request)) as [v|] eqn:Ep.
      - destruct v;
          first [ rewrite (Part001_derive_primitive participantName _ _ []
                             Ep I) in Hd
                | rewrite (Part001_derive_array participantName _ _ [] Ep)
                    in Hd
                | rewrite (Part001_derive_object participantName _ _ [] Ep)
                    in Hd ];
          apply Return_pair_inv in Hd as [_ <-];
          first [ left; split; [reflexivity|]; split; intros ? ?; discriminate
                | right; split; [reflexivity|]; eauto ].
      - rewrite (Part001_derive_invalid participantName _ [] Ep) in Hd.
        apply Return_pair_inv in Hd as [_ <-].
        left; split; [reflexivity|]; split; intros ? ?; discriminate. }
    destruct Hcases as [(-> & Ha & Ho)|(-> & Hv)]; split.
    + intros _. now split.
    + intros _. left. now left.
    + intros [[Hin|[]]|[Hin|(x & _ & Hin)]]; discriminate Hin.
    + intros [Ha Ho]. destruct Hv as [(l & Hl)|(o & Hl)];
        [now destruct (Ha l)|now destruct (Ho o)].
Qed.

(** X10.  The two defaults fit together.  The default object of route.ts,
    given as metadata to the handler that derives a bot name (for whatever
    participant), comes out as the default object of that handler, and the
    default object of that handler comes out as it went in; neither logs an
    error. *)
Theorem defaults_compose (participantName other : jsstring) :
  participantName <> [] ->
  Part001.derive_botName other
    (JSON_stringify (JObject [(js "selectedPerson", JString participantName)]))
    [] =
  (Return (JSON_stringify
             (JObject [(js "selectedPerson", JString participantName);
                       (js "botName", JString participantName)])), [])
  /\
  Part001.derive_botName other
    (JSON_stringify
       (JObject [(js "selectedPerson", JString participantName);
                 (js "botName", JString participantName)])) [] =
  (Return (JSON_stringify
             (JObject [(js "selectedPerson", JString participantName);
                       (js "botName", JString participantName)])), []).
Proof.
  intros Hp. split.
  - rewrite (Part001_derive_object other _ _ []
               (plain_default_parses participantName)).
    destruct participantName; [congruence|reflexivity].
  - rewrite (Part001_derive_object other _ _ []
               (default_metadata_parses participantName)).
    destruct participantName; [congruence|reflexivity].
Qed.

Section Laws.
Context {NL : NumberLaws NO}.

(** X11.  In the handler that derives a bot name, metadata that is a JSON
    array is accepted without an error line, but the bot name is lost: the
    signed metadata is the array written out again, which reads back as an
    array, with no botName anywhere at its top. *)
Theorem array_metadata_loses_botName (request : NextRequest)
    (roomName participantName : jsstring) (l : list value) :
  param request "roomName" = Some roomName -> roomName <> [] ->
  param request "participantName" = Some participantName ->
  participantName <> [] ->
  JSON_parse (rawMetadata request) = Some (JArray l) ->
  exists t,
    signing_calls (snd (Part001.GET env draws toJwt request [])) = [t] /\
    metadata (options t) = JSON_stringify (JArray l) /\
    JSON_parse (metadata (options t)) = Some (JArray (List.map json_image l)) /\
    GetV (JArray (List.map json_image l)) (js "botName") = Return None /\
    ~ In (invalid_metadata (rawMetadata request))
        (snd (Part001.GET env draws toJwt request [])).
Proof.
  intros Hr Hr' Hp Hp' Ep.
  destruct (Part001_GET_run env draws toJwt request _ _ Hr Hr' Hp Hp')
    as (md & errors & Hd & _ & Hrun).
  rewrite (Part001_derive_array participantName _ _ [] Ep) in Hd.
  apply Return_pair_inv in Hd as [<- <-].
  eexists. rewrite Hrun, signing_calls_issued.
  split; [reflexivity|]. split; [reflexivity|].
  split; [|split; [reflexivity|]].
  - apply (JSON_parse_stringify (JArray l)).
    exact (JSON_parse_well_formed _ _ Ep).
  - rewrite In_issued.
    intros [[Hin|[]]|[Hin|(x & _ & Hin)]]; discriminate Hin.
Qed.

(** X12.  In the handler that derives a bot name, metadata that is a JSON
    object keeps every property other than botName: read back, the signed
    metadata has under each such key what the request had (as serialized),
    and no key the request did not have.  A botName that is already there is
    overwritten in its place; otherwise botName becomes the last key. *)
Theorem object_metadata_keeps_other_properties (request : NextRequest)
    (roomName participantName : jsstring) (o : object) :
  param request "roomName" = Some roomName -> roomName <> [] ->
  param request "participantName" = Some participantName ->
  participantName <> [] ->
  JSON_parse (rawMetadata request) = Some (JObject o) ->
  exists t o',
    signing_calls (snd (Part001.GET env draws toJwt request [])) = [t] /\
    JSON_parse (metadata (options t)) = Some (JObject o') /\
    (forall k, k <> js "botName" ->
               obj_get k o' = option_map json_image (obj_get k o)) /\
    keys o' =
      match obj_get (js "botName") o with
      | Some _ => keys o
      | None => keys o ++ [js "botName"]
      end.
Proof.
  intros Hr Hr' Hp Hp' Ep.
  destruct (Part001_GET_run env draws toJwt request _ _ Hr Hr' Hp Hp')
    as (md & errors & Hd & _ & Hrun).
  rewrite (Part001_derive_object participantName _ _ [] Ep) in Hd.
  apply Return_pair_inv in Hd as [<- <-].
  pose proof (JSON_parse_well_formed _ _ Ep) as Hwf.
  set (x := or_else (obj_get (js "selectedPerson") o) (JString participantName)).
  exists (token_for env draws roomName participantName
            (JSON_stringify (JObject (obj_set (js "botName") x o)))),
         (List.map (fun kv : jsstring * value => (fst kv, json_image (snd kv)))
            (obj_set (js "botName") x o)).
  rewrite Hrun, signing_calls_issued.
  split; [reflexivity|]. split; [|split].
  - apply (JSON_parse_stringify (JObject (obj_set (js "botName") x o))).
    now apply Part001_derived_well_formed.
  - intros k Hk. rewrite obj_get_image. now rewrite obj_get_set_other.
  - unfold keys. rewrite List.map_map. cbn [fst].
    change (List.map (fun kv : jsstring * value => fst kv) ?o)
      with (keys o).
    unfold obj_set. destruct (obj_get (js "botName") o).
    + apply keys_obj_replace.
    + change (array_index (js "botName")) with (@None N).
      unfold keys. now rewrite List.map_app.
Qed.

End Laws.
End MoreMetadata.

(** ** The environment *)

Section Environment.
Context {NO : NumberOps}.

(** X13.  The handlers read three settings and nothing else of the
    environment: LIVEKIT_URL, LIVEKIT_API_KEY and LIVEKIT_API_SECRET.  Two
    environments that agree on these give the same run, whatever regional
    LIVEKIT_URL_ settings they hold; getLiveKitURL plays no part in a
    response. *)
Theorem handlers_read_three_settings (env env' : gmap jsstring jsstring)
    (draws : nat -> N) (toJwt : AccessToken -> outcome jsstring)
    (request : NextRequest) :
  env !! js "LIVEKIT_URL" = env' !! js "LIVEKIT_URL" ->
  env !! js "LIVEKIT_API_KEY" = env' !! js "LIVEKIT_API_KEY" ->
  env !! js "LIVEKIT_API_SECRET" = env' !! js "LIVEKIT_API_SECRET" ->
  Route.GET env draws toJwt request [] = Route.GET env' draws toJwt request []
  /\
  Part001.GET env draws toJwt request []
  = Part001.GET env' draws toJwt request [].
Proof.
  intros Hu Hk Hs.
  assert (Hi : forall t r p log,
             issued env toJwt t r p log = issued env' toJwt t r p log).
  { intros. unfold issued. now rewrite Hu. }
  assert (Ht : forall r p md,
             token_for env draws r p md = token_for env' draws r p md).
  { intros. unfold token_for. now rewrite Hk, Hs. }
  destruct (names_cases request) as [Hm|(r & p & Hr & Hr' & Hp & Hp')].
  - now rewrite !Route_GET_missing, !Part001_GET_missing.
  - split.
    + destruct (Route_GET_run env draws toJwt request r p Hr Hr' Hp Hp')
        as (md & errors & Hc & _ & ->).
      destruct (Route_GET_run env' draws toJwt request r p Hr Hr' Hp Hp')
        as (md' & errors' & Hc' & _ & ->).
      assert (md' = md /\ errors' = errors) as [-> ->].
      { destruct Hc as [(Hv & -> & ->)|(Hn & -> & ->)],
                 Hc' as [(Hv' & -> & ->)|(Hn' & -> & ->)];
          try (split; reflexivity); congruence. }
      now rewrite Hi, Ht.
    + destruct (Part001_GET_run env draws toJwt request r p Hr Hr' Hp Hp')
        as (md & errors & Hd & _ & ->).
      destruct (Part001_GET_run env' draws toJwt request r p Hr Hr' Hp Hp')
        as (md' & errors' & Hd' & _ & ->).
      rewrite Hd in Hd'. apply Return_pair_inv in Hd' as [<- <-].
      now rewrite Hi, Ht.
Qed.
End Environment.

(** ** getLiveKitURL *)

Section ServerUrl.
Variable env : gmap jsstring jsstring.
Variable toUpperCase : jsstring -> jsstring.

(** X14.  The region is matched without regard to case.  Upper-casing leaves
    the prefix LIVEKIT_URL_ as it is, so two non-empty regions with the same
    upper-case form are looked up under the same key and give the same
    result. *)
Theorem getLiveKitURL_ignores_region_case (region region' : jsstring) :
  (forall s, toUpperCase (js "LIVEKIT_URL_" ++ s)
             = js "LIVEKIT_URL_" ++ toUpperCase s) ->
  region <> [] -> region' <> [] ->
  toUpperCase region = toUpperCase region' ->
  Route.getLiveKitURL env toUpperCase (Some region) =
  Route.getLiveKitURL env toUpperCase (Some region') /\
  (forall url,
      env !! (js "LIVEKIT_URL_" ++ toUpperCase region) = Some url ->
      url <> [] ->
      Route.getLiveKitURL env toUpperCase (Some region) = Return url).
Proof.
  intros Hup Hr Hr' Heq. unfold Route.getLiveKitURL.
  destruct region as [|c r]; [congruence|].
  destruct region' as [|c' r']; [congruence|].
  cbn [falsy narrowed default from_option id].
  rewrite !Hup, <- Heq. split; [reflexivity|].
  intros url Hu Hurl.
  match goal with
  | |- context [falsy ?x] => change (x = Some url) in Hu; rewrite Hu
  end.
  destruct url; [congruence|reflexivity].
Qed.

(** X15.  A regional lookup never falls back on the plain LIVEKIT_URL
    setting: for a non-empty region whose key is not LIVEKIT_URL itself, the
    result is the same whatever LIVEKIT_URL holds, and it is an error as soon
    as the regional setting is missing. *)
Theorem getLiveKitURL_has_no_fallback (region url : jsstring) :
  region <> [] ->
  toUpperCase (js "LIVEKIT_URL_" ++ region) <> js "LIVEKIT_URL" ->
  Route.getLiveKitURL (<[js "LIVEKIT_URL" := url]> env) toUpperCase
    (Some region)
  = Route.getLiveKitURL env toUpperCase (Some region)
  /\
  (env !! toUpperCase (js "LIVEKIT_URL_" ++ region) = None ->
   Route.getLiveKitURL (<[js "LIVEKIT_URL" := url]> env) toUpperCase
     (Some region)
   = Throw (Error (toUpperCase (js "LIVEKIT_URL_" ++ region)
                     ++ js " is not defined"))).
Proof.
  intros Hr Hk. unfold Route.getLiveKitURL.
  destruct region as [|c r]; [congruence|].
  cbn [falsy narrowed default from_option id].
  rewrite lookup_insert_ne by congruence.
  split; [reflexivity|]. now intros ->.
Qed.
End ServerUrl.

(** ** The selector component *)

Lemma last_cons_default {A : Type} (l : list A) (x d : A) :
  List.last (x :: l) d = List.last l x.
Proof.
  revert x d. induction l as [|y l IH]; intros x d; [reflexivity|].
  change (List.last (x :: y :: l) d) with (List.last (y :: l) d).
  rewrite !IH. reflexivity.
Qed.

Section Selector.
Import UI.

Lemma Dropdown_step_button st :
  Dropdown.step st ClickButton =
  ({| isOpen := negb (isOpen st); selectedPerson := selectedPerson st |}, []).
Proof. reflexivity. Qed.

Lemma Dropdown_step_item st i :
  Dropdown.step st (ClickItem i) =
  match (if isOpen st then nth_error Dropdown.people i else None) with
  | Some person => ({| isOpen := false; selectedPerson := person |}, [person])
  | None => (st, [])
  end.
Proof.
  destruct st as [[] sel]; [|reflexivity].
  do 3 (destruct i as [|i]; [reflexivity|]).
  unfold Dropdown.step, handler_of. cbn [Dropdown.render list_ isOpen items].
  unfold mapi. simpl. destruct i; reflexivity.
Qed.

Lemma Part000_step_Dropdown st c : Part000.step st c = Dropdown.step st c.
Proof.
  destruct st as [[] sel], c as [|i]; try reflexivity.
  do 3 (destruct i as [|i]; [reflexivity|]).
  unfold Part000.step, Dropdown.step, handler_of.
  cbn [Part000.render Dropdown.render list_ isOpen items].
  unfold mapi. simpl. destruct i; reflexivity.
Qed.

Lemma Part000_run_Dropdown cs st : Part000.run st cs = Dropdown.run st cs.
Proof.
  revert st. induction cs as [|c cs IH]; intros st; [reflexivity|].
  cbn [Part000.run Dropdown.run]. rewrite Part000_step_Dropdown.
  destruct (Dropdown.step st c) as [st1 out1]. rewrite IH.
  destruct (Dropdown.run st1 cs) as [[st2 out2] shown].
  f_equal. f_equal. now destruct st1 as [[] sel].
Qed.

(** A run is the same in either file. *)
Lemma run_cases (run : state -> list click ->
                       state * list jsstring
                       * list (jsstring * Z * option (list jsstring)))
    st cs :
  run = Dropdown.run \/ run = Part000.run ->
  run st cs = Dropdown.run st cs.
Proof. intros [->| ->]; [reflexivity|apply Part000_run_Dropdown]. Qed.

(** X16.  Through any sequence of clicks, from any state, the selection is
    the argument of the last call of onSelect, or the selection at the start
    when onSelect was not called, and every argument of onSelect is one of
    the three people.  Both component files. *)
Theorem selection_is_last_onSelect
    (run : state -> list click ->
           state * list jsstring
           * list (jsstring * Z * option (list jsstring)))
    (cs : list click) (st : state) :
  run = Dropdown.run \/ run = Part000.run ->
  selectedPerson (fst (fst (run st cs)))
    = List.last (snd (fst (run st cs))) (selectedPerson st) /\
  Forall (fun person => In person [js "Ram"; js "Shyam"; js "Ketan"])
    (snd (fst (run st cs))).
Proof.
  intros Hrun. rewrite (run_cases run st cs Hrun). clear run Hrun.
  revert st. induction cs as [|c cs IH]; intros st.
  - split; [reflexivity|constructor].
  - cbn [Dropdown.run].
    destruct (Dropdown.step st c) as [st1 out1] eqn:Es.
    specialize (IH st1).
    destruct (Dropdown.run st1 cs) as [[st2 out2] shown].
    cbn [fst snd] in *. destruct IH as [IH1 IH2].
    destruct c as [|i].
    + rewrite Dropdown_step_button in Es.
      injection Es as <- <-. now split.
    + rewrite Dropdown_step_item in Es.
      destruct (if isOpen st then nth_error Dropdown.people i else None)
        as [person|] eqn:En.
      * injection Es as <- <-. cbn [selectedPerson] in IH1. split.
        -- rewrite IH1. cbn [app]. symmetry. apply last_cons_default.
        -- constructor; [|exact IH2].
           destruct (isOpen st); [|discriminate En].
           eapply nth_error_In. exact En.
      * injection Es as <- <-. now split.
Qed.

(** X17.  Clicks on the button only open and close the list: any number of
    them in a row leaves the selection as it was and calls onSelect not once,
    and the list is back in the state it was in after every second click.
    Both component files. *)
Theorem button_clicks_only_toggle
    (run : state -> list click ->
           state * list jsstring
           * list (jsstring * Z * option (list jsstring)))
    (n : nat) (st : state) :
  run = Dropdown.run \/ run = Part000.run ->
  fst (run st (repeat ClickButton n)) =
  ({| isOpen := if Nat.even n then isOpen st else negb (isOpen st);
      selectedPerson := selectedPerson st |}, []).
Proof.
  intros Hrun. rewrite (run_cases run st _ Hrun). clear run Hrun.
  revert st. induction n as [n IH] using (well_founded_induction lt_wf).
  intros st. destruct n as [|[|n]].
  - now destruct st.
  - now destruct st as [[] sel].
  - change (repeat ClickButton (S (S n)))
      with (ClickButton :: ClickButton :: repeat ClickButton n).
    cbn [Dropdown.run]. rewrite !Dropdown_step_button.
    specialize (IH n ltac:(lia) st).
    cbn [isOpen selectedPerson]. rewrite negb_involutive.
    replace {| isOpen := isOpen st; selectedPerson := selectedPerson st |}
      with st by now destruct st.
    destruct (Dropdown.run st (repeat ClickButton n)) as [[st2 out2] shown].
    cbn [fst] in *. injection IH as -> ->. reflexivity.
Qed.
End Selector.


(** * Sample runs

    The theorems above applied to concrete requests, with the literal number
    model, and the inputs on which three claims fail as they are worded. *)

Section Samples.
#[local] Existing Instance LiteralNumber.
#[local] Existing Instance LiteralNumber_laws.

Lemma missing_parameter_is_rejected_witness :
  param (request_of [("participantName", "alice"); ("metadata", "{}")]%string)
    "roomName" = None
  /\
  Route.GET (NO := LiteralNumber) sample_env sample_draws sample_toJwt
    (request_of [("participantName", "alice"); ("metadata", "{}")]%string) []
  = (Return {| status := 400;
               body := PlainText (js "Missing required parameters") |}, []).
Proof.
  split; [reflexivity|].
  apply (missing_parameter_is_rejected (NO := LiteralNumber)).
  left. reflexivity.
Defined.

Lemma issued_token_grant_and_ttl_witness :
  status
    {| status := 200;
       body := Json {| serverUrl := Some (js "ws://livekit:7880");
                       roomName := js "lobby";
                       participantToken := js "signed:alice__DKRY";
                       participantName := js "alice" |} |} = 200
  /\
  exists roomName t,
    param (request_of [("roomName", "lobby"); ("participantName", "alice")]%string)
      "roomName" = Some roomName /\
    signing_calls
      (snd (Route.GET sample_env sample_draws sample_toJwt
              (request_of [("roomName", "lobby");
                           ("participantName", "alice")]%string) []))
      = [t] /\
    video t = Some {| room := roomName; roomJoin := true; canPublish := true;
                      canPublishData := true; canSubscribe := true |} /\
    ttl t = Some (js "5m") /\
    timespan_seconds (js "5m") = Some (5 * 60)%N /\
    exists details,
      body {| status := 200;
              body := Json {| serverUrl := Some (js "ws://livekit:7880");
                              roomName := js "lobby";
                              participantToken := js "signed:alice__DKRY";
                              participantName := js "alice" |} |}
        = Json details /\
      sample_toJwt t = Return (participantToken details).
Proof.
  split; [reflexivity|].
  refine (issued_token_grant_and_ttl sample_env sample_draws sample_toJwt
            (request_of [("roomName", "lobby"); ("participantName", "alice")]%string)
            _ _ (or_introl _) _).
  - vm_compute. reflexivity.
  - reflexivity.
Defined.

Lemma participant_identity_shape_witness :
  exists suffix,
    length suffix = 4 /\ forallb is_alphanumeric suffix = true /\
    (exists t,
        signing_calls
          (snd (Route.GET (NO := LiteralNumber) sample_env sample_draws
                  sample_toJwt
                  (request_of [("roomName", "lobby");
                               ("participantName", "alice")]%string) []))
          = [t]
        /\ identity (options t) = js "alice" ++ js "__" ++ suffix)
    /\
    (exists t,
        signing_calls
          (snd (Part001.GET (NO := LiteralNumber) sample_env sample_draws
                  sample_toJwt
                  (request_of [("roomName", "lobby");
                               ("participantName", "alice")]%string) []))
          = [t]
        /\ identity (options t) = js "alice" ++ js "__" ++ suffix).
Proof.
  apply (participant_identity_shape (NO := LiteralNumber) sample_env
           sample_draws sample_toJwt
           (request_of [("roomName", "lobby"); ("participantName", "alice")]%string)
           (js "lobby") (js "alice"));
    (reflexivity || discriminate).
Defined.

Lemma invalid_metadata_is_replaced_witness :
  JSON_parse (NO := LiteralNumber) (rawMetadata (alice_request (js "{oops")))
    = None
  /\
  exists t,
    signing_calls
      (snd (Route.GET (NO := LiteralNumber) sample_env sample_draws
              sample_toJwt (alice_request (js "{oops")) [])) = [t] /\
    metadata (options t) =
      JSON_stringify (NO := LiteralNumber)
        (JObject [(js "selectedPerson", JString (js "alice"))]) /\
    JSON_parse (NO := LiteralNumber) (metadata (options t)) =
      Some (JObject [(js "selectedPerson", JString (js "alice"))]) /\
    metadata (options t) <> rawMetadata (alice_request (js "{oops")) /\
    exists response,
      fst (Route.GET (NO := LiteralNumber) sample_env sample_draws
             sample_toJwt (alice_request (js "{oops")) []) = Return response /\
      (status response = 200 \/ exists e, sample_toJwt t = Throw e).
Proof.
  split; [vm_compute; reflexivity|].
  refine (proj1 (invalid_metadata_is_replaced (NO := LiteralNumber) sample_env
                   sample_draws sample_toJwt (alice_request (js "{oops"))
                   (js "lobby") (js "alice") _ _ _ _ _));
    try reflexivity; try discriminate.
Defined.

Lemma signed_metadata_is_json_witness :
  (exists v,
      JSON_parse (NO := LiteralNumber)
        (metadata
           (options
              (token_for sample_env sample_draws (js "lobby") (js "alice")
                 (JSON_stringify (NO := LiteralNumber)
                    (JObject [(js "selectedPerson", JString (js "bob"));
                              (js "botName", JString (js "bob"))])))))
      = Some v) /\
  (metadata
     (options
        (token_for sample_env sample_draws (js "lobby") (js "alice")
           (JSON_stringify (NO := LiteralNumber)
              (JObject [(js "selectedPerson", JString (js "bob"));
                        (js "botName", JString (js "bob"))]))))
   = rawMetadata (alice_request (selected_text "bob")) \/
   exists w,
     metadata
       (options
          (token_for sample_env sample_draws (js "lobby") (js "alice")
             (JSON_stringify (NO := LiteralNumber)
                (JObject [(js "selectedPerson", JString (js "bob"));
                          (js "botName", JString (js "bob"))]))))
     = JSON_stringify (NO := LiteralNumber) w).
Proof.
  apply (signed_metadata_is_json (NO := LiteralNumber)
           (NL := LiteralNumber_laws) sample_env sample_draws sample_toJwt
           (alice_request (selected_text "bob"))).
  right. vm_compute. left. reflexivity.
Defined.

(** C2, as it stands, fails when selectedPerson is present and falsy: for
    the metadata {selectedPerson: (the empty string)} of alice the signed
    metadata has botName alice, not the empty string. *)
Lemma empty_selectedPerson_gives_participantName :
  JSON_parse (NO := LiteralNumber) (selected_text EmptyString)
    = Some (JObject [(js "selectedPerson", JString [])])
  /\
  exists t,
    signing_calls
      (snd (Part001.GET (NO := LiteralNumber) sample_env sample_draws
              sample_toJwt (alice_request (selected_text EmptyString)) []))
      = [t] /\
    JSON_parse (NO := LiteralNumber) (metadata (options t))
      = Some (JObject [(js "selectedPerson", JString []);
                       (js "botName", JString (js "alice"))]) /\
    js "alice" <> [].
Proof.
  split; [vm_compute; reflexivity|].
  eexists. split; [vm_compute; reflexivity|].
  split; [vm_compute; reflexivity|discriminate].
Qed.

Lemma botName_follows_selectedPerson_witness :
  JSON_parse (NO := LiteralNumber) (rawMetadata (alice_request (selected_text "bob")))
    = Some (JObject [(js "selectedPerson", JString (js "bob"))])
  /\
  exists t o',
    signing_calls
      (snd (Part001.GET (NO := LiteralNumber) sample_env sample_draws
              sample_toJwt (alice_request (selected_text "bob")) [])) = [t] /\
    metadata (options t) =
      JSON_stringify (NO := LiteralNumber)
        (JObject (obj_set (js "botName")
                    (or_else
                       (obj_get (js "selectedPerson")
                          [(js "selectedPerson", JString (js "bob"))])
                       (JString (js "alice")))
                    [(js "selectedPerson", JString (js "bob"))])) /\
    JSON_parse (NO := LiteralNumber) (metadata (options t)) = Some (JObject o') /\
    (forall x,
        obj_get (js "selectedPerson")
          [(js "selectedPerson", JString (js "bob"))] = Some x ->
        ToBoolean x = true ->
        obj_get (js "botName") o' = Some (json_image x) /\
        obj_get (js "selectedPerson") o' = Some (json_image x)) /\
    (obj_get (js "selectedPerson")
       [(js "selectedPerson", JString (js "bob"))] = None \/
     (exists x,
         obj_get (js "selectedPerson")
           [(js "selectedPerson", JString (js "bob"))] = Some x /\
         ToBoolean x = false) ->
     obj_get (js "botName") o' = Some (JString (js "alice"))).
Proof.
  split; [vm_compute; reflexivity|].
  apply (botName_follows_selectedPerson (NO := LiteralNumber)
           (NL := LiteralNumber_laws) sample_env sample_draws sample_toJwt
           (alice_request (selected_text "bob")) (js "lobby") (js "alice"));
    try discriminate; vm_compute; reflexivity.
Defined.

Lemma primitive_metadata_is_replaced_witness :
  JSON_parse (rawMetadata (alice_request (js "42"))) = Some (JNumber (js "42"))
  /\
  exists t,
    signing_calls
      (snd (Part001.GET sample_env sample_draws sample_toJwt
              (alice_request (js "42")) [])) = [t] /\
    metadata (options t) =
      JSON_stringify
        (JObject [(js "selectedPerson", JString (js "alice"));
                  (js "botName", JString (js "alice"))]) /\
    JSON_parse (metadata (options t)) =
      Some (JObject [(js "selectedPerson", JString (js "alice"));
                     (js "botName", JString (js "alice"))]).
Proof.
  split; [vm_compute; reflexivity|].
  refine (proj2 (proj2 (primitive_metadata_is_replaced sample_env sample_draws
                          sample_toJwt (alice_request (js "42")) (js "lobby")
                          (js "alice") (JNumber (js "42")) _ _ _ _ _ _)));
    try discriminate; try exact I; vm_compute; reflexivity.
Defined.

(** C9, as it stands, fails on an array: the text [] is valid JSON and no
    object, yet it is signed as it is and not replaced by the default. *)
Lemma array_metadata_is_forwarded :
  JSON_parse (rawMetadata (alice_request (js "[]"))) = Some (JArray [])
  /\
  exists t,
    signing_calls
      (snd (Part001.GET sample_env sample_draws sample_toJwt
              (alice_request (js "[]")) [])) = [t] /\
    metadata (options t) = js "[]" /\
    metadata (options t) <>
      JSON_stringify
        (JObject [(js "selectedPerson", JString (js "alice"));
                  (js "botName", JString (js "alice"))]).
Proof.
  split; [vm_compute; reflexivity|].
  eexists. split; [vm_compute; reflexivity|].
  split; [vm_compute; reflexivity|]. vm_compute. discriminate.
Qed.

(** C8, as it stands, fails when the entry is there and empty: the value
    under LIVEKIT_URL is the empty string, and the function does not return
    it but throws. *)
Lemma empty_url_is_not_returned :
  ({[ js "LIVEKIT_URL" := [] ]} : gmap jsstring jsstring) !! js "LIVEKIT_URL"
    = Some []
  /\
  Route.getLiveKitURL {[ js "LIVEKIT_URL" := [] ]} ascii_toUpperCase None
    = Throw (Error (js "LIVEKIT_URL is not defined")).
Proof. split; vm_compute; reflexivity. Qed.

Lemma dropdown_selects_witness :
  UI.Open {| UI.isOpen := true; UI.selectedPerson := js "Ram" |} /\
  nth_error Dropdown.people 1 = Some (js "Shyam") /\
  Dropdown.step {| UI.isOpen := true; UI.selectedPerson := js "Ram" |}
    (UI.ClickItem 1)
  = ({| UI.isOpen := false; UI.selectedPerson := js "Shyam" |}, [js "Shyam"]).
Proof.
  split; [reflexivity|]. split; [reflexivity|].
  refine (proj1 (proj2 (proj2 (dropdown_selects
                                 {| UI.isOpen := true;
                                    UI.selectedPerson := js "Ram" |}
                                 1 (js "Shyam") _ _)))); reflexivity.
Defined.

(** The two scenarios of the specification, in the handler that derives a
    bot name: metadata {selectedPerson: bob} is signed with botName bob, and
    a request without metadata with the default object of alice. *)
Example scenario_selected_bob :
  Part001.GET sample_env sample_draws sample_toJwt
    (alice_request (selected_text "bob")) []
  = issued sample_env sample_toJwt
      (token_for sample_env sample_draws (js "lobby") (js "alice")
         (JSON_stringify
            (JObject [(js "selectedPerson", JString (js "bob"));
                      (js "botName", JString (js "bob"))])))
      (js "lobby") (js "alice")
      [assigning (js "alice")
         (JSON_stringify
            (JObject [(js "selectedPerson", JString (js "bob"));
                      (js "botName", JString (js "bob"))]))].
Proof. vm_compute. reflexivity. Qed.

Example scenario_metadata_omitted :
  Part001.GET sample_env sample_draws sample_toJwt
    (request_of [("roomName", "lobby"); ("participantName", "alice")]%string) []
  = issued sample_env sample_toJwt
      (token_for sample_env sample_draws (js "lobby") (js "alice")
         (JSON_stringify (default_metadata (js "alice"))))
      (js "lobby") (js "alice")
      [invalid_metadata [];
       assigning (js "alice") (JSON_stringify (default_metadata (js "alice")))].
Proof. vm_compute. reflexivity. Qed.

(** Property order as the engine has it: index keys first, in ascending
    order, and a repeated key keeps its first place with its last value. *)
Example parse_orders_properties :
  option_map JSON_stringify
    (JSON_parse
       (js "{" ++ QuoteJSONString (js "b") ++ js ":1,"
          ++ QuoteJSONString (js "10") ++ js ":2,"
          ++ QuoteJSONString (js "9") ++ js ":3,"
          ++ QuoteJSONString (js "b") ++ js ":[true, null]}"))
  = Some (js "{" ++ QuoteJSONString (js "9") ++ js ":3,"
            ++ QuoteJSONString (js "10") ++ js ":2,"
            ++ QuoteJSONString (js "b") ++ js ":[true,null]}").
Proof. vm_compute. reflexivity. Qed.

(** Texts that JSON.parse rejects and accepts. *)
Example parse_rejects_and_accepts :
  JSON_parse [] = None /\
  JSON_parse (js "01") = None /\
  JSON_parse (js "1.") = None /\
  JSON_parse (js "[1,]") = None /\
  JSON_parse (js "nul") = None /\
  JSON_parse (js "{oops") = None /\
  JSON_parse (js " null ") = Some JNull /\
  JSON_parse (js "[ -1.5e+3 , true ]")
    = Some (JArray [JNumber (js "-1.5e+3"); JBool true]).
Proof. repeat split; vm_compute; reflexivity. Qed.

(** A surrogate pair is written as it is, a lone surrogate and a line feed
    are escaped, and the text reads back. *)
Example stringify_escapes :
  JSON_stringify (JString [55357; 56960; 55357; 10]%N)
    = [34; 55357; 56960]%N ++ js "\ud83d\n" ++ [34]%N
  /\
  JSON_parse (JSON_stringify (JString [55357; 56960; 55357; 10]%N))
    = Some (JString [55357; 56960; 55357; 10]%N).
Proof. split; vm_compute; reflexivity. Qed.

(** ** The further properties on sample requests *)

Lemma valid_metadata_is_signed_verbatim_witness :
  JSON_parse (NO := LiteralNumber)
    (rawMetadata (alice_request (selected_text "bob")))
  = Some (JObject [(js "selectedPerson", JString (js "bob"))])
  /\
  exists t,
    signing_calls
      (snd (Route.GET (NO := LiteralNumber) sample_env sample_draws
              sample_toJwt (alice_request (selected_text "bob")) [])) = [t] /\
    metadata (options t) = rawMetadata (alice_request (selected_text "bob")) /\
    ~ In (invalid_metadata (rawMetadata (alice_request (selected_text "bob"))))
        (snd (Route.GET (NO := LiteralNumber) sample_env sample_draws
                sample_toJwt (alice_request (selected_text "bob")) [])).
Proof.
  split; [vm_compute; reflexivity|].
  apply (valid_metadata_is_signed_verbatim (NO := LiteralNumber) sample_env
           sample_draws sample_toJwt (alice_request (selected_text "bob"))
           (js "lobby") (js "alice")
           (JObject [(js "selectedPerson", JString (js "bob"))]));
    first [vm_compute; reflexivity | discriminate].
Defined.



Lemma success_response_echoes_request_witness :
  status
    {| status := 200;
       body := Json {| serverUrl := Some (js "ws://livekit:7880");
                       roomName := js "lobby";
                       participantToken := js "signed:alice__DKRY";
                       participantName := js "alice" |} |} = 200
  /\
  exists roomName participantName t token,
    param (alice_request (js "{}")) "roomName" = Some roomName /\
    param (alice_request (js "{}")) "participantName" = Some participantName /\
    In (ToJwt t)
      (snd (Route.GET (NO := LiteralNumber) sample_env sample_draws
              sample_toJwt (alice_request (js "{}")) [])) /\
    sample_toJwt t = Return token /\
    body
      {| status := 200;
         body := Json {| serverUrl := Some (js "ws://livekit:7880");
                         roomName := js "lobby";
                         participantToken := js "signed:alice__DKRY";
                         participantName := js "alice" |} |}
    = Json {| serverUrl := sample_env !! js "LIVEKIT_URL";
              roomName := roomName;
              participantToken := token;
              participantName := participantName |}.
Proof.
  split; [reflexivity|].
  refine (success_response_echoes_request (NO := LiteralNumber) sample_env
            sample_draws sample_toJwt (alice_request (js "{}")) _ _
            (or_introl _) _).
  - vm_compute. reflexivity.
  - reflexivity.
Defined.

Lemma signed_token_name_and_credentials_witness :
  In (token_for sample_env sample_draws (js "lobby") (js "alice") (js "{}"))
    (signing_calls
       (snd (Route.GET (NO := LiteralNumber) sample_env sample_draws
               sample_toJwt (alice_request (js "{}")) [])))
  /\
  param (alice_request (js "{}")) "participantName"
    = Some (name (options (token_for sample_env sample_draws (js "lobby")
                             (js "alice") (js "{}")))) /\
  apiKey (token_for sample_env sample_draws (js "lobby") (js "alice")
            (js "{}"))
    = sample_env !! js "LIVEKIT_API_KEY" /\
  apiSecret (token_for sample_env sample_draws (js "lobby") (js "alice")
               (js "{}"))
    = sample_env !! js "LIVEKIT_API_SECRET".
Proof.
  assert (H : In (token_for sample_env sample_draws (js "lobby") (js "alice")
                    (js "{}"))
                (signing_calls
                   (snd (Route.GET (NO := LiteralNumber) sample_env
                           sample_draws sample_toJwt
                           (alice_request (js "{}")) [])))).
  { vm_compute. left. reflexivity. }
  split; [exact H|].
  exact (signed_token_name_and_credentials (NO := LiteralNumber) sample_env
           sample_draws sample_toJwt (alice_request (js "{}")) _ _
           (or_introl eq_refl) H).
Defined.

Lemma logged_metadata_is_signed_metadata_witness :
  In (ToJwt (token_for sample_env sample_draws (js "lobby") (js "alice")
               (js "{}")))
    (snd (Route.GET (NO := LiteralNumber) sample_env sample_draws
            sample_toJwt (alice_request (js "{}")) []))
  /\
  exists before after,
    snd (Route.GET (NO := LiteralNumber) sample_env sample_draws
           sample_toJwt (alice_request (js "{}")) [])
    = before
        ++ assigning
             (name (options (token_for sample_env sample_draws (js "lobby")
                               (js "alice") (js "{}"))))
             (metadata (options (token_for sample_env sample_draws
                                   (js "lobby") (js "alice") (js "{}"))))
        :: ToJwt (token_for sample_env sample_draws (js "lobby") (js "alice")
                    (js "{}"))
        :: after.
Proof.
  assert (H : In (ToJwt (token_for sample_env sample_draws (js "lobby")
                           (js "alice") (js "{}")))
                (snd (Route.GET (NO := LiteralNumber) sample_env sample_draws
                        sample_toJwt (alice_request (js "{}")) []))).
  { vm_compute. right. right. left. reflexivity. }
  split; [exact H|].
  exact (logged_metadata_is_signed_metadata (NO := LiteralNumber) sample_env
           sample_draws sample_toJwt (alice_request (js "{}")) _ _
           (or_introl eq_refl) H).
Defined.

Lemma absent_metadata_is_warned_and_replaced_witness :
  param (request_of [("roomName", "lobby"); ("participantName", "alice")]%string)
    "metadata" = None
  /\
  exists after,
    snd (Route.GET (NO := LiteralNumber) sample_env sample_draws sample_toJwt
           (request_of [("roomName", "lobby");
                        ("participantName", "alice")]%string) [])
    = [Console WARN
         [Text (warning_sign
                  ++ js " Warning: No metadata received for participant "
                  ++ js "alice")];
       invalid_metadata [];
       assigning (js "alice")
         (JSON_stringify (NO := LiteralNumber)
            (JObject [(js "selectedPerson", JString (js "alice"))]));
       ToJwt (token_for sample_env sample_draws (js "lobby") (js "alice")
                (JSON_stringify (NO := LiteralNumber)
                   (JObject [(js "selectedPerson", JString (js "alice"))])))]
      ++ after.
Proof.
  split; [reflexivity|].
  refine (proj2 (absent_metadata_is_warned_and_replaced (NO := LiteralNumber)
                   sample_env sample_draws sample_toJwt
                   (request_of [("roomName", "lobby");
                                ("participantName", "alice")]%string)
                   (js "lobby") (js "alice") _ _ _ _) (or_introl _));
    try reflexivity; discriminate.
Defined.

Lemma invalid_line_means_default_witness :
  JSON_parse (NO := LiteralNumber) (rawMetadata (alice_request (js "{oops")))
    = None
  /\
  In (invalid_metadata (rawMetadata (alice_request (js "{oops"))))
    (snd (Route.GET (NO := LiteralNumber) sample_env sample_draws sample_toJwt
            (alice_request (js "{oops")) [])).
Proof.
  assert (H : JSON_parse (NO := LiteralNumber)
                (rawMetadata (alice_request (js "{oops"))) = None).
  { vm_compute. reflexivity. }
  split; [exact H|].
  refine (proj2 (proj1 (invalid_line_means_default (NO := LiteralNumber)
                          sample_env sample_draws sample_toJwt
                          (alice_request (js "{oops"))
                          (js "lobby") (js "alice") _ _ _ _)) H);
    try reflexivity; discriminate.
Defined.

Lemma defaults_compose_witness :
  Part001.derive_botName (NO := LiteralNumber) (js "carol")
    (JSON_stringify (NO := LiteralNumber)
       (JObject [(js "selectedPerson", JString (js "alice"))])) [] =
  (Return (JSON_stringify (NO := LiteralNumber)
             (JObject [(js "selectedPerson", JString (js "alice"));
                       (js "botName", JString (js "alice"))])), [])
  /\
  Part001.derive_botName (NO := LiteralNumber) (js "carol")
    (JSON_stringify (NO := LiteralNumber)
       (JObject [(js "selectedPerson", JString (js "alice"));
                 (js "botName", JString (js "alice"))])) [] =
  (Return (JSON_stringify (NO := LiteralNumber)
             (JObject [(js "selectedPerson", JString (js "alice"));
                       (js "botName", JString (js "alice"))])), []).
Proof.
  apply (defaults_compose (NO := LiteralNumber) (js "alice") (js "carol")).
  discriminate.
Defined.

Lemma array_metadata_loses_botName_witness :
  JSON_parse (NO := LiteralNumber) (rawMetadata (alice_request (js "[true]")))
    = Some (JArray [JBool true])
  /\
  exists t,
    signing_calls
      (snd (Part001.GET (NO := LiteralNumber) sample_env sample_draws
              sample_toJwt (alice_request (js "[true]")) [])) = [t] /\
    metadata (options t)
      = JSON_stringify (NO := LiteralNumber) (JArray [JBool true]) /\
    JSON_parse (NO := LiteralNumber) (metadata (options t))
      = Some (JArray (List.map (json_image (NO := LiteralNumber))
                        [JBool true])) /\
    GetV (NO := LiteralNumber)
      (JArray (List.map (json_image (NO := LiteralNumber)) [JBool true]))
      (js "botName") = Return None /\
    ~ In (invalid_metadata (rawMetadata (alice_request (js "[true]"))))
        (snd (Part001.GET (NO := LiteralNumber) sample_env sample_draws
                sample_toJwt (alice_request (js "[true]")) [])).
Proof.
  split; [vm_compute; reflexivity|].
  apply (array_metadata_loses_botName (NO := LiteralNumber) sample_env
           sample_draws sample_toJwt (alice_request (js "[true]"))
           (js "lobby") (js "alice") [JBool true]);
    first [vm_compute; reflexivity | discriminate].
Defined.

Lemma object_metadata_keeps_other_properties_witness :
  JSON_parse (NO := LiteralNumber)
    (rawMetadata (alice_request (selected_text "bob")))
  = Some (JObject [(js "selectedPerson", JString (js "bob"))])
  /\
  exists t o',
    signing_calls
      (snd (Part001.GET (NO := LiteralNumber) sample_env sample_draws
              sample_toJwt (alice_request (selected_text "bob")) [])) = [t] /\
    JSON_parse (NO := LiteralNumber) (metadata (options t))
      = Some (JObject o') /\
    (forall k, k <> js "botName" ->
               obj_get k o' =
               option_map (json_image (NO := LiteralNumber))
                 (obj_get k [(js "selectedPerson", JString (js "bob"))])) /\
    keys o' =
      match obj_get (js "botName")
              [(js "selectedPerson", JString (js "bob"))] with
      | Some _ => keys [(js "selectedPerson", JString (js "bob"))]
      | None => keys [(js "selectedPerson", JString (js "bob"))]
                  ++ [js "botName"]
      end.
Proof.
  split; [vm_compute; reflexivity|].
  apply (object_metadata_keeps_other_properties (NO := LiteralNumber)
           sample_env sample_draws sample_toJwt
           (alice_request (selected_text "bob")) (js "lobby") (js "alice")
           [(js "selectedPerson", JString (js "bob"))]);
    first [vm_compute; reflexivity | discriminate].
Defined.

Lemma handlers_read_three_settings_witness :
  (<[js "LIVEKIT_URL_EU" := js "ws://eu:7880"]> sample_env
     : gmap jsstring jsstring) !! js "LIVEKIT_URL_EU"
    = Some (js "ws://eu:7880")
  /\
  Route.GET (NO := LiteralNumber) sample_env sample_draws sample_toJwt
    (alice_request (js "{}")) []
  = Route.GET (NO := LiteralNumber)
      (<[js "LIVEKIT_URL_EU" := js "ws://eu:7880"]> sample_env)
      sample_draws sample_toJwt (alice_request (js "{}")) []
  /\
  Part001.GET (NO := LiteralNumber) sample_env sample_draws sample_toJwt
    (alice_request (js "{}")) []
  = Part001.GET (NO := LiteralNumber)
      (<[js "LIVEKIT_URL_EU" := js "ws://eu:7880"]> sample_env)
      sample_draws sample_toJwt (alice_request (js "{}")) [].
Proof.
  split; [vm_compute; reflexivity|].
  apply (handlers_read_three_settings (NO := LiteralNumber) sample_env
           (<[js "LIVEKIT_URL_EU" := js "ws://eu:7880"]> sample_env)
           sample_draws sample_toJwt (alice_request (js "{}")));
    vm_compute; reflexivity.
Defined.

Lemma getLiveKitURL_ignores_region_case_witness :
  ascii_toUpperCase (js "eu") = ascii_toUpperCase (js "EU")
  /\
  Route.getLiveKitURL
    (<[js "LIVEKIT_URL_EU" := js "ws://eu:7880"]> sample_env)
    ascii_toUpperCase (Some (js "eu"))
  = Route.getLiveKitURL
      (<[js "LIVEKIT_URL_EU" := js "ws://eu:7880"]> sample_env)
      ascii_toUpperCase (Some (js "EU"))
  /\
  (forall url,
      (<[js "LIVEKIT_URL_EU" := js "ws://eu:7880"]> sample_env
         : gmap jsstring jsstring)
        !! (js "LIVEKIT_URL_" ++ ascii_toUpperCase (js "eu")) = Some url ->
      url <> [] ->
      Route.getLiveKitURL
        (<[js "LIVEKIT_URL_EU" := js "ws://eu:7880"]> sample_env)
        ascii_toUpperCase (Some (js "eu")) = Return url).
Proof.
  split; [reflexivity|].
  apply (getLiveKitURL_ignores_region_case
           (<[js "LIVEKIT_URL_EU" := js "ws://eu:7880"]> sample_env)
           ascii_toUpperCase (js "eu") (js "EU")).
  - intros s. reflexivity.
  - discriminate.
  - discriminate.
  - reflexivity.
Defined.

Lemma getLiveKitURL_has_no_fallback_witness :
  (<[js "LIVEKIT_URL" := js "ws://other:7880"]> sample_env
     : gmap jsstring jsstring) !! js "LIVEKIT_URL"
    = Some (js "ws://other:7880")
  /\
  Route.getLiveKitURL (<[js "LIVEKIT_URL" := js "ws://other:7880"]> sample_env)
    ascii_toUpperCase (Some (js "eu"))
  = Throw (Error (ascii_toUpperCase (js "LIVEKIT_URL_" ++ js "eu")
                    ++ js " is not defined")).
Proof.
  split; [vm_compute; reflexivity|].
  refine (proj2 (getLiveKitURL_has_no_fallback sample_env ascii_toUpperCase
                   (js "eu") (js "ws://other:7880") _ _) _).
  - discriminate.
  - vm_compute. discriminate.
  - vm_compute. reflexivity.
Defined.

Lemma selection_is_last_onSelect_witness :
  UI.selectedPerson
    (fst (fst (Dropdown.run Dropdown.initial
                 [UI.ClickButton; UI.ClickItem 1; UI.ClickItem 2])))
    = List.last
        (snd (fst (Dropdown.run Dropdown.initial
                     [UI.ClickButton; UI.ClickItem 1; UI.ClickItem 2])))
        (UI.selectedPerson Dropdown.initial) /\
  Forall (fun person => In person [js "Ram"; js "Shyam"; js "Ketan"])
    (snd (fst (Dropdown.run Dropdown.initial
                 [UI.ClickButton; UI.ClickItem 1; UI.ClickItem 2]))).
Proof.
  exact (selection_is_last_onSelect Dropdown.run
           [UI.ClickButton; UI.ClickItem 1; UI.ClickItem 2] Dropdown.initial
           (or_introl eq_refl)).
Defined.

Lemma button_clicks_only_toggle_witness :
  fst (Dropdown.run Dropdown.initial (repeat UI.ClickButton 3)) =
  ({| UI.isOpen :=
        if Nat.even 3 then UI.isOpen Dropdown.initial
        else negb (UI.isOpen Dropdown.initial);
      UI.selectedPerson := UI.selectedPerson Dropdown.initial |}, []).
Proof.
  exact (button_clicks_only_toggle Dropdown.run 3 Dropdown.initial
           (or_introl eq_refl)).
Defined.

End Samples.
